(** * PyProf: correlation of NVTX markers with GPU kernels

    A shallow embedding of [pyprof/parse/nvvp.py] (class [NVVP], method
    [getMarkerInfo] and its local helpers) together with the properties
    of the containment query, the marker classification, the
    dedup-sort-prune pipeline, the look-ahead cursor and the eviction of
    the temporary [marker] table.

    Conventions of the embedding.
    - Python [str] is [string] (a sequence of bytes); the comparison of
      two [str] is the lexicographic comparison of their code points,
      which is [String.compare] on the ASCII range used by the markers.
    - Python [int] is [Z].
    - An exception is a value of [exn]; a computation that may raise
      has type [result A].
    - The SQLite database behind [self.db] is a record of two tables,
      the temporary table [marker] and [StringTable]; the state of an
      [NVVP] object is this database and [self.markerId]. *)

From Stdlib Require Import List String Ascii ZArith Lia Bool Arith.
From Stdlib Require Import Permutation Sorted DecimalString.
Import ListNotations.

Local Open Scope string_scope.
Local Open Scope list_scope.

(** ** Exceptions *)

Inductive exn : Type :=
| AssertionError
| ValueError
| IndexError
| EvalError.

Inductive result (A : Type) : Type :=
| Ok (a : A)
| Raise (e : exn).

Arguments Ok {A} a.
Arguments Raise {A} e.

Definition rbind {A B : Type} (r : result A) (k : A -> result B) : result B :=
  match r with
  | Ok a => k a
  | Raise e => Raise e
  end.

Declare Scope result_scope.
Delimit Scope result_scope with result.

Notation "x <- c1 ;; c2" := (rbind c1 (fun x => c2))
  (at level 100, c1 at next level, right associativity) : result_scope.
Notation "' p <- c1 ;; c2" := (rbind c1 (fun p => c2))
  (at level 100, p pattern, c1 at next level, right associativity) : result_scope.

(** [assert (b)] *)
Definition py_assert (b : bool) : result unit :=
  if b then Ok tt else Raise AssertionError.

(** [for x in l: ... f x ...], collecting the values, stopping at the
    first exception. *)
Fixpoint mapM {A B : Type} (f : A -> result B) (l : list A) : result (list B) :=
  match l with
  | [] => Ok []
  | x :: l' =>
      (y <- f x ;;
       ys <- mapM f l' ;;
       Ok (y :: ys))%result
  end.

(** ** Python string primitives *)

Module Py.

(** [s.startswith(p)] *)
Fixpoint startswith (p s : string) : bool :=
  match p with
  | EmptyString => true
  | String a p' =>
      match s with
      | EmptyString => false
      | String b s' => Ascii.eqb a b && startswith p' s'
      end
  end.

(** [sub in s] (equivalently [s.find(sub) >= 0]). *)
Fixpoint contains (sub s : string) : bool :=
  startswith sub s
  || match s with
     | EmptyString => false
     | String _ s' => contains sub s'
     end.

(** [s.split(sep)] for a non-empty separator: the separators are found
    from left to right and do not overlap.  [skip] counts the bytes of
    a separator that was just recognised and are still to be dropped;
    [cur] is the piece being accumulated. *)
Fixpoint split_aux (sep : string) (skip : nat) (cur : string) (s : string)
  : list string :=
  match s with
  | EmptyString => [cur]
  | String c s' =>
      match skip with
      | S k => split_aux sep k cur s'
      | O =>
          if startswith sep s
          then cur :: split_aux sep (String.length sep - 1) EmptyString s'
          else split_aux sep 0 (cur ++ String c EmptyString)%string s'
      end
  end.

Definition split (sep s : string) : list string := split_aux sep 0 EmptyString s.

(** Whitespace removed by [int()] around its argument (ASCII range):
    0x09-0x0D and the space. *)
Definition is_space (c : ascii) : bool :=
  let n := nat_of_ascii c in
  ((9 <=? n) && (n <=? 13) || (n =? 32))%nat.

Fixpoint lstrip (s : string) : string :=
  match s with
  | EmptyString => EmptyString
  | String c s' => if is_space c then lstrip s' else s
  end.

Fixpoint rstrip (s : string) : string :=
  match s with
  | EmptyString => EmptyString
  | String c s' =>
      match rstrip s' with
      | EmptyString => if is_space c then EmptyString else String c EmptyString
      | r => String c r
      end
  end.

Definition strip (s : string) : string := rstrip (lstrip s).

Definition digit_of (c : ascii) : option Z :=
  let n := nat_of_ascii c in
  if ((48 <=? n) && (n <=? 57))%nat then Some (Z.of_nat (n - 48)) else None.

(** Decimal digits, a single underscore allowed between two digits.
    [after_digit] tells whether the previous byte was a digit. *)
Fixpoint digits (acc : Z) (after_digit : bool) (s : string) : option Z :=
  match s with
  | EmptyString => if after_digit then Some acc else None
  | String c s' =>
      match digit_of c with
      | Some d => digits (10 * acc + d)%Z true s'
      | None =>
          if Ascii.eqb c "_" && after_digit then digits acc false s' else None
      end
  end.

(** [int(s)] in base 10: surrounding whitespace, an optional sign, then
    the digits; [ValueError] otherwise. *)
Definition int (s : string) : result Z :=
  let t := strip s in
  let r :=
    match t with
    | String "+" u => digits 0 false u
    | String "-" u => option_map Z.opp (digits 0 false u)
    | _ => digits 0 false t
    end in
  match r with
  | Some z => Ok z
  | None => Raise ValueError
  end.

(** [l[i]] *)
Definition index {A : Type} (l : list A) (i : nat) : result A :=
  match nth_error l i with
  | Some a => Ok a
  | None => Raise IndexError
  end.

End Py.

(** [list.sort(key=...)] is stable and compares keys with [<] only:
    an insertion sort on (key, element) pairs in which an element is
    placed before the first later element whose key is not smaller. *)
Section StableSort.
Context {K A : Type} (ltb : K -> K -> bool).

Fixpoint insert_keyed (x : K * A) (l : list (K * A)) : list (K * A) :=
  match l with
  | [] => [x]
  | y :: l' => if ltb (fst y) (fst x) then y :: insert_keyed x l' else x :: l
  end.

Definition sort_keyed (l : list (K * A)) : list (K * A) :=
  fold_right insert_keyed [] l.
End StableSort.

(** The order of two (key, element) pairs is that of their keys. *)
Definition key_le {K A : Type} (le : K -> K -> Prop) (x y : K * A) : Prop :=
  le (fst x) (fst y).

(** [l.sort()] on a list of [int]. *)
Definition sort_int (l : list Z) : list Z :=
  map snd (sort_keyed Z.ltb (map (fun z => (z, z)) l)).

(** [l.sort(key=key)] on a list of [str] with [str] keys: the keys of
    all the elements are computed first, in list order. *)
Definition sort_by_key (key : string -> result string) (l : list string)
  : result (list string) :=
  (ks <- mapM key l ;;
   Ok (map snd (sort_keyed String.ltb (combine ks l))))%result.

(** ** The database *)

(** A row of the temporary table [marker] built by [createMarkerTable]. *)
Record MarkerRow : Type := {
  id : Z;
  startTime : Z;
  endTime : Z;
  objectId : string;
  name : Z
}.

(** A row of [StringTable]. *)
Record StringRow : Type := {
  _id_ : Z;
  value : string
}.

Record Db : Type := {
  marker : list MarkerRow;
  StringTable : list StringRow
}.

(** The columns [id, name] returned by the two [SELECT id,name] queries. *)
Record IdName : Type := {
  r_id : Z;
  r_name : Z
}.

Definition id_name (r : MarkerRow) : IdName :=
  {| r_id := id r; r_name := name r |}.

(** The instance of class [NVVP]: [self.db] and [self.markerId]. *)
Record NVVP : Type := {
  db : Db;
  markerId : Z
}.

(** [NVVP.__init__] *)
Definition init (d : Db) : NVVP := {| db := d; markerId := 0 |}.

(** ** What the code leaves to its environment

    - [ORDER BY startTime ASC] does not say in which order rows with the
      same [startTime] come out;
    - [list(set(l))] enumerates the distinct elements of [l] in an order
      that depends on the hash of the elements;
    - [eval(m)['traceMarker']] is the Python evaluator applied to the
      text of a trace marker.
    The model is parameterised by these choices. *)
Class Runtime : Type := {
  order_by_startTime : list MarkerRow -> list MarkerRow;
  list_set_str : list string -> list string;
  list_set_int : list Z -> list Z;
  eval_traceMarker : string -> result (list string)
}.

Definition startTime_le (a b : MarkerRow) : Prop := (startTime a <= startTime b)%Z.

Class RuntimeLaws (R : Runtime) : Prop := {
  order_by_perm : forall l, Permutation (order_by_startTime l) l;
  order_by_sorted : forall l, StronglySorted startTime_le (order_by_startTime l);
  list_set_str_perm : forall l, Permutation (list_set_str l) (nodup string_dec l);
  list_set_int_perm : forall l, Permutation (list_set_int l) (nodup Z.eq_dec l)
}.

(** A reference runtime: stable order on equal start times, distinct
    elements in the order of their last occurrence, and an evaluator
    that rejects every text. *)
Definition ref_order_by (l : list MarkerRow) : list MarkerRow :=
  map snd (sort_keyed Z.ltb (map (fun r => (startTime r, r)) l)).

Definition ref_runtime : Runtime := {|
  order_by_startTime := ref_order_by;
  list_set_str := nodup string_dec;
  list_set_int := nodup Z.eq_dec;
  eval_traceMarker := fun _ => Raise EvalError
|}.

(** ** The queries of [getMarkerInfo] *)

Section Queries.
Context {R : Runtime}.

(** [WHERE objectId = "O" and startTime < s and endTime > e] *)
Definition encloses (objId : string) (s e : Z) (r : MarkerRow) : bool :=
  String.eqb (objectId r) objId && (startTime r <? s)%Z && (endTime r >? e)%Z.

(** The marker rows selected by the containment query, in the order
    of the answer. *)
Definition enclosing (d : Db) (objId : string) (s e : Z) : list MarkerRow :=
  order_by_startTime (filter (encloses objId s e) (marker d)).

(** [SELECT id,name from marker where objectId = "O" and
    startTime < s and endTime > e ORDER BY startTime ASC] *)
Definition select_enclosing (d : Db) (objId : string) (s e : Z) : list IdName :=
  map id_name (enclosing d objId s e).

(** [WHERE objectId = "O" and id > lo and id < hi] *)
Definition between (objId : string) (lo hi : Z) (r : MarkerRow) : bool :=
  String.eqb (objectId r) objId && (id r >? lo)%Z && (id r <? hi)%Z.

Definition window (d : Db) (objId : string) (lo hi : Z) : list MarkerRow :=
  order_by_startTime (filter (between objId lo hi) (marker d)).

(** [SELECT id,name from marker where objectId = "O" and id > lo and
    id < hi ORDER BY startTime ASC] *)
Definition select_between (d : Db) (objId : string) (lo hi : Z) : list IdName :=
  map id_name (window d objId lo hi).

(** [WHERE objectId = "O" AND endTime < sTime - margin], [margin = 0] *)
Definition evicted (objId : string) (sTime : Z) (r : MarkerRow) : bool :=
  let margin := 0%Z in
  String.eqb (objectId r) objId && (endTime r <? sTime - margin)%Z.

(** [DELETE FROM marker WHERE objectId = "O" AND endTime < sTime] *)
Definition delete (objId : string) (sTime : Z) (d : Db) : Db :=
  {| marker := filter (fun r => negb (evicted objId sTime r)) (marker d);
     StringTable := StringTable d |}.

(** [getString]: the value of the only row of [StringTable] with the
    given [_id_]. *)
Definition getString (d : Db) (id_ : Z) : result string :=
  let rows := filter (fun r => (_id_ r =? id_)%Z) (StringTable d) in
  (_ <- py_assert (List.length rows =? 1)%nat ;;
   Py.index (map value rows) 0)%result.
End Queries.

(** ** The helpers local to [getMarkerInfo] *)

Definition truthy {A : Type} (l : list A) : bool :=
  match l with
  | [] => false
  | _ :: _ => true
  end.

Definition getLayerName (mlist : list string) : result (list string) :=
  mapM (fun m =>
          (_ <- py_assert (Py.contains "layer:" m) ;;
           Py.index (Py.split ":" m) 1)%result) mlist.

(** The body of the loop of [getSeqId]. *)
Definition seq_of (m : string) : result Z :=
  (_ <- py_assert (Py.contains ", seq = " m) ;;
   f <- Py.index (Py.split "," m) 1 ;;
   g <- Py.index (Py.split "=" f) 1 ;;
   Py.int g)%result.

(** The id of a text parses to [z]: the text carries the strict
    delimiter, its second comma-separated field has a second
    ["="]-separated piece, and [int] accepts that piece. *)
Definition seq_text_parses (m : string) (z : Z) : Prop :=
  Py.contains ", seq = " m = true
  /\ exists f g,
       nth_error (Py.split "," m) 1 = Some f
       /\ nth_error (Py.split "=" f) 1 = Some g
       /\ Py.int g = Ok z.

Definition getSeqId {R : Runtime} (mlist : list string) : result (list Z) :=
  (ids <- mapM seq_of mlist ;;
   Ok (sort_int (list_set_int ids)))%result.

Definition seqcompare (elem : string) : result string :=
  (_ <- py_assert (Py.contains ", seq = " elem) ;;
   let l := Py.split " = " elem in
   l1 <- Py.index l 1 ;;
   l0 <- Py.index l 0 ;;
   Ok (l1 ++ l0)%string)%result.

(** [name, seq = m.split(",")[0:2]]: unpacking fails with [ValueError]
    when the slice has fewer than two elements. *)
Definition name_seq (m : string) : result (string * string) :=
  match Py.split "," m with
  | a :: b :: _ => Ok (a, b)
  | _ => Raise ValueError
  end.

(** The loop of [prune] from index [i] on; [pm] is [mlist[i - 1]]. *)
Fixpoint prune_from (pm : string) (rest : list string) : result (list string) :=
  match rest with
  | [] => Ok []
  | m :: rest' =>
      ('(name, seq) <- name_seq m ;;
       '(pname, pseq) <- name_seq pm ;;
       a <- prune_from m rest' ;;
       let similar := Py.contains name pname || Py.contains pname name in
       if String.eqb seq pseq && similar then Ok a else Ok (m :: a))%result
  end.

Definition prune (mlist : list string) : result (list string) :=
  match mlist with
  | [] => Raise AssertionError
  | m0 :: rest => (a <- prune_from m0 rest ;; Ok (m0 :: a))%result
  end.

Definition excluded_paths : list string :=
  [ "/torch/nn/modules/"; "/torch/nn/functional.py"; "/torch/tensor.py";
    "/torch/autograd/__init__.py"; "/torch/_jit_internal.py";
    "/pyprof/nvtx/nvmarker.py"; "/apex/optimizers/"; "/torch/_utils.py";
    "/torch/optim/" ].

Definition filterTrace {R : Runtime} (mlist : list string) : result (list string) :=
  match mlist with
  | [] => Ok mlist
  | m0 :: rest =>
      (frames <- eval_traceMarker (last rest m0) ;;
       Ok (fold_left (fun fs p => filter (fun x => negb (Py.contains p x)) fs)
                     excluded_paths frames))%result
  end.

(** [list(set(l)); l.sort(key=seqcompare); prune(l)] *)
Definition dedup_sort_prune {R : Runtime} (mlist : list string) : result (list string) :=
  (sorted <- sort_by_key seqcompare (list_set_str mlist) ;;
   prune sorted)%result.

(** [if (len(l)): l = list(set(l)); l.sort(key=seqcompare); l = prune(l)] *)
Definition normalise {R : Runtime} (mlist : list string) : result (list string) :=
  if truthy mlist then dedup_sort_prune mlist else Ok mlist.

(** ** Binning of the enclosing markers *)

(** The six lists filled by the first loop of [getMarkerInfo], and the
    flag [bprop]. *)
Record Bins : Type := {
  layerMarkers : list string;
  traceMarkers : list string;
  reprMarkers : list string;
  pyprofMarkers : list string;
  seqMarkers : list string;
  otherMarkers : list string;
  bprop : bool
}.

Definition no_bins : Bins :=
  {| layerMarkers := []; traceMarkers := []; reprMarkers := [];
     pyprofMarkers := []; seqMarkers := []; otherMarkers := [];
     bprop := false |}.

Definition set_bprop (b : Bins) : Bins :=
  {| layerMarkers := layerMarkers b; traceMarkers := traceMarkers b;
     reprMarkers := reprMarkers b; pyprofMarkers := pyprofMarkers b;
     seqMarkers := seqMarkers b; otherMarkers := otherMarkers b;
     bprop := true |}.

Definition append_pyprof (b : Bins) (m : string) : Bins :=
  {| layerMarkers := layerMarkers b; traceMarkers := traceMarkers b;
     reprMarkers := reprMarkers b; pyprofMarkers := pyprofMarkers b ++ [m];
     seqMarkers := seqMarkers b; otherMarkers := otherMarkers b;
     bprop := bprop b |}.

Definition append_layer (b : Bins) (m : string) : Bins :=
  {| layerMarkers := layerMarkers b ++ [m]; traceMarkers := traceMarkers b;
     reprMarkers := reprMarkers b; pyprofMarkers := pyprofMarkers b;
     seqMarkers := seqMarkers b; otherMarkers := otherMarkers b;
     bprop := bprop b |}.

Definition append_trace (b : Bins) (m : string) : Bins :=
  {| layerMarkers := layerMarkers b; traceMarkers := traceMarkers b ++ [m];
     reprMarkers := reprMarkers b; pyprofMarkers := pyprofMarkers b;
     seqMarkers := seqMarkers b; otherMarkers := otherMarkers b;
     bprop := bprop b |}.

Definition append_repr (b : Bins) (m : string) : Bins :=
  {| layerMarkers := layerMarkers b; traceMarkers := traceMarkers b;
     reprMarkers := reprMarkers b ++ [m]; pyprofMarkers := pyprofMarkers b;
     seqMarkers := seqMarkers b; otherMarkers := otherMarkers b;
     bprop := bprop b |}.

Definition append_seq (b : Bins) (m : string) : Bins :=
  {| layerMarkers := layerMarkers b; traceMarkers := traceMarkers b;
     reprMarkers := reprMarkers b; pyprofMarkers := pyprofMarkers b;
     seqMarkers := seqMarkers b ++ [m]; otherMarkers := otherMarkers b;
     bprop := bprop b |}.

Definition append_other (b : Bins) (m : string) : Bins :=
  {| layerMarkers := layerMarkers b; traceMarkers := traceMarkers b;
     reprMarkers := reprMarkers b; pyprofMarkers := pyprofMarkers b;
     seqMarkers := seqMarkers b; otherMarkers := otherMarkers b ++ [m];
     bprop := bprop b |}.

(** [m.find("CheckpointFunctionBackward") >= 0] *)
Definition is_checkpoint (m : string) : bool :=
  Py.contains "CheckpointFunctionBackward" m.

Definition is_backward (m : string) : bool :=
  Py.contains "_backward, seq =" m
  || Py.contains "Backward, seq =" m
  || Py.contains "Backward0, seq =" m.

(** [("mod" in m) and ("op" in m) and ("args" in m) and ("type" in m)] *)
Definition is_pyprof (m : string) : bool :=
  Py.contains "mod" m && Py.contains "op" m
  && Py.contains "args" m && Py.contains "type" m.

(** The body of the first loop, once the text [m] of the row is known. *)
Definition bin_marker (b : Bins) (m : string) : Bins :=
  if is_checkpoint m then b
  else
    let b := if is_backward m then set_bprop b else b in
    if is_pyprof m then append_pyprof b m
    else if Py.contains "layer:" m then append_layer b m
    else if Py.contains "traceMarker" m then append_trace b m
    else if Py.contains "strRepr" m then append_repr b m
    else if Py.contains ", seq = " m then append_seq b m
    else append_other b m.

(** [for r in result: m = self.getString(r['name']); ...] *)
Fixpoint bin_loop (d : Db) (b : Bins) (rows : list IdName) : result Bins :=
  match rows with
  | [] => Ok b
  | r :: rows' =>
      (m <- getString d (r_name r) ;;
       bin_loop d (bin_marker b m) rows')%result
  end.

(** [for r in result1: m = self.getString(r['name']);
    if (", seq=" in m): altSeqMarkers.append(m)] *)
Fixpoint alt_loop (d : Db) (alt : list string) (rows : list IdName)
  : result (list string) :=
  match rows with
  | [] => Ok alt
  | r :: rows' =>
      (m <- getString d (r_name r) ;;
       alt_loop d (if Py.contains ", seq=" m then alt ++ [m] else alt) rows')%result
  end.

(** The category a marker text is binned into, read off the
    [if]/[elif] chain. *)
Inductive Category : Type :=
| OpArgs
| Layer
| Trace
| ModuleRepr
| Sequence
| Other.

Definition classify (m : string) : Category :=
  if is_pyprof m then OpArgs
  else if Py.contains "layer:" m then Layer
  else if Py.contains "traceMarker" m then Trace
  else if Py.contains "strRepr" m then ModuleRepr
  else if Py.contains ", seq = " m then Sequence
  else Other.

Definition Category_eqb (c1 c2 : Category) : bool :=
  match c1, c2 with
  | OpArgs, OpArgs | Layer, Layer | Trace, Trace
  | ModuleRepr, ModuleRepr | Sequence, Sequence | Other, Other => true
  | _, _ => false
  end.

(** The list of [Bins] that holds the texts of a category. *)
Definition bin_of (c : Category) (b : Bins) : list string :=
  match c with
  | OpArgs => pyprofMarkers b
  | Layer => layerMarkers b
  | Trace => traceMarkers b
  | ModuleRepr => reprMarkers b
  | Sequence => seqMarkers b
  | Other => otherMarkers b
  end.

(** ** [getMarkerInfo] *)

(** The value returned by [getMarkerInfo], a tuple of ten components. *)
Record CorrelationRecord : Type := {
  out_layerMarkers : list string;
  out_trace : list string;
  out_reprMarkers : list string;
  out_pyprofMarkers : list string;
  out_seqMarkers : list string;
  out_otherMarkers : list string;
  out_altSeqMarkers : list string;
  out_seqIds : list Z;
  out_altSeqIds : list Z;
  out_layerNames : list string
}.

(** Computations of a method of [NVVP]: they read and write the
    instance and may raise; the instance keeps the writes made before
    an exception. *)
Definition M (A : Type) : Type := NVVP -> result A * NVVP.

Definition ret {A : Type} (a : A) : M A := fun s => (Ok a, s).

Definition bind {A B : Type} (c : M A) (k : A -> M B) : M B :=
  fun s =>
    match c s with
    | (Ok a, s') => k a s'
    | (Raise e, s') => (Raise e, s')
    end.

(** A computation that only reads the database. *)
Definition query {A : Type} (q : Db -> result A) : M A :=
  fun s => (q (db s), s).

(** [self.db.execute(cmd)] for a command that rewrites the database. *)
Definition execute (u : Db -> Db) : M unit :=
  fun s => (Ok tt, {| db := u (db s); markerId := markerId s |}).

Definition lift {A : Type} (r : result A) : M A := fun s => (r, s).

Definition read_markerId : M Z := fun s => (Ok (markerId s), s).

Definition write_markerId (z : Z) : M unit :=
  fun s => (Ok tt, {| db := db s; markerId := z |}).

Declare Scope nvvp_scope.
Delimit Scope nvvp_scope with nvvp.

Notation "x <- c1 ;; c2" := (bind c1 (fun x => c2))
  (at level 100, c1 at next level, right associativity) : nvvp_scope.
Notation "c1 ;; c2" := (bind c1 (fun _ => c2))
  (at level 100, right associativity) : nvvp_scope.

Section GetMarkerInfo.
Context {R : Runtime}.

(** Lines 295-318: the markers between the previous and the present
    forward kernel. *)
Definition lookahead (objId : string) (rows : list IdName) : M (list string) :=
  (loId <- read_markerId ;;
   hiId <- lift (Py.index (map r_id rows) (List.length rows - 1)) ;;
   write_markerId hiId ;;
   result1 <- query (fun d => Ok (select_between d objId loId hiId)) ;;
   altSeqMarkers <- query (fun d => alt_loop d [] result1) ;;
   lift (normalise altSeqMarkers))%nvvp.

(** The [return] statement: the components of the tuple are
    evaluated from left to right. *)
Definition returned (bins : Bins)
  (seqMarkers otherMarkers altSeqMarkers : list string)
  : result CorrelationRecord :=
  (trace <- filterTrace (traceMarkers bins) ;;
   seqIds <- getSeqId seqMarkers ;;
   altSeqIds <- getSeqId altSeqMarkers ;;
   layerNames <- getLayerName (layerMarkers bins) ;;
   Ok {| out_layerMarkers := layerMarkers bins;
         out_trace := trace;
         out_reprMarkers := reprMarkers bins;
         out_pyprofMarkers := pyprofMarkers bins;
         out_seqMarkers := seqMarkers;
         out_otherMarkers := otherMarkers;
         out_altSeqMarkers := altSeqMarkers;
         out_seqIds := seqIds;
         out_altSeqIds := altSeqIds;
         out_layerNames := layerNames |})%result.

Definition getMarkerInfo (objId : string) (startTime endTime : Z)
  : M CorrelationRecord :=
  (rows <- query (fun d => Ok (select_enclosing d objId startTime endTime)) ;;
   bins <- query (fun d => bin_loop d no_bins rows) ;;
   seqMarkers <- lift (normalise (seqMarkers bins)) ;;
   let otherMarkers := list_set_str (otherMarkers bins) in
   altSeqMarkers <-
     (if truthy rows && negb (bprop bins)
      then lookahead objId rows
      else ret []) ;;
   execute (delete objId startTime) ;;
   lift (returned bins seqMarkers otherMarkers altSeqMarkers))%nvvp.

(** A run of the caller: one call per kernel, whatever its outcome. *)
Fixpoint run (calls : list (string * Z * Z)) (s : NVVP) : NVVP :=
  match calls with
  | [] => s
  | (objId, startTime, endTime) :: calls' =>
      run calls' (snd (getMarkerInfo objId startTime endTime s))
  end.
End GetMarkerInfo.

(** ** The specification's reading of three steps, for comparison *)

Module Spec.

(** The sort key as the specification words it: the text is split on
    [" = "] into (prefix, suffix) and the key is the pair
    (suffix, prefix), compared as text, first component first. *)
Definition pair_key (m : string) : string * string :=
  match Py.split " = " m with
  | p :: s :: _ => (s, p)
  | _ => (EmptyString, m)
  end.

Definition pair_ltb (a b : string * string) : bool :=
  String.ltb (fst a) (fst b)
  || String.eqb (fst a) (fst b) && String.ltb (snd a) (snd b).

(** The text before and the text after the first comma. *)
Fixpoint cut_at_comma (s : string) : string * string :=
  match s with
  | EmptyString => (EmptyString, EmptyString)
  | String c s' =>
      if Ascii.eqb c ","
      then (EmptyString, s')
      else let (a, b) := cut_at_comma s' in (String c a, b)
  end.

(** Prune as the specification words it: an element is compared with
    the previous element that was kept. *)
Fixpoint prune_kept (prev : string) (rest : list string) : list string :=
  match rest with
  | [] => []
  | m :: rest' =>
      let (name, seqPart) := cut_at_comma m in
      let (prevName, prevSeqPart) := cut_at_comma prev in
      if String.eqb seqPart prevSeqPart
         && (Py.contains name prevName || Py.contains prevName name)
      then prune_kept prev rest'
      else m :: prune_kept m rest'
  end.

Definition prune (mlist : list string) : list string :=
  match mlist with
  | [] => []
  | m0 :: rest => m0 :: prune_kept m0 rest
  end.

(** The text of a structured record as the instrumentation layer
    renders it ([str] of a [dict] in [nvmarker.argMarker]) starts with
    an opening brace and shows each key between quotes, followed by a
    colon.  A text that decodes as a record with the four keys passes
    this test. *)
Definition has_key (k m : string) : bool :=
  Py.contains ("'" ++ k ++ "':")%string m.

Definition opArgs_record (m : string) : bool :=
  Py.startswith "{" m
  && has_key "mod" m && has_key "op" m && has_key "args" m && has_key "type" m.

End Spec.

(** The pairs (previous element, element) that [prune] compares, and
    its test on such a pair. *)
Definition field (i : nat) (m : string) : string :=
  nth i (Py.split "," m) EmptyString.

Definition near_duplicate (pm m : string) : bool :=
  String.eqb (field 1 m) (field 1 pm)
  && (Py.contains (field 0 m) (field 0 pm) || Py.contains (field 0 pm) (field 0 m)).

(** The texts gathered by [lookahead] when the cursor is [lo] and
    the last enclosing marker has id [hi]. *)
Definition lookahead_alt {R : Runtime} (d : Db) (objId : string) (lo hi : Z)
  : result (list string) :=
  (alt <- alt_loop d [] (select_between d objId lo hi) ;;
   normalise alt)%result.

(** [result[-1]['id']] *)
Definition last_id (rows : list IdName) : Z := last (map r_id rows) 0%Z.

(** ** [encode_object_id] *)

(** The [n] low bytes of [x] in two's complement, least significant
    byte first. *)
Fixpoint le_bytes (n : nat) (x : Z) : list Z :=
  match n with
  | O => []
  | S k => (x mod 256)%Z :: le_bytes k (x / 256)%Z
  end.

Definition is_byte (b : Z) : Prop := (0 <= b < 256)%Z.

(** [struct.pack('<i', x)]; [None] stands for [struct.error], raised
    when [x] is not a signed integer of 32 bits. *)
Definition pack_i (x : Z) : option (list Z) :=
  if ((- 2 ^ 31 <=? x) && (x <? 2 ^ 31))%Z then Some (le_bytes 4 x) else None.

(** [struct.pack('<q', x)], for signed integers of 64 bits. *)
Definition pack_q (x : Z) : option (list Z) :=
  if ((- 2 ^ 63 <=? x) && (x <? 2 ^ 63))%Z then Some (le_bytes 8 x) else None.

Definition hex_digits_lower : list ascii :=
  ["0"; "1"; "2"; "3"; "4"; "5"; "6"; "7"; "8"; "9";
   "a"; "b"; "c"; "d"; "e"; "f"]%char.

Definition hex_digits_upper : list ascii :=
  ["0"; "1"; "2"; "3"; "4"; "5"; "6"; "7"; "8"; "9";
   "A"; "B"; "C"; "D"; "E"; "F"]%char.

Definition hex_byte (digits : list ascii) (b : Z) : string :=
  String (nth (Z.to_nat (b / 16)) digits "0"%char)
         (String (nth (Z.to_nat (b mod 16)) digits "0"%char) EmptyString).

(** [binascii.hexlify(bs).decode('ascii')]: two lower-case digits for
    each byte. *)
Definition hexlify (bs : list Z) : string :=
  fold_right (fun b acc => (hex_byte hex_digits_lower b ++ acc)%string) EmptyString bs.

(** [s.upper()] on the ASCII range. *)
Definition upper_char (c : ascii) : ascii :=
  let n := nat_of_ascii c in
  if ((97 <=? n) && (n <=? 122))%nat then ascii_of_nat (n - 32) else c.

Fixpoint upper (s : string) : string :=
  match s with
  | EmptyString => EmptyString
  | String c s' => String (upper_char c) (upper s')
  end.

(** The value stored in [info['objId']]. *)
Definition encode_object_id (pid tid : Z) : option string :=
  match pack_i pid with
  | None => None
  | Some p =>
      match pack_q tid with
      | None => None
      | Some t => Some (upper (hexlify (p ++ t)))
      end
  end.

(** The thread id as [getKernelInfo] selects it:
    [coalesce(runtime.threadId, driver.threadId) & 0xFFFFFFFF]. *)
Definition masked_tid (threadId : Z) : Z := Z.land threadId 4294967295.

(** ** [createMarkerTable] *)

(** A row of [CUPTI_ACTIVITY_KIND_MARKER]; [objectId] is a blob. *)
Module RawEvent.
Record t : Type := {
  _id_ : Z;
  id : Z;
  timestamp : Z;
  objectId : list Z;
  name : Z;
  flags : Z
}.
End RawEvent.

(** The SQL function [HEX] on a blob: two upper-case digits for each
    byte. *)
Definition sql_hex (bs : list Z) : string :=
  fold_right (fun b acc => (hex_byte hex_digits_upper b ++ acc)%string) EmptyString bs.

(** [ON a.id = b.id and a.flags = 2 and b.flags = 4] *)
Definition joined (a b : RawEvent.t) : bool :=
  ((RawEvent.id a =? RawEvent.id b)
   && (RawEvent.flags a =? 2) && (RawEvent.flags b =? 4))%Z.

(** The columns selected for a pair of joined rows. *)
Definition marker_row (a b : RawEvent.t) : MarkerRow :=
  {| id := RawEvent._id_ a;
     startTime := RawEvent.timestamp a;
     endTime := RawEvent.timestamp b;
     objectId := sql_hex (RawEvent.objectId a);
     name := RawEvent.name a |}.

(** The rows of the temporary table [marker]: the inner join of the
    events with themselves.  (The order of the rows of a join is not
    fixed by SQL; the three indexes change no answer.) *)
Definition createMarkerTable (events : list RawEvent.t) : list MarkerRow :=
  flat_map (fun a => map (marker_row a) (filter (joined a) events)) events.

(** ** [getProfileStart] *)

(** The column [start] of the driver, runtime and kernel tables and
    the column [timestamp] of the marker table. *)
Record ActivityTables : Type := {
  driver_start : list Z;
  runtime_start : list Z;
  kernel_start : list Z;
  marker_timestamp : list Z
}.

(** [sys.maxsize] *)
Definition maxsize : Z := (2 ^ 63 - 1)%Z.

(** [select col from table ORDER BY col ASC LIMIT 1] *)
Definition select_first (col : list Z) : list Z := firstn 1 (sort_int col).

(** The body of the loop of [getProfileStart] for one table. *)
Definition profile_step (profStart : Z) (col : list Z) : result Z :=
  let rows := select_first col in
  (_ <- py_assert (List.length rows <=? 1)%nat ;;
   if (List.length rows =? 1)%nat
   then (t <- Py.index rows 0 ;;
         Ok (if (t <? profStart)%Z then t else profStart))
   else Ok profStart)%result.

Fixpoint foldM {A B : Type} (f : A -> B -> result A) (a : A) (l : list B) : result A :=
  match l with
  | [] => Ok a
  | x :: l' => (a' <- f a x ;; foldM f a' l')%result
  end.

Definition getProfileStart (tabs : ActivityTables) : result Z :=
  (profStart <- foldM profile_step maxsize
                  [driver_start tabs; runtime_start tabs;
                   kernel_start tabs; marker_timestamp tabs] ;;
   _ <- py_assert (profStart <? maxsize)%Z ;;
   Ok profStart)%result.

(** All the times [getProfileStart] looks at. *)
Definition all_times (tabs : ActivityTables) : list Z :=
  driver_start tabs ++ runtime_start tabs ++ kernel_start tabs ++ marker_timestamp tabs.

(** ** Subsequences *)

(** [Subseq l1 l2]: [l1] is [l2] with some elements left out. *)
Inductive Subseq {A : Type} : list A -> list A -> Prop :=
| Subseq_nil : Subseq [] []
| Subseq_skip (x : A) (l1 l2 : list A) : Subseq l1 l2 -> Subseq l1 (x :: l2)
| Subseq_keep (x : A) (l1 l2 : list A) : Subseq l1 l2 -> Subseq (x :: l1) (x :: l2).

(** ** The markers written by [nvmarker.py]

    The arguments of a patched function are Python objects; the model
    keeps of an object what [argMarker] looks at: its class (tensor,
    numpy array, scalar, list or tuple, anything else) and, for the
    objects that are written as they are, their [repr].  The [repr] of
    a [str] is a parameter [repr_str] of the model. *)

Module Nvmarker.

(** A [float]: the three values that [scalar] tests for, or any other
    value, with its [repr]. *)
Inductive PyFloat : Type :=
| FInf
| FNegInf
| FNan
| FOther (text : string).

(** The objects for which [isscalar] holds. *)
Inductive Scalar : Type :=
| SInt (z : Z)
| SFloat (f : PyFloat)
| SBool (b : bool)
| SNone
| SStr (s : string).

#[warnings="-register-all"]
Inductive PyObj : Type :=
| Tensor0 (item : Scalar) (text : string)
    (** a [torch.Tensor] with [dim() == 0], its [item()] (an [int], a
        [float] or a [bool]; complex tensors are left out) and its
        [repr] *)
| Tensor (size : list Z) (dtype : string) (text : string)
    (** any other [torch.Tensor]: [size()], [str(dtype)], [repr] *)
| NdArray (shape : list Z) (dtype : string) (text : string)
    (** a [numpy.ndarray]: [shape], [str(dtype)], [repr] *)
| Scal (s : Scalar)
| Seq (is_list : bool) (elems : list PyObj)
    (** a [list], or a [tuple] *)
| Opaque (text : string).
    (** any other object, with its [repr] *)

Section Render.
Variable repr_str : string -> string.

(** [str] of an [int] *)
Definition int_text (z : Z) : string := NilZero.string_of_int (Z.to_int z).

Definition repr_float (f : PyFloat) : string :=
  match f with
  | FInf => "inf"
  | FNegInf => "-inf"
  | FNan => "nan"
  | FOther text => text
  end.

Definition repr_scalar (s : Scalar) : string :=
  match s with
  | SInt z => int_text z
  | SFloat f => repr_float f
  | SBool true => "True"
  | SBool false => "False"
  | SNone => "None"
  | SStr s => repr_str s
  end.

(** [repr] of a list and of a tuple, from the [repr] of the elements. *)
Definition list_text (items : list string) : string :=
  ("[" ++ String.concat ", " items ++ "]")%string.

Definition tuple_text (items : list string) : string :=
  match items with
  | [x] => ("(" ++ x ++ ",)")%string
  | _ => ("(" ++ String.concat ", " items ++ ")")%string
  end.

Fixpoint repr_obj (o : PyObj) : string :=
  match o with
  | Tensor0 _ text => text
  | Tensor _ _ text => text
  | NdArray _ _ text => text
  | Scal s => repr_scalar s
  | Seq true elems => list_text (map repr_obj elems)
  | Seq false elems => tuple_text (map repr_obj elems)
  | Opaque text => text
  end.

(** [str] of a dict whose keys are the literal keys of the source;
    the values are given by their [repr]. *)
Definition dict_text (items : list (string * string)) : string :=
  ("{" ++ String.concat ", "
            (map (fun kv => ("'" ++ fst kv ++ "': " ++ snd kv)%string) items)
       ++ "}")%string.

(** [type(arg).__name__] *)
Definition type_name (s : Scalar) : string :=
  match s with
  | SInt _ => "int"
  | SFloat _ => "float"
  | SBool _ => "bool"
  | SNone => "NoneType"
  | SStr _ => "str"
  end.

Definition isscalar (o : PyObj) : bool :=
  match o with
  | Scal _ => true
  | _ => false
  end.

(** The dict appended by [scalar]: infinities and nan are written as
    the strings ["inf"], ["-inf"] and ["nan"]. *)
Definition scalar_record (name : string) (s : Scalar) : string :=
  dict_text
    [ ("name", repr_str name);
      ("type", repr_str (type_name s));
      ("value", match s with
                | SFloat FInf => repr_str "inf"
                | SFloat FNegInf => repr_str "-inf"
                | SFloat FNan => repr_str "nan"
                | _ => repr_scalar s
                end) ].

(** [str(arg.dtype).split(".")[-1]] *)
Definition dtype_name (dtype : string) : string :=
  last (Py.split "." dtype) EmptyString.

(** The dicts appended by [tensor] and [ndarray]. *)
Definition array_record (kind name : string) (shape : list Z) (dtype : string) : string :=
  dict_text
    [ ("name", repr_str name);
      ("type", repr_str kind);
      ("shape", tuple_text (map int_text shape));
      ("dtype", repr_str (dtype_name dtype)) ].

(** The dict appended by [seq]. *)
Definition seq_record (name : string) (is_list : bool) (elems : list PyObj) : string :=
  dict_text
    [ ("name", repr_str name);
      ("type", repr_str (if is_list then "list" else "tuple"));
      ("value", repr_obj (Seq is_list elems)) ].

(** The dicts that [foo] appends to [cadena['args']] for one object. *)
Fixpoint foo_obj (name : string) (o : PyObj) : list string :=
  match o with
  | Tensor0 item _ => [scalar_record name item]
  | Tensor size dtype _ => [array_record "tensor" name size dtype]
  | NdArray shape dtype _ => [array_record "ndarray" name shape dtype]
  | Scal s => [scalar_record name s]
  | Seq is_list elems =>
      match elems with
      | [] => [seq_record name is_list elems]
      | e :: _ =>
          if isscalar e
          then [seq_record name is_list elems]
          else flat_map (foo_obj name) elems
      end
  | Opaque _ => []
  end.

Definition foo (args : list PyObj) (name : string) : list string :=
  flat_map (foo_obj name) args.

(** The list [cadena['args']] at the end of [argMarker]. *)
Definition arg_records (args : list PyObj) (kwargs : list (string * PyObj)) : list string :=
  foo args EmptyString ++ flat_map (fun kv => foo [snd kv] (fst kv)) kwargs.

Definition argMarker (mod_name op : string) (args : list PyObj)
  (kwargs : list (string * PyObj)) : string :=
  dict_text
    [ ("mod", repr_str mod_name);
      ("op", repr_str op);
      ("args", list_text (arg_records args kwargs)) ].

(** [stack] is the list of the (file name, line number) of the frames. *)
Definition traceMarker (stack : list (string * Z)) : string :=
  let cadena :=
    map (fun fi => (fst fi ++ ":" ++ int_text (snd fi))%string) (removelast stack) in
  dict_text [ ("traceMarker", list_text (map repr_str cadena)) ].

(** [args] gives, for each positional argument, its [extra_repr()]. *)
Definition modMarker (mod_name : string) (args : list string) : result string :=
  (_ <- py_assert (0 <? List.length args)%nat ;;
   a0 <- Py.index args 0 ;;
   Ok (dict_text [ ("mod", repr_str mod_name); ("strRepr", repr_str a0) ]))%result.

End Render.

(** An object for which [foo] writes one record at least. *)
Fixpoint recorded (o : PyObj) : bool :=
  match o with
  | Opaque _ => false
  | Seq _ elems =>
      match elems with
      | [] => true
      | e :: _ => if isscalar e then true else existsb recorded elems
      end
  | _ => true
  end.

(** The [repr] of a [str] without quote, backslash or control
    character. *)
Definition plain_repr (s : string) : string := ("'" ++ s ++ "'")%string.

End Nvmarker.

(** The text [a] comes before the text [b] in the order of the keys
    of [seqcompare]. *)
Definition key_before (a b : string) : Prop :=
  exists ka kb, seqcompare a = Ok ka /\ seqcompare b = Ok kb
                /\ String.leb ka kb = true.

(** ** Two records *)

(** The record of a kernel that no marker encloses. *)
Definition empty_record : CorrelationRecord :=
  {| out_layerMarkers := []; out_trace := []; out_reprMarkers := [];
     out_pyprofMarkers := []; out_seqMarkers := []; out_otherMarkers := [];
     out_altSeqMarkers := []; out_seqIds := []; out_altSeqIds := [];
     out_layerNames := [] |}.

(** A record without its altSequence markers and ids. *)
Definition without_alt (rec : CorrelationRecord) : CorrelationRecord :=
  {| out_layerMarkers := out_layerMarkers rec; out_trace := out_trace rec;
     out_reprMarkers := out_reprMarkers rec;
     out_pyprofMarkers := out_pyprofMarkers rec;
     out_seqMarkers := out_seqMarkers rec;
     out_otherMarkers := out_otherMarkers rec;
     out_altSeqMarkers := []; out_seqIds := out_seqIds rec;
     out_altSeqIds := []; out_layerNames := out_layerNames rec |}.

(** ** Two small databases *)

Module Examples.

(** The objectIds of threads 1 and 2 of process 10, as
    [encode_object_id] writes them. *)
Definition O1 : string := "0A0000000100000000000000".
Definition O2 : string := "0A0000000200000000000000".

Definition row (i s e : Z) (o : string) (n : Z) : MarkerRow :=
  {| id := i; startTime := s; endTime := e; objectId := o; name := n |}.

Definition str (i : Z) (v : string) : StringRow := {| _id_ := i; value := v |}.

(** Two threads: on thread 2 a marker with the loose delimiter ends
    before a layer marker opens; thread 1 opens a layer marker later. *)
Definition two_threads : Db :=
  {| marker := [ row 2 1 5 O2 12; row 3 6 100 O2 11; row 5 7 100 O1 10 ];
     StringTable := [ str 10 "layer:conv"; str 11 "layer:fc"; str 12 "add, seq=4" ] |}.

(** The state after the kernel of thread 1 that starts at 10 and ends
    at 20 has been resolved. *)
Definition after_thread1 : NVVP := {| db := two_threads; markerId := 5 |}.

(** The record and the state after the kernel of thread 2 (same times)
    has then been resolved. *)
Definition record_thread2 : CorrelationRecord :=
  {| out_layerMarkers := ["layer:fc"]; out_trace := [];
     out_reprMarkers := []; out_pyprofMarkers := [];
     out_seqMarkers := []; out_otherMarkers := [];
     out_altSeqMarkers := []; out_seqIds := []; out_altSeqIds := [];
     out_layerNames := ["fc"] |}.

Definition after_thread2 : NVVP :=
  {| db := {| marker := [ row 3 6 100 O2 11; row 5 7 100 O1 10 ];
              StringTable := StringTable two_threads |};
     markerId := 3 |}.

(** One thread: a checkpointing marker, whose text carries both
    delimiters, encloses a layer marker. *)
Definition checkpointing : Db :=
  {| marker := [ row 1 0 100 O1 20; row 2 5 100 O1 21 ];
     StringTable := [ str 20 "CheckpointFunctionBackward, seq=3, seq = 3";
                      str 21 "layer:conv" ] |}.

(** One thread: the only marker that matches a backward pattern is a
    checkpointing marker. *)
Definition checkpoint_only : Db :=
  {| marker := [ row 1 0 100 O1 30; row 2 5 100 O1 31 ];
     StringTable := [ str 30 "CheckpointFunctionBackward, seq = 7";
                      str 31 "layer:conv" ] |}.

(** One thread: a layer marker, a sequence marker and an op marker
    enclose a forward kernel; later a backward marker encloses a
    backward kernel. *)
Definition forward_backward : Db :=
  {| marker := [ row 1 0 100 O1 40; row 2 1 90 O1 41; row 3 2 80 O1 42;
                 row 7 200 300 O1 43 ];
     StringTable :=
       [ str 40 "layer:conv"; str 41 "conv2d, seq = 5";
         str 42 "{'mod': 'torch', 'op': 'conv2d', 'args': [{'name': '', 'type': 'int', 'value': 1}]}";
         str 43 "CudnnConvolutionBackward, seq = 5" ] |}.

(** The record of the forward kernel (from 10 to 20) and the state
    after it. *)
Definition record_forward : CorrelationRecord :=
  {| out_layerMarkers := ["layer:conv"]; out_trace := [];
     out_reprMarkers := [];
     out_pyprofMarkers :=
       ["{'mod': 'torch', 'op': 'conv2d', 'args': [{'name': '', 'type': 'int', 'value': 1}]}"];
     out_seqMarkers := ["conv2d, seq = 5"]; out_otherMarkers := [];
     out_altSeqMarkers := []; out_seqIds := [5%Z]; out_altSeqIds := [];
     out_layerNames := ["conv"] |}.

Definition after_forward : NVVP := {| db := forward_backward; markerId := 3 |}.

End Examples.

(** * Properties *)

(** ** The string primitives on examples *)

Example contains_ex1 : Py.contains ", seq = " "AddBackward0, seq = 12" = true.
Proof. reflexivity. Qed.

Example contains_ex2 : Py.contains ", seq = " "AddBackward0, seq=12" = false.
Proof. reflexivity. Qed.

Example split_ex1 : Py.split " = " "a, seq = 5, op_id = 3" = ["a, seq"; "5, op_id"; "3"].
Proof. reflexivity. Qed.

Example split_ex2 : Py.split "," EmptyString = [EmptyString].
Proof. reflexivity. Qed.

Example split_ex3 : Py.split "," "a,,b," = ["a"; EmptyString; "b"; EmptyString].
Proof. reflexivity. Qed.

Example int_ex1 : Py.int " 12 " = Ok 12%Z.
Proof. reflexivity. Qed.

Example int_ex2 : Py.int " -1_0" = Ok (-10)%Z.
Proof. reflexivity. Qed.

Example int_ex3 : Py.int " 1 2" = Raise ValueError.
Proof. reflexivity. Qed.

Example int_ex4 : Py.int EmptyString = Raise ValueError.
Proof. reflexivity. Qed.

Example int_ex5 : Py.int "007" = Ok 7%Z /\ Py.int "+5" = Ok 5%Z /\ Py.int "- 5" = Raise ValueError.
Proof. repeat split; reflexivity. Qed.

Example int_ex6 : Py.int "1__0" = Raise ValueError /\ Py.int "_1" = Raise ValueError
                  /\ Py.int "1_" = Raise ValueError.
Proof. repeat split; reflexivity. Qed.

Example split_ex4 : Py.split " = " "a = = b" = ["a"; "= b"].
Proof. reflexivity. Qed.

Example split_ex5 : Py.split " = " " =  = " = [EmptyString; EmptyString; EmptyString].
Proof. reflexivity. Qed.

(** ** Substrings and splitting *)

Lemma startswith_contains (sub s : string) :
  Py.startswith sub s = true -> Py.contains sub s = true.
Proof.
  intros H. destruct s; cbn [Py.contains]; rewrite H; reflexivity.
Qed.

Lemma contains_cons (sub : string) (c : ascii) (s : string) :
  Py.contains sub s = true -> Py.contains sub (String c s) = true.
Proof.
  intros H. cbn [Py.contains]. rewrite H. apply orb_true_r.
Qed.

Lemma startswith_app_l (a b s : string) :
  Py.startswith (a ++ b) s = true -> Py.startswith a s = true.
Proof.
  revert s. induction a as [|c a IH]; intros s H; [reflexivity|].
  destruct s as [|d s]; simpl in *; [discriminate|].
  apply andb_true_iff in H. destruct H as [H1 H2].
  rewrite H1, (IH _ H2). reflexivity.
Qed.

Lemma startswith_app_contains_r (a b s : string) :
  Py.startswith (a ++ b) s = true -> Py.contains b s = true.
Proof.
  revert s. induction a as [|c a IH]; intros s H.
  - apply startswith_contains. exact H.
  - destruct s as [|d s]; simpl in H; [discriminate|].
    apply andb_true_iff in H. destruct H as [_ H].
    apply contains_cons. apply IH. exact H.
Qed.

Lemma contains_app_l (a b s : string) :
  Py.contains (a ++ b) s = true -> Py.contains a s = true.
Proof.
  induction s as [|c s IH]; cbn [Py.contains]; intros H.
  - rewrite orb_false_r in *. apply startswith_app_l in H. exact H.
  - apply orb_true_iff in H. destruct H as [H|H].
    + apply startswith_app_l in H. rewrite H. reflexivity.
    + rewrite (IH H). apply orb_true_r.
Qed.

Lemma contains_app_r (a b s : string) :
  Py.contains (a ++ b) s = true -> Py.contains b s = true.
Proof.
  induction s as [|c s IH]; cbn [Py.contains]; intros H.
  - rewrite orb_false_r in H. apply startswith_app_contains_r in H. exact H.
  - apply orb_true_iff in H. destruct H as [H|H].
    + apply startswith_app_contains_r in H. exact H.
    + fold (Py.contains b (String c s)). apply contains_cons. auto.
Qed.

Lemma split_aux_nonempty (sep : string) (s : string) :
  forall k cur, Py.split_aux sep k cur s <> [].
Proof.
  induction s as [|c s IH]; intros k cur; simpl; [discriminate|].
  destruct k; [|apply IH].
  match goal with |- context [if ?b then _ else _] => destruct b end;
    [discriminate | apply IH].
Qed.

(** A text that contains the separator splits into two pieces at least. *)
Lemma split_contains (sep s : string) :
  Py.contains sep s = true -> sep <> EmptyString ->
  exists a b rest, Py.split sep s = a :: b :: rest.
Proof.
  intros H Hsep. unfold Py.split. generalize EmptyString as cur.
  induction s as [|c s IH]; intros cur.
  - simpl in H. rewrite orb_false_r in H.
    destruct sep; [congruence | discriminate].
  - cbn [Py.contains] in H. cbn [Py.split_aux].
    destruct (Py.startswith sep (String c s)) eqn:E.
    + pose proof (split_aux_nonempty sep s (String.length sep - 1) EmptyString) as Hn.
      destruct (Py.split_aux sep (String.length sep - 1) EmptyString s) as [|b rest];
        [congruence|]. eauto.
    + simpl in H. apply IH. exact H.
Qed.

(** ** The stable sort *)

Section StableSortFacts.
Context {K A : Type} (ltb : K -> K -> bool) (le : K -> K -> Prop).
Hypothesis ltb_le : forall a b, ltb a b = true -> le a b.
Hypothesis nltb_le : forall a b, ltb a b = false -> le b a.
Hypothesis le_trans : forall a b c, le a b -> le b c -> le a c.

Lemma insert_keyed_perm (x : K * A) (l : list (K * A)) :
  Permutation (insert_keyed ltb x l) (x :: l).
Proof.
  induction l as [|y l IH]; simpl; [reflexivity|].
  destruct (ltb (fst y) (fst x)); [|reflexivity].
  rewrite IH. apply perm_swap.
Qed.

Lemma sort_keyed_perm (l : list (K * A)) : Permutation (sort_keyed ltb l) l.
Proof.
  induction l as [|x l IH]; simpl; [reflexivity|].
  rewrite insert_keyed_perm. apply perm_skip. exact IH.
Qed.

Lemma insert_keyed_sorted (x : K * A) (l : list (K * A)) :
  StronglySorted (key_le le) l -> StronglySorted (key_le le) (insert_keyed ltb x l).
Proof.
  induction 1 as [|y l Hs IH Hall]; simpl.
  - constructor; constructor.
  - destruct (ltb (fst y) (fst x)) eqn:E.
    + constructor; [exact IH|].
      eapply Permutation_Forall; [symmetry; apply insert_keyed_perm|].
      constructor; [apply ltb_le; exact E | exact Hall].
    + constructor; [constructor; assumption|].
      assert (Hxy : key_le le x y) by (apply nltb_le; exact E).
      constructor; [exact Hxy|].
      eapply Forall_impl; [|exact Hall].
      intros z Hz. unfold key_le in *. eapply le_trans; eassumption.
Qed.

Lemma sort_keyed_sorted (l : list (K * A)) : StronglySorted (key_le le) (sort_keyed ltb l).
Proof.
  induction l as [|x l IH]; simpl; [constructor|].
  apply insert_keyed_sorted. exact IH.
Qed.

(** Sorting the elements of a list on a key computed from them. *)
Lemma sort_on_perm (f : A -> K) (l : list A) :
  Permutation (map snd (sort_keyed ltb (map (fun x => (f x, x)) l))) l.
Proof.
  rewrite sort_keyed_perm, map_map. simpl. rewrite map_id. reflexivity.
Qed.

Lemma sort_on_sorted (f : A -> K) (l : list A) :
  StronglySorted (fun a b => le (f a) (f b))
                 (map snd (sort_keyed ltb (map (fun x => (f x, x)) l))).
Proof.
  assert (Hkey : Forall (fun p => fst p = f (snd p))
                        (sort_keyed ltb (map (fun x => (f x, x)) l))).
  { eapply Permutation_Forall; [symmetry; apply sort_keyed_perm|].
    apply Forall_forall. intros p Hp. apply in_map_iff in Hp.
    destruct Hp as [x [<- _]]. reflexivity. }
  pose proof (sort_keyed_sorted (map (fun x => (f x, x)) l)) as Hs.
  induction Hs as [|p ps Hs IH Hall]; simpl; [constructor|].
  inversion Hkey as [|? ? Hp Hps]; subst.
  constructor; [apply IH; exact Hps|].
  apply Forall_map. rewrite Forall_forall in *. intros q Hq.
  specialize (Hall q Hq). specialize (Hps q Hq). unfold key_le in Hall.
  rewrite <- Hp, <- Hps. exact Hall.
Qed.
End StableSortFacts.

Lemma sort_int_perm (l : list Z) : Permutation (sort_int l) l.
Proof. apply sort_on_perm with (f := fun z => z). Qed.

Lemma sort_int_sorted (l : list Z) : StronglySorted Z.le (sort_int l).
Proof.
  apply (sort_on_sorted Z.ltb Z.le) with (f := fun z : Z => z).
  - intros a b H. apply Z.ltb_lt in H. lia.
  - intros a b H. apply Z.ltb_ge in H. exact H.
  - intros a b c. apply Z.le_trans.
Qed.

(** Two ascending lists with the same elements and multiplicities are
    equal: the result of [sort_int] does not depend on the order in
    which the set was enumerated. *)
Lemma sorted_perm_unique (l1 l2 : list Z) :
  StronglySorted Z.le l1 -> StronglySorted Z.le l2 -> Permutation l1 l2 -> l1 = l2.
Proof.
  intros H1. revert l2. induction H1 as [|a l1 Hs1 IH Ha]; intros l2 H2 Hp.
  - apply Permutation_nil in Hp. congruence.
  - destruct H2 as [|b l2 Hs2 Hb].
    + apply Permutation_sym, Permutation_nil in Hp. discriminate.
    + assert (a = b).
      { assert (Hin1 : In b (a :: l1))
          by (eapply Permutation_in; [symmetry; exact Hp | left; reflexivity]).
        assert (Hin2 : In a (b :: l2))
          by (eapply Permutation_in; [exact Hp | left; reflexivity]).
        rewrite Forall_forall in Ha, Hb.
        destruct Hin1 as [|Hin1]; [congruence|].
        destruct Hin2 as [|Hin2]; [congruence|].
        specialize (Ha _ Hin1). specialize (Hb _ Hin2). lia. }
      subst b. f_equal. apply IH; [exact Hs2|].
      eapply Permutation_cons_inv. exact Hp.
Qed.

Lemma sort_int_perm_eq (l1 l2 : list Z) :
  Permutation l1 l2 -> sort_int l1 = sort_int l2.
Proof.
  intros Hp. apply sorted_perm_unique; try apply sort_int_sorted.
  rewrite !sort_int_perm. exact Hp.
Qed.

(** ** The reference runtime obeys the laws *)

Lemma ref_order_by_perm (l : list MarkerRow) : Permutation (ref_order_by l) l.
Proof. apply sort_on_perm. Qed.

Lemma ref_order_by_sorted (l : list MarkerRow) :
  StronglySorted startTime_le (ref_order_by l).
Proof.
  apply (sort_on_sorted Z.ltb Z.le) with (f := startTime).
  - intros a b H. apply Z.ltb_lt in H. lia.
  - intros a b H. apply Z.ltb_ge in H. exact H.
  - intros a b c. apply Z.le_trans.
Qed.

Lemma ref_runtime_laws : RuntimeLaws ref_runtime.
Proof.
  constructor; simpl.
  - apply ref_order_by_perm.
  - apply ref_order_by_sorted.
  - reflexivity.
  - reflexivity.
Qed.

(** ** The containment query *)

Lemma encloses_iff (objId : string) (s e : Z) (r : MarkerRow) :
  encloses objId s e r = true <->
  objectId r = objId /\ (startTime r < s)%Z /\ (endTime r > e)%Z.
Proof.
  unfold encloses. rewrite !andb_true_iff, String.eqb_eq, Z.ltb_lt, Z.gtb_gt.
  tauto.
Qed.

Section Containment.
Context {R : Runtime} {L : RuntimeLaws R}.

Lemma enclosing_In (d : Db) (objId : string) (s e : Z) (r : MarkerRow) :
  In r (enclosing d objId s e) <->
  In r (marker d) /\ objectId r = objId /\ (startTime r < s)%Z /\ (endTime r > e)%Z.
Proof.
  unfold enclosing. rewrite <- encloses_iff, <- filter_In.
  split; apply Permutation_in; [|symmetry]; apply order_by_perm.
Qed.

End Containment.

(** ** [getMarkerInfo], one step after the other *)

Lemma index_last {A : Type} (l : list A) (d : A) :
  l <> [] -> Py.index l (List.length l - 1) = Ok (last l d).
Proof.
  intros Hl. unfold Py.index.
  destruct (exists_last Hl) as [l' [a ->]].
  rewrite last_last, length_app, nth_error_app2; simpl; [|lia].
  replace (List.length l' + 1 - 1 - List.length l')%nat with 0%nat by lia.
  reflexivity.
Qed.

Lemma truthy_true {A : Type} (l : list A) : truthy l = true <-> l <> [].
Proof. destruct l; simpl; split; congruence. Qed.

Section Unfolding.
Context {R : Runtime}.

Lemma lookahead_run (objId : string) (rows : list IdName) (st : NVVP) :
  rows <> [] ->
  lookahead objId rows st =
  (lookahead_alt (db st) objId (markerId st) (last_id rows),
   {| db := db st; markerId := last_id rows |}).
Proof.
  intros Hrows. unfold lookahead, bind, read_markerId, lift, write_markerId, query.
  rewrite <- (length_map r_id rows).
  rewrite (index_last (map r_id rows) 0%Z)
    by (destruct rows; [congruence | discriminate]).
  cbn [db markerId]. fold (last_id rows). unfold lookahead_alt.
  destruct (alt_loop (db st) [] (select_between (db st) objId (markerId st) (last_id rows)));
    reflexivity.
Qed.

Lemma getMarkerInfo_unfold (objId : string) (t e : Z) (st : NVVP) :
  getMarkerInfo objId t e st =
  let rows := select_enclosing (db st) objId t e in
  match bin_loop (db st) no_bins rows with
  | Raise ex => (Raise ex, st)
  | Ok bins =>
      match normalise (seqMarkers bins) with
      | Raise ex => (Raise ex, st)
      | Ok sm =>
          let om := list_set_str (otherMarkers bins) in
          if truthy rows && negb (bprop bins)
          then
            match lookahead_alt (db st) objId (markerId st) (last_id rows) with
            | Raise ex => (Raise ex, {| db := db st; markerId := last_id rows |})
            | Ok alt =>
                (returned bins sm om alt,
                 {| db := delete objId t (db st); markerId := last_id rows |})
            end
          else
            (returned bins sm om [],
             {| db := delete objId t (db st); markerId := markerId st |})
      end
  end.
Proof.
  unfold getMarkerInfo, bind at 1, query at 1. cbn zeta.
  set (rows := select_enclosing (db st) objId t e).
  unfold bind at 1, query at 1.
  destruct (bin_loop (db st) no_bins rows) as [bins|ex]; [|reflexivity].
  unfold bind at 1, lift at 1.
  destruct (normalise (seqMarkers bins)) as [sm|ex]; [|reflexivity].
  unfold bind at 1.
  destruct (truthy rows && negb (bprop bins)) eqn:E.
  - apply andb_true_iff in E. destruct E as [E _]. apply truthy_true in E.
    rewrite (lookahead_run objId rows st E).
    destruct (lookahead_alt (db st) objId (markerId st) (last_id rows));
      reflexivity.
  - reflexivity.
Qed.
End Unfolding.

(** ** The two loops over the rows of an answer *)

Lemma getString_raise (d : Db) (i : Z) (ex : exn) :
  getString d i = Raise ex -> ex = AssertionError.
Proof.
  unfold getString, py_assert.
  destruct (filter (fun r => (_id_ r =? i)%Z) (StringTable d)) as [|r [|r' rows]];
    cbn; congruence.
Qed.

Lemma mapM_getString_raise (d : Db) (ids : list Z) (ex : exn) :
  mapM (getString d) ids = Raise ex -> ex = AssertionError.
Proof.
  induction ids as [|i ids IH]; simpl; [discriminate|].
  destruct (getString d i) eqn:E; simpl.
  - destruct (mapM (getString d) ids); simpl; [discriminate|].
    intros H. apply IH. congruence.
  - intros H. apply (getString_raise d i). congruence.
Qed.

Lemma mapM_Ok_Forall2 {A B : Type} (f : A -> result B) (l : list A) (l' : list B) :
  mapM f l = Ok l' <-> Forall2 (fun x y => f x = Ok y) l l'.
Proof.
  revert l'. induction l as [|x l IH]; intros l'; simpl.
  - split; intros H; [injection H as <-; constructor | inversion H; reflexivity].
  - split.
    + destruct (f x) eqn:E; simpl; [|discriminate].
      destruct (mapM f l) eqn:E'; simpl; [|discriminate].
      intros H. injection H as <-. constructor; [exact E | apply IH; reflexivity].
    + intros H. inversion H as [|? y ? ys Hx Hl]; subst.
      rewrite Hx. simpl. apply IH in Hl. rewrite Hl. reflexivity.
Qed.

(** The names are resolved in the order of the rows; the bins are
    those of the texts. *)
Lemma bin_loop_texts (d : Db) (rows : list IdName) :
  forall b, bin_loop d b rows =
            (texts <- mapM (getString d) (map r_name rows) ;;
             Ok (fold_left bin_marker texts b))%result.
Proof.
  induction rows as [|r rows IH]; intros b; simpl; [reflexivity|].
  destruct (getString d (r_name r)) as [m|ex]; simpl; [|reflexivity].
  rewrite IH. destruct (mapM (getString d) (map r_name rows)); reflexivity.
Qed.

Lemma alt_loop_texts (d : Db) (rows : list IdName) :
  forall alt, alt_loop d alt rows =
              (texts <- mapM (getString d) (map r_name rows) ;;
               Ok (alt ++ filter (Py.contains ", seq=") texts))%result.
Proof.
  induction rows as [|r rows IH]; intros alt; simpl.
  - rewrite app_nil_r. reflexivity.
  - destruct (getString d (r_name r)) as [m|ex]; simpl; [|reflexivity].
    rewrite IH. destruct (mapM (getString d) (map r_name rows)); simpl; [|reflexivity].
    destruct (Py.contains ", seq=" m); [rewrite <- app_assoc|]; reflexivity.
Qed.

(** The text is appended to the bin of its category and to no other,
    unless it is a checkpointing marker. *)
Lemma bin_marker_bin_of (b : Bins) (m : string) (c : Category) :
  bin_of c (bin_marker b m) =
  if negb (is_checkpoint m) && Category_eqb c (classify m)
  then bin_of c b ++ [m] else bin_of c b.
Proof.
  unfold bin_marker, classify.
  destruct (is_checkpoint m); [reflexivity|].
  destruct (is_backward m), (is_pyprof m), (Py.contains "layer:" m),
    (Py.contains "traceMarker" m), (Py.contains "strRepr" m),
    (Py.contains ", seq = " m), c; reflexivity.
Qed.

Lemma bin_marker_bprop (b : Bins) (m : string) :
  bprop (bin_marker b m) = bprop b || negb (is_checkpoint m) && is_backward m.
Proof.
  unfold bin_marker.
  destruct (is_checkpoint m); [rewrite orb_false_r; reflexivity|].
  destruct (is_backward m), (is_pyprof m), (Py.contains "layer:" m),
    (Py.contains "traceMarker" m), (Py.contains "strRepr" m),
    (Py.contains ", seq = " m); simpl;
    rewrite ?orb_true_r, ?orb_false_r; reflexivity.
Qed.

Lemma fold_bin_marker_bin_of (texts : list string) (c : Category) :
  forall b, bin_of c (fold_left bin_marker texts b) =
            bin_of c b
            ++ filter (fun m => negb (is_checkpoint m) && Category_eqb c (classify m)) texts.
Proof.
  induction texts as [|m texts IH]; intros b; simpl.
  - rewrite app_nil_r. reflexivity.
  - rewrite IH, bin_marker_bin_of.
    destruct (negb (is_checkpoint m) && Category_eqb c (classify m));
      [rewrite <- app_assoc|]; reflexivity.
Qed.

Lemma fold_bin_marker_bprop (texts : list string) :
  forall b, bprop (fold_left bin_marker texts b) =
            bprop b || existsb (fun m => negb (is_checkpoint m) && is_backward m) texts.
Proof.
  induction texts as [|m texts IH]; intros b; simpl.
  - rewrite orb_false_r. reflexivity.
  - rewrite IH, bin_marker_bprop, orb_assoc. reflexivity.
Qed.

(** ** Classification *)

(** C3 (as amended). Classification is total, deterministic and
    priority-ordered on substring tests: a text is [OpArgs] exactly
    when it contains the four substrings [mod], [op], [args] and
    [type]; else [Layer] when it contains ["layer:"]; else [Trace] when
    it contains ["traceMarker"]; else [ModuleRepr] when it contains
    ["strRepr"]; else [Sequence] when it contains [", seq = "]; else
    [Other].  A text passing the first test and containing ["layer:"]
    is [OpArgs].  The loop body appends a text that is not pre-filtered
    to the bin of its category and to no other bin, so that after the
    loop each bin holds, in order, the texts of its category. *)
Theorem classification_priority (m : string) :
  (is_pyprof m = true <->
     Py.contains "mod" m = true /\ Py.contains "op" m = true
     /\ Py.contains "args" m = true /\ Py.contains "type" m = true)
  /\ (classify m = OpArgs <-> is_pyprof m = true)
  /\ (classify m = Layer <->
        is_pyprof m = false /\ Py.contains "layer:" m = true)
  /\ (classify m = Trace <->
        is_pyprof m = false /\ Py.contains "layer:" m = false
        /\ Py.contains "traceMarker" m = true)
  /\ (classify m = ModuleRepr <->
        is_pyprof m = false /\ Py.contains "layer:" m = false
        /\ Py.contains "traceMarker" m = false /\ Py.contains "strRepr" m = true)
  /\ (classify m = Sequence <->
        is_pyprof m = false /\ Py.contains "layer:" m = false
        /\ Py.contains "traceMarker" m = false /\ Py.contains "strRepr" m = false
        /\ Py.contains ", seq = " m = true)
  /\ (classify m = Other <->
        is_pyprof m = false /\ Py.contains "layer:" m = false
        /\ Py.contains "traceMarker" m = false /\ Py.contains "strRepr" m = false
        /\ Py.contains ", seq = " m = false)
  /\ (is_pyprof m = true -> Py.contains "layer:" m = true -> classify m = OpArgs)
  /\ (forall b c, is_checkpoint m = false ->
        bin_of c (bin_marker b m) =
        if Category_eqb c (classify m) then bin_of c b ++ [m] else bin_of c b)
  /\ (forall d rows bins, bin_loop d no_bins rows = Ok bins ->
        exists texts,
          mapM (getString d) (map r_name rows) = Ok texts
          /\ forall c, bin_of c bins =
                       filter (fun m' => negb (is_checkpoint m')
                                         && Category_eqb c (classify m')) texts).
Proof.
  split.
  { unfold is_pyprof. rewrite !andb_true_iff. tauto. }
  unfold classify.
  repeat split;
    try (destruct (is_pyprof m), (Py.contains "layer:" m),
           (Py.contains "traceMarker" m), (Py.contains "strRepr" m),
           (Py.contains ", seq = " m); intuition congruence).
  - intros b c Hc. rewrite bin_marker_bin_of, Hc. reflexivity.
  - intros d rows bins H. rewrite bin_loop_texts in H.
    destruct (mapM (getString d) (map r_name rows)) as [texts|] eqn:E;
      simpl in H; [|discriminate].
    injection H as <-. exists texts. split; [reflexivity|].
    intros c. rewrite fold_bin_marker_bin_of. destruct c; reflexivity.
Qed.

(** C3 (as stated) fails: the first test is a test on substrings, not
    on a decoded record.  A layer marker and a trace marker whose text
    happens to contain the four substrings are binned as [OpArgs]
    although neither is a record with the keys [mod], [op], [args] and
    [type]. *)
Lemma opArgs_without_record :
  classify "layer:mod_op_args_type" = OpArgs
  /\ Py.contains "layer:" "layer:mod_op_args_type" = true
  /\ Spec.opArgs_record "layer:mod_op_args_type" = false
  /\ classify "{'traceMarker': ['/opt/models/args_types.py:10']}" = OpArgs
  /\ Py.contains "traceMarker" "{'traceMarker': ['/opt/models/args_types.py:10']}" = true
  /\ Spec.opArgs_record "{'traceMarker': ['/opt/models/args_types.py:10']}" = false.
Proof. repeat split; vm_compute; reflexivity. Qed.

(** A record as [nvmarker.argMarker] renders it passes both tests. *)
Example opArgs_record_ex :
  let m := "{'mod': 'torch', 'op': 'add', 'args': [{'name': '', 'type': 'int', 'value': 1}]}" in
  classify m = OpArgs /\ Spec.opArgs_record m = true.
Proof. split; vm_compute; reflexivity. Qed.

(** ** Extraction of the sequence ids *)

Lemma sorted_le_NoDup_lt (l : list Z) :
  StronglySorted Z.le l -> NoDup l -> StronglySorted Z.lt l.
Proof.
  induction 1 as [|a l Hs IH Ha]; intros Hnd; [constructor|].
  inversion Hnd as [|? ? Hnotin Hnd']; subst.
  constructor; [apply IH; exact Hnd'|].
  rewrite Forall_forall in *. intros z Hz. specialize (Ha z Hz).
  assert (a <> z) by (intros ->; contradiction). lia.
Qed.

Lemma nodup_cons_In (z : Z) (l : list Z) :
  In z l -> nodup Z.eq_dec (z :: l) = nodup Z.eq_dec l.
Proof. intros H. simpl. destruct (in_dec Z.eq_dec z l); [reflexivity | contradiction]. Qed.

Lemma seq_of_parses (m : string) (z : Z) :
  seq_of m = Ok z <-> seq_text_parses m z.
Proof.
  unfold seq_of, seq_text_parses, py_assert, Py.index.
  destruct (Py.contains ", seq = " m); cbn [rbind];
    [|split; [discriminate | intros [H _]; discriminate]].
  destruct (nth_error (Py.split "," m) 1) as [f|] eqn:Ef; cbn [rbind].
  - destruct (nth_error (Py.split "=" f) 1) as [g|] eqn:Eg; cbn [rbind].
    + split.
      * intros H. split; [reflexivity|]. exists f, g. auto.
      * intros [_ (f' & g' & Hf & Hg & Hz)].
        assert (f' = f) by congruence. subst f'.
        assert (g' = g) by congruence. subst g'. exact Hz.
    + split; [discriminate|].
      intros [_ (f' & g' & Hf & Hg & _)].
      assert (f' = f) by congruence. subst f'. congruence.
  - split; [discriminate|]. intros [_ (f' & g' & Hf & _)]. discriminate.
Qed.

Section SeqIds.
Context {R : Runtime} {L : RuntimeLaws R}.

Lemma getSeqId_value (mlist : list string) (ids : list Z) :
  mapM seq_of mlist = Ok ids ->
  getSeqId mlist = Ok (sort_int (nodup Z.eq_dec ids)).
Proof.
  intros H. unfold getSeqId. rewrite H. simpl. f_equal.
  apply sort_int_perm_eq, list_set_int_perm.
Qed.

(** C5 (as amended). For every list of marker texts whose ids parse
    (each text contains [", seq = "], its second comma-separated
    field has an ["="] and what follows it is accepted by [int]),
    [getSeqId] returns the strictly ascending list of the distinct
    integers parsed from the markers; repeating an input text does
    not change the result; and the ids of
    ["B, seq = 9"], ["C, seq = 2"], ["D, seq = 2"] are [2; 9]. *)
Theorem getSeqId_ascending_distinct (mlist : list string) (ids : list Z) :
  Forall2 seq_text_parses mlist ids ->
  exists out,
    getSeqId mlist = Ok out
    /\ StronglySorted Z.lt out
    /\ (forall z, In z out <-> In z ids)
    /\ (forall m, In m mlist -> getSeqId (m :: mlist) = Ok out)
    /\ getSeqId ["B, seq = 9"; "C, seq = 2"; "D, seq = 2"] = Ok [2; 9]%Z
    /\ getSeqId ["A, seq = 3"; "A, seq = 3"] = getSeqId ["A, seq = 3"].
Proof.
  intros H0.
  assert (H2 : Forall2 (fun m z => seq_of m = Ok z) mlist ids).
  { eapply Forall2_impl; [|exact H0]. intros m z. apply seq_of_parses. }
  pose proof H2 as H. apply mapM_Ok_Forall2 in H.
  exists (sort_int (nodup Z.eq_dec ids)).
  split; [apply getSeqId_value; exact H|].
  split.
  { apply sorted_le_NoDup_lt; [apply sort_int_sorted|].
    eapply Permutation_NoDup; [symmetry; apply sort_int_perm | apply NoDup_nodup]. }
  split.
  { intros z. split; intros Hz.
    - apply (Permutation_in _ (sort_int_perm _)) in Hz.
      apply nodup_In in Hz. exact Hz.
    - apply (Permutation_in _ (Permutation_sym (sort_int_perm _))).
      apply nodup_In. exact Hz. }
  split.
  { intros m Hm.
    assert (Hz : exists z, seq_of m = Ok z /\ In z ids).
    { clear H H0. induction H2 as [|m' z' ms zs Hmz _ IH]; [contradiction|].
      destruct Hm as [->|Hm].
      - exists z'. split; [exact Hmz | left; reflexivity].
      - destruct (IH Hm) as [z [Hz Hin]]. exists z. split; [exact Hz | right; exact Hin]. }
    destruct Hz as [z [Hz Hin]].
    rewrite (getSeqId_value (m :: mlist) (z :: ids)).
    - rewrite (nodup_cons_In z ids Hin). reflexivity.
    - simpl. rewrite Hz, H. reflexivity. }
  split.
  - rewrite (getSeqId_value _ [9; 2; 2]%Z); reflexivity.
  - rewrite (getSeqId_value _ [3; 3]%Z), (getSeqId_value _ [3]%Z); reflexivity.
Qed.
End SeqIds.

(** C5 (as stated) fails: containing [", seq = "] does not make the id
    parse.  With a comma in the name the second comma-separated field
    has no ["="] and [getSeqId] raises [IndexError]; with a text that is
    not a number after the ["="] it raises [ValueError]. *)
Lemma getSeqId_not_total :
  Py.contains ", seq = " "a, b, seq = 3" = true
  /\ getSeqId (R := ref_runtime) ["a, b, seq = 3"] = Raise IndexError
  /\ Py.contains ", seq = " "a, seq = x" = true
  /\ getSeqId (R := ref_runtime) ["a, seq = x"] = Raise ValueError.
Proof. repeat split; vm_compute; reflexivity. Qed.

(** ** The sort key *)

Lemma seqcompare_ok (m : string) :
  Py.contains ", seq = " m = true -> exists k, seqcompare m = Ok k.
Proof.
  intros H. unfold seqcompare. rewrite H. simpl.
  assert (Hsep : Py.contains " = " m = true)
    by (apply (contains_app_r ", seq" " = "); exact H).
  destruct (split_contains " = " m Hsep) as [a [b [rest ->]]]; [discriminate|].
  simpl. eauto.
Qed.

Lemma seqcompare_raise (m : string) (ex : exn) :
  seqcompare m = Raise ex ->
  ex = AssertionError /\ Py.contains ", seq = " m = false.
Proof.
  destruct (Py.contains ", seq = " m) eqn:E.
  - destruct (seqcompare_ok m E) as [k ->]. discriminate.
  - unfold seqcompare. rewrite E. simpl. intros H. split; congruence.
Qed.

Lemma mapM_length {A B : Type} (f : A -> result B) (l : list A) (l' : list B) :
  mapM f l = Ok l' -> List.length l' = List.length l.
Proof.
  rewrite mapM_Ok_Forall2. induction 1; simpl; congruence.
Qed.

Lemma mapM_In {A B : Type} (f : A -> result B) (l : list A) (l' : list B) (x : A) (y : B) :
  mapM f l = Ok l' -> In x l -> f x = Ok y -> In y l'.
Proof.
  rewrite mapM_Ok_Forall2. induction 1 as [|x' y' l l' Hxy _ IH]; simpl; [tauto|].
  intros [->|Hin] Hy; [left; congruence | right; auto].
Qed.

Lemma mapM_seqcompare_ok (l : list string) :
  Forall (fun m => Py.contains ", seq = " m = true) l ->
  exists ks, mapM seqcompare l = Ok ks.
Proof.
  induction 1 as [|m l Hm _ [ks IH]]; simpl; [eauto|].
  destruct (seqcompare_ok m Hm) as [k ->]. rewrite IH. simpl. eauto.
Qed.

(** One text without the strict delimiter makes the computation of the
    keys fail with [AssertionError], wherever it is in the list. *)
Lemma mapM_seqcompare_raise (l : list string) (m : string) :
  In m l -> Py.contains ", seq = " m = false ->
  mapM seqcompare l = Raise AssertionError.
Proof.
  intros Hin Hm. induction l as [|x l IH]; [contradiction|]. simpl.
  destruct (seqcompare x) as [k|ex] eqn:E; simpl.
  - destruct Hin as [->|Hin].
    + unfold seqcompare in E. rewrite Hm in E. discriminate.
    + rewrite (IH Hin). reflexivity.
  - apply seqcompare_raise in E. destruct E as [-> _]. reflexivity.
Qed.

Lemma map_snd_combine {A B : Type} (l : list A) (l' : list B) :
  List.length l = List.length l' -> map snd (combine l l') = l'.
Proof.
  revert l'. induction l as [|x l IH]; intros [|y l']; simpl; try congruence.
  intros H. f_equal. apply IH. congruence.
Qed.

Lemma sort_by_key_perm (key : string -> result string) (l out : list string) :
  sort_by_key key l = Ok out -> Permutation out l.
Proof.
  unfold sort_by_key. destruct (mapM key l) as [ks|] eqn:E; simpl; [|discriminate].
  intros H. injection H as <-.
  rewrite (Permutation_map snd (sort_keyed_perm String.ltb (combine ks l))).
  rewrite map_snd_combine; [reflexivity | apply (mapM_length _ _ _ E)].
Qed.

(** C6. The code does not order the sequence markers by the pair
    (suffix, prefix): [seqcompare] returns the concatenation of the
    suffix and the prefix.  For the markers ["b, seq = 1"] and
    ["a, seq = 10"] the pair of the first is smaller than the pair of
    the second, yet the sort puts the second first.  (A marker with seq
    text ["10"] does sort before one with seq text ["2"].) *)
Theorem seqcompare_concatenates :
  seqcompare "b, seq = 1" = Ok "1b, seq"
  /\ seqcompare "a, seq = 10" = Ok "10a, seq"
  /\ Spec.pair_key "b, seq = 1" = ("1", "b, seq")
  /\ Spec.pair_key "a, seq = 10" = ("10", "a, seq")
  /\ Spec.pair_ltb (Spec.pair_key "b, seq = 1") (Spec.pair_key "a, seq = 10") = true
  /\ sort_by_key seqcompare ["b, seq = 1"; "a, seq = 10"]
     = Ok ["a, seq = 10"; "b, seq = 1"]
  /\ dedup_sort_prune (R := ref_runtime) ["b, seq = 1"; "a, seq = 10"]
     = Ok ["a, seq = 10"; "b, seq = 1"]
  /\ sort_by_key seqcompare ["x, seq = 2"; "x, seq = 10"]
     = Ok ["x, seq = 10"; "x, seq = 2"].
Proof. repeat split; vm_compute; reflexivity. Qed.

(** ** Prune *)

Lemma name_seq_fields (m : string) :
  Py.contains "," m = true -> name_seq m = Ok (field 0 m, field 1 m).
Proof.
  intros H. unfold name_seq, field.
  destruct (split_contains "," m H) as [a [b [rest ->]]]; [discriminate|].
  reflexivity.
Qed.

Lemma prune_from_adjacent (rest : list string) :
  forall pm, Forall (fun m => Py.contains "," m = true) (pm :: rest) ->
  prune_from pm rest =
  Ok (map snd (filter (fun p => negb (near_duplicate (fst p) (snd p)))
                      (combine (pm :: rest) rest))).
Proof.
  induction rest as [|m rest IH]; intros pm H; [reflexivity|].
  inversion H as [|? ? Hpm H']; subst. inversion H' as [|? ? Hm _]; subst.
  cbn [prune_from]. rewrite (name_seq_fields m Hm), (name_seq_fields pm Hpm).
  cbn [rbind]. rewrite (IH m H'). cbn [rbind].
  change (combine (pm :: m :: rest) (m :: rest))
    with ((pm, m) :: combine (m :: rest) rest).
  cbn [filter fst snd].
  change (String.eqb (field 1 m) (field 1 pm)
          && (Py.contains (field 0 m) (field 0 pm)
              || Py.contains (field 0 pm) (field 0 m)))
    with (near_duplicate pm m).
  destruct (near_duplicate pm m); reflexivity.
Qed.

(** C7 (as amended). For every non-empty list of marker texts that
    each contain a comma, [prune] keeps the first element
    unconditionally and, for each subsequent element, takes the first
    two comma-separated fields (name, seq) of the element and of the
    element just before it in the list, whether that one was kept or
    not: the element is discarded iff the two seq fields are equal and
    one name is a substring of the other; otherwise it is kept, and the
    kept elements appear in their original order. *)
Theorem prune_adjacent (m0 : string) (rest : list string) :
  Forall (fun m => Py.contains "," m = true) (m0 :: rest) ->
  prune (m0 :: rest) =
  Ok (m0 :: map snd (filter (fun p => negb (near_duplicate (fst p) (snd p)))
                            (combine (m0 :: rest) rest))).
Proof.
  intros H. unfold prune. rewrite (prune_from_adjacent rest m0 H). reflexivity.
Qed.

Lemma prune_adjacent_witness :
  prune ["convA, seq = 5"; "convA_bwd, seq = 5"; "relu, seq = 6"]
  = Ok ["convA, seq = 5"; "relu, seq = 6"].
Proof.
  apply (prune_adjacent "convA, seq = 5" ["convA_bwd, seq = 5"; "relu, seq = 6"]).
  repeat constructor.
Defined.

(** C7 (as stated) fails.  In the sorted list below the second element
    is discarded against the first, and the third is then compared with
    the second (discarded) element, not with the first (kept) one: the
    code discards it, the comparison with the previous kept element
    keeps it.  And with more than one comma the seq field is the text
    between the first two commas, not all the text after the first. *)
Lemma prune_not_previous_kept :
  sort_by_key seqcompare ["abc, seq = 5"; "b, seq = 5"; "bd, seq = 5"]
  = Ok ["abc, seq = 5"; "b, seq = 5"; "bd, seq = 5"]
  /\ prune ["abc, seq = 5"; "b, seq = 5"; "bd, seq = 5"] = Ok ["abc, seq = 5"]
  /\ Spec.prune ["abc, seq = 5"; "b, seq = 5"; "bd, seq = 5"]
     = ["abc, seq = 5"; "bd, seq = 5"]
  /\ sort_by_key seqcompare ["a, seq = 5, op_id = 1"; "ab, seq = 5, op_id = 2"]
     = Ok ["a, seq = 5, op_id = 1"; "ab, seq = 5, op_id = 2"]
  /\ prune ["a, seq = 5, op_id = 1"; "ab, seq = 5, op_id = 2"]
     = Ok ["a, seq = 5, op_id = 1"]
  /\ Spec.prune ["a, seq = 5, op_id = 1"; "ab, seq = 5, op_id = 2"]
     = ["a, seq = 5, op_id = 1"; "ab, seq = 5, op_id = 2"].
Proof. repeat split; vm_compute; reflexivity. Qed.

(** The example of the specification: both readings agree on it. *)
Example prune_convA :
  prune ["convA, seq = 5"; "convA_bwd, seq = 5"] = Ok ["convA, seq = 5"].
Proof. reflexivity. Qed.

(** ** The dedup-sort-prune pipeline *)

Lemma prune_incl (l out : list string) (m : string) :
  prune l = Ok out -> In m out -> In m l.
Proof.
  destruct l as [|m0 rest]; [discriminate|]. unfold prune.
  destruct (prune_from m0 rest) as [a|] eqn:E; simpl; [|discriminate].
  intros H. injection H as <-. intros [->|Hin]; [left; reflexivity|].
  right. revert m0 a E Hin. induction rest as [|x rest IH]; intros m0 a E Hin.
  - simpl in E. injection E as <-. contradiction.
  - cbn [prune_from] in E.
    destruct (name_seq x) as [[nm sq]|]; [|discriminate].
    destruct (name_seq m0) as [[pn ps]|]; [|discriminate].
    cbn [rbind] in E.
    destruct (prune_from x rest) as [a'|] eqn:E'; [|discriminate].
    cbn [rbind] in E.
    destruct (String.eqb sq ps && (Py.contains nm pn || Py.contains pn nm));
      injection E as <-.
    + right. eapply IH; eauto.
    + destruct Hin as [->|Hin]; [left; reflexivity | right; eapply IH; eauto].
Qed.

Lemma seq_delimiter_has_comma (m : string) :
  Py.contains ", seq = " m = true -> Py.contains "," m = true.
Proof. apply (contains_app_l "," " seq = "). Qed.

Section Pipeline.
Context {R : Runtime} {L : RuntimeLaws R}.

Lemma list_set_str_In (l : list string) (m : string) :
  In m (list_set_str l) <-> In m l.
Proof.
  rewrite <- (nodup_In string_dec l m).
  split; apply Permutation_in; [|symmetry]; apply list_set_str_perm.
Qed.

Lemma normalise_incl (l out : list string) (m : string) :
  normalise l = Ok out -> In m out -> In m l.
Proof.
  unfold normalise, dedup_sort_prune. destruct (truthy l).
  - destruct (sort_by_key seqcompare (list_set_str l)) as [sorted|] eqn:E;
      simpl; [|discriminate].
    intros Hp Hin. apply list_set_str_In.
    eapply Permutation_in; [apply (sort_by_key_perm _ _ _ E)|].
    eapply prune_incl; eassumption.
  - intros H. injection H as <-. tauto.
Qed.

(** On texts that all carry the strict delimiter the pipeline returns. *)
Lemma normalise_ok (l : list string) :
  Forall (fun m => Py.contains ", seq = " m = true) l ->
  exists out, normalise l = Ok out.
Proof.
  intros H. unfold normalise. destruct (truthy l) eqn:Hl; [|eauto].
  unfold dedup_sort_prune.
  assert (Hset : Forall (fun m => Py.contains ", seq = " m = true) (list_set_str l)).
  { rewrite Forall_forall in *. intros m Hm. apply H, list_set_str_In, Hm. }
  destruct (mapM_seqcompare_ok _ Hset) as [ks Hks].
  unfold sort_by_key. rewrite Hks. cbn [rbind].
  set (sorted := map snd (sort_keyed String.ltb (combine ks (list_set_str l)))).
  assert (Hperm : Permutation sorted (list_set_str l)).
  { apply (sort_by_key_perm seqcompare). unfold sort_by_key. rewrite Hks. reflexivity. }
  destruct sorted as [|m0 rest] eqn:Es.
  - exfalso. apply Permutation_nil in Hperm.
    destruct l as [|x l]; [discriminate|].
    assert (Hx : In x (list_set_str (x :: l))) by (apply list_set_str_In; left; reflexivity).
    rewrite Hperm in Hx. exact Hx.
  - unfold prune. rewrite prune_from_adjacent; [cbn [rbind]; eauto|].
    eapply Permutation_Forall; [symmetry; exact Hperm|].
    eapply Forall_impl; [|exact Hset]. apply seq_delimiter_has_comma.
Qed.

(** One text without the strict delimiter makes it raise. *)
Lemma normalise_raise (l : list string) (m : string) :
  In m l -> Py.contains ", seq = " m = false ->
  normalise l = Raise AssertionError.
Proof.
  intros Hin Hm. unfold normalise. destruct l as [|x l]; [contradiction|].
  cbn [truthy]. unfold dedup_sort_prune, sort_by_key.
  rewrite (mapM_seqcompare_raise (list_set_str (x :: l)) m);
    [reflexivity | apply list_set_str_In; exact Hin | exact Hm].
Qed.

Lemma bin_loop_seqMarkers (d : Db) (rows : list IdName) (bins : Bins) :
  bin_loop d no_bins rows = Ok bins ->
  Forall (fun m => Py.contains ", seq = " m = true) (seqMarkers bins).
Proof.
  intros H. rewrite bin_loop_texts in H.
  destruct (mapM (getString d) (map r_name rows)) as [texts|]; [|discriminate].
  injection H as <-.
  change (seqMarkers (fold_left bin_marker texts no_bins))
    with (bin_of Sequence (fold_left bin_marker texts no_bins)).
  rewrite fold_bin_marker_bin_of. simpl. apply Forall_forall. intros m Hm.
  apply filter_In in Hm. destruct Hm as [_ Hm].
  apply andb_true_iff in Hm. destruct Hm as [_ Hm].
  unfold classify in Hm.
  destruct (is_pyprof m), (Py.contains "layer:" m),
    (Py.contains "traceMarker" m), (Py.contains "strRepr" m),
    (Py.contains ", seq = " m); simpl in Hm; congruence.
Qed.

Lemma bin_loop_normalise (d : Db) (rows : list IdName) (bins : Bins) :
  bin_loop d no_bins rows = Ok bins ->
  exists sm, normalise (seqMarkers bins) = Ok sm.
Proof. intros H. apply normalise_ok. eapply bin_loop_seqMarkers. exact H. Qed.
End Pipeline.

(** ** Resolution of a kernel *)

Lemma returned_Ok {R : Runtime} (bins : Bins) (sm om alt : list string)
  (rec : CorrelationRecord) :
  returned bins sm om alt = Ok rec ->
  out_layerMarkers rec = layerMarkers bins
  /\ out_reprMarkers rec = reprMarkers bins
  /\ out_pyprofMarkers rec = pyprofMarkers bins
  /\ out_seqMarkers rec = sm
  /\ out_otherMarkers rec = om
  /\ out_altSeqMarkers rec = alt
  /\ filterTrace (traceMarkers bins) = Ok (out_trace rec).
Proof.
  unfold returned.
  destruct (filterTrace (traceMarkers bins)); [|discriminate].
  destruct (getSeqId sm); [|discriminate].
  destruct (getSeqId alt); [|discriminate].
  destruct (getLayerName (layerMarkers bins)); [|discriminate].
  simpl. intros H. injection H as <-. simpl. repeat split; reflexivity.
Qed.

Lemma filter_filter_implied {A : Type} (p q : A -> bool) (l : list A) :
  (forall x, p x = true -> q x = true) ->
  filter p (filter q l) = filter p l.
Proof.
  intros H. induction l as [|x l IH]; simpl; [reflexivity|].
  destruct (q x) eqn:Eq; simpl.
  - destruct (p x); [f_equal|]; exact IH.
  - destruct (p x) eqn:Ep; [|exact IH].
    rewrite (H x Ep) in Eq. discriminate.
Qed.

Section Resolution.
Context {R : Runtime} {L : RuntimeLaws R}.

(** A call leaves the database as it is or, once it has gone past the
    look-ahead, with the rows of [delete] removed. *)
Lemma getMarkerInfo_db (objId : string) (t e : Z) (st : NVVP) :
  db (snd (getMarkerInfo objId t e st)) = db st
  \/ db (snd (getMarkerInfo objId t e st)) = delete objId t (db st).
Proof.
  rewrite getMarkerInfo_unfold. cbn zeta.
  destruct (bin_loop _ _ _); [|left; reflexivity].
  destruct (normalise _); [|left; reflexivity].
  destruct (truthy _ && negb _); [|right; reflexivity].
  destruct (lookahead_alt _ _ _ _); [right | left]; reflexivity.
Qed.

Lemma getMarkerInfo_Ok_db (objId : string) (t e : Z) (st st' : NVVP)
  (rec : CorrelationRecord) :
  getMarkerInfo objId t e st = (Ok rec, st') ->
  db st' = delete objId t (db st).
Proof.
  rewrite getMarkerInfo_unfold. cbn zeta.
  destruct (bin_loop _ _ _); [|discriminate].
  destruct (normalise _); [|discriminate].
  destruct (truthy _ && negb _).
  - destruct (lookahead_alt _ _ _ _); [|discriminate].
    intros H. injection H as _ <-. reflexivity.
  - intros H. injection H as _ <-. reflexivity.
Qed.

Lemma getMarkerInfo_marker_incl (objId : string) (t e : Z) (st : NVVP) (r : MarkerRow) :
  In r (marker (db (snd (getMarkerInfo objId t e st)))) -> In r (marker (db st)).
Proof.
  destruct (getMarkerInfo_db objId t e st) as [-> | ->]; [tauto|].
  simpl. intros H. apply filter_In in H. tauto.
Qed.

Lemma run_marker_incl (calls : list (string * Z * Z)) :
  forall st r, In r (marker (db (run calls st))) -> In r (marker (db st)).
Proof.
  induction calls as [|[[o s] e] calls IH]; intros st r H; [exact H|].
  simpl in H. apply IH in H. eapply getMarkerInfo_marker_incl. exact H.
Qed.

(** C2. Eviction monotonicity: when [getMarkerInfo] returns for a
    kernel at objectId [O] with start time [t], the table [marker] is
    the former table without the rows of [O] with [endTime < t]; so
    whatever calls follow, no containment query for [O] answers a row
    with [endTime < t]; and the rows of any other objectId are those
    of before, in the same order. *)
Theorem eviction_monotone (objId : string) (t e : Z) (st st' : NVVP)
  (rec : CorrelationRecord) :
  getMarkerInfo objId t e st = (Ok rec, st') ->
  marker (db st') = filter (fun r => negb (evicted objId t r)) (marker (db st))
  /\ (forall r, In r (marker (db st')) <->
                In r (marker (db st))
                /\ ~ (objectId r = objId /\ (endTime r < t)%Z))
  /\ (forall calls s2 e2 r,
         In r (enclosing (db (run calls st')) objId s2 e2) ->
         (t <= endTime r)%Z)
  /\ (forall o, o <> objId ->
         filter (fun r => String.eqb (objectId r) o) (marker (db st'))
         = filter (fun r => String.eqb (objectId r) o) (marker (db st))).
Proof.
  intros H. apply getMarkerInfo_Ok_db in H.
  assert (Hev : forall r, evicted objId t r = true <->
                          objectId r = objId /\ (endTime r < t)%Z).
  { intros r. unfold evicted.
    rewrite andb_true_iff, String.eqb_eq, Z.ltb_lt, Z.sub_0_r. reflexivity. }
  assert (Hin : forall r, In r (marker (db st')) <->
                In r (marker (db st))
                /\ ~ (objectId r = objId /\ (endTime r < t)%Z)).
  { intros r. rewrite H. simpl. rewrite filter_In, negb_true_iff, <- Hev.
    destruct (evicted objId t r); intuition congruence. }
  split; [rewrite H; reflexivity|].
  split; [exact Hin|].
  split.
  - intros calls s2 e2 r Hr. apply enclosing_In in Hr.
    destruct Hr as [Hr [Ho _]]. apply run_marker_incl, Hin in Hr.
    destruct Hr as [_ Hr]. destruct (Z.lt_ge_cases (endTime r) t); tauto.
  - intros o Ho. rewrite H. simpl. apply filter_filter_implied.
    intros r Hr. apply String.eqb_eq in Hr. apply negb_true_iff.
    unfold evicted. destruct (String.eqb_spec (objectId r) objId); [congruence|].
    reflexivity.
Qed.

(** The cursor after a call. *)
Lemma getMarkerInfo_markerId (objId : string) (t e : Z) (st : NVVP) :
  markerId (snd (getMarkerInfo objId t e st)) =
  match bin_loop (db st) no_bins (select_enclosing (db st) objId t e) with
  | Ok bins =>
      if truthy (select_enclosing (db st) objId t e) && negb (bprop bins)
      then last_id (select_enclosing (db st) objId t e)
      else markerId st
  | Raise _ => markerId st
  end.
Proof.
  rewrite getMarkerInfo_unfold. cbn zeta.
  destruct (bin_loop _ _ _) as [bins|] eqn:E; [|reflexivity].
  destruct (bin_loop_normalise _ _ _ E) as [sm ->].
  destruct (truthy _ && negb _); [|reflexivity].
  destruct (lookahead_alt _ _ _ _); reflexivity.
Qed.

(** C4 (as amended). The look-ahead cursor is one integer,
    [self.markerId], shared by all objectIds: it is 0 when the object
    is created and never deleted; a forward-pass resolution that finds
    at least one enclosing marker sets it to the id of the last
    enclosing marker (in the order of the answer), whatever the
    objectId and whatever its former value; every other resolution
    leaves it as it is; and the look-ahead of a resolution, for any
    objectId, reads that one integer as its lower bound. *)
Theorem cursor_single_shared (objId : string) (t e : Z) (st : NVVP) :
  (forall d, markerId (init d) = 0%Z)
  /\ markerId (snd (getMarkerInfo objId t e st)) =
     match bin_loop (db st) no_bins (select_enclosing (db st) objId t e) with
     | Ok bins =>
         if truthy (select_enclosing (db st) objId t e) && negb (bprop bins)
         then last_id (select_enclosing (db st) objId t e)
         else markerId st
     | Raise _ => markerId st
     end
  /\ (forall rows, rows <> [] ->
        lookahead objId rows st =
        (lookahead_alt (db st) objId (markerId st) (last_id rows),
         {| db := db st; markerId := last_id rows |})).
Proof.
  split; [reflexivity|].
  split; [apply getMarkerInfo_markerId|].
  intros rows Hrows. apply lookahead_run. exact Hrows.
Qed.
End Resolution.

(** ** The pre-filter, the backward test and the look-ahead *)

Section Lookahead.
Context {R : Runtime} {L : RuntimeLaws R}.

Lemma window_In (d : Db) (objId : string) (lo hi : Z) (r : MarkerRow) :
  In r (window d objId lo hi) <->
  In r (marker d) /\ objectId r = objId /\ (lo < id r < hi)%Z.
Proof.
  unfold window.
  assert (Hb : between objId lo hi r = true <->
               objectId r = objId /\ (lo < id r < hi)%Z).
  { unfold between. rewrite !andb_true_iff, String.eqb_eq, Z.gtb_gt, Z.ltb_lt.
    intuition lia. }
  rewrite <- Hb, <- filter_In.
  split; apply Permutation_in; [|symmetry]; apply order_by_perm.
Qed.

Lemma lookahead_alt_raise (d : Db) (objId : string) (lo hi : Z)
  (r : MarkerRow) (m : string) :
  In r (marker d) -> objectId r = objId -> (lo < id r < hi)%Z ->
  getString d (name r) = Ok m ->
  Py.contains ", seq=" m = true -> Py.contains ", seq = " m = false ->
  lookahead_alt d objId lo hi = Raise AssertionError.
Proof.
  intros Hin Ho Hid Hm Hloose Hstrict.
  unfold lookahead_alt. rewrite alt_loop_texts.
  destruct (mapM (getString d) (map r_name (select_between d objId lo hi)))
    as [texts|ex] eqn:E; cbn [rbind].
  - apply (normalise_raise _ m); [|exact Hstrict].
    apply filter_In. split; [|exact Hloose].
    apply (mapM_In _ _ _ (name r) m E); [|exact Hm].
    unfold select_between. rewrite map_map. apply in_map_iff.
    exists r. split; [reflexivity|]. apply window_In. tauto.
  - apply mapM_getString_raise in E. rewrite E. reflexivity.
Qed.

(** C9. In a forward-pass resolution (the enclosing markers are
    binned, there is one at least and none makes the kernel a
    backward one), if the look-ahead window (the rows of the objectId
    with [id] strictly between the cursor and the id of the last
    enclosing marker) holds a marker whose text contains [", seq="]
    but not [", seq = "], then [getMarkerInfo] raises
    [AssertionError] and returns no record; the cursor has been
    moved and nothing has been deleted. *)
Theorem loose_delimiter_raises (objId : string) (t e : Z) (st : NVVP)
  (bins : Bins) (r : MarkerRow) (m : string) :
  bin_loop (db st) no_bins (select_enclosing (db st) objId t e) = Ok bins ->
  select_enclosing (db st) objId t e <> [] ->
  bprop bins = false ->
  In r (marker (db st)) ->
  objectId r = objId ->
  (markerId st < id r < last_id (select_enclosing (db st) objId t e))%Z ->
  getString (db st) (name r) = Ok m ->
  Py.contains ", seq=" m = true ->
  Py.contains ", seq = " m = false ->
  getMarkerInfo objId t e st =
  (Raise AssertionError,
   {| db := db st; markerId := last_id (select_enclosing (db st) objId t e) |}).
Proof.
  intros Hbins Hrows Hbprop Hin Ho Hid Hm Hloose Hstrict.
  rewrite getMarkerInfo_unfold. cbn zeta. rewrite Hbins.
  destruct (bin_loop_normalise _ _ _ Hbins) as [sm ->].
  apply truthy_true in Hrows. rewrite Hrows, Hbprop. cbn [negb andb].
  rewrite (lookahead_alt_raise _ _ _ _ r m); auto.
Qed.

(** C8 (as amended). When [getMarkerInfo] returns a record, no text
    that contains ["CheckpointFunctionBackward"] is in its layer,
    moduleRepr, opArgs, sequence or other markers, nor among the
    trace markers from which its call trace is computed: such a text
    is dropped before the binning.  (The altSequence markers come
    from the look-ahead, which has its own filter.) *)
Theorem checkpoint_prefiltered (objId : string) (t e : Z) (st st' : NVVP)
  (rec : CorrelationRecord) (m : string) :
  getMarkerInfo objId t e st = (Ok rec, st') ->
  is_checkpoint m = true ->
  ~ In m (out_layerMarkers rec)
  /\ ~ In m (out_reprMarkers rec)
  /\ ~ In m (out_pyprofMarkers rec)
  /\ ~ In m (out_seqMarkers rec)
  /\ ~ In m (out_otherMarkers rec)
  /\ exists traces, filterTrace traces = Ok (out_trace rec) /\ ~ In m traces.
Proof.
  intros H Hm. rewrite getMarkerInfo_unfold in H. cbn zeta in H.
  destruct (bin_loop _ _ _) as [bins|] eqn:Eb; [|discriminate].
  assert (Hbin : forall c, ~ In m (bin_of c bins)).
  { intros c Hin. rewrite bin_loop_texts in Eb.
    destruct (mapM _ _) as [texts|]; [|discriminate]. injection Eb as <-.
    rewrite fold_bin_marker_bin_of in Hin.
    replace (bin_of c no_bins) with (@nil string) in Hin by (destruct c; reflexivity).
    simpl in Hin. apply filter_In in Hin. destruct Hin as [_ Hin].
    rewrite Hm in Hin. discriminate. }
  destruct (normalise (seqMarkers bins)) as [sm|] eqn:En; [|discriminate].
  assert (Hret : exists alt, returned bins sm (list_set_str (otherMarkers bins)) alt = Ok rec).
  { destruct (truthy _ && negb _).
    - destruct (lookahead_alt _ _ _ _) as [alt|]; [|discriminate].
      exists alt. congruence.
    - exists []. congruence. }
  destruct Hret as [alt Hret]. apply returned_Ok in Hret.
  destruct Hret as (-> & -> & -> & -> & -> & _ & Htr).
  split; [apply (Hbin Layer)|].
  split; [apply (Hbin ModuleRepr)|].
  split; [apply (Hbin OpArgs)|].
  split; [intros Hin; apply (Hbin Sequence); eapply normalise_incl; eassumption|].
  split; [intros Hin; apply (Hbin Other); apply list_set_str_In; exact Hin|].
  exists (traceMarkers bins). split; [exact Htr | apply (Hbin Trace)].
Qed.

(** C10. Checkpointing markers are left out of the backward test
    too: when the texts of the enclosing markers are known, there is
    one enclosing marker at least, and every text that matches
    ["_backward, seq ="], ["Backward, seq ="] or ["Backward0, seq ="]
    also contains ["CheckpointFunctionBackward"], the loop ends with
    [bprop = False], the cursor is set to the id of the last enclosing
    marker and the outcome of the call is that of the look-ahead: its
    exception if it raises, its texts as altSequence markers
    otherwise. *)
Theorem checkpoint_not_backward (objId : string) (t e : Z) (st : NVVP)
  (texts : list string) :
  mapM (getString (db st)) (map r_name (select_enclosing (db st) objId t e))
  = Ok texts ->
  select_enclosing (db st) objId t e <> [] ->
  (forall m, In m texts -> is_backward m = true -> is_checkpoint m = true) ->
  exists bins,
    bin_loop (db st) no_bins (select_enclosing (db st) objId t e) = Ok bins
    /\ bprop bins = false
    /\ markerId (snd (getMarkerInfo objId t e st))
       = last_id (select_enclosing (db st) objId t e)
    /\ match lookahead objId (select_enclosing (db st) objId t e) st with
       | (Raise ex, s1) => getMarkerInfo objId t e st = (Raise ex, s1)
       | (Ok alt, s1) =>
           markerId s1 = last_id (select_enclosing (db st) objId t e)
           /\ forall rec s', getMarkerInfo objId t e st = (Ok rec, s') ->
                             out_altSeqMarkers rec = alt
       end.
Proof.
  intros Htexts Hrows Hall.
  exists (fold_left bin_marker texts no_bins).
  assert (Hb : bin_loop (db st) no_bins (select_enclosing (db st) objId t e)
               = Ok (fold_left bin_marker texts no_bins))
    by (rewrite bin_loop_texts, Htexts; reflexivity).
  assert (Hbp : bprop (fold_left bin_marker texts no_bins) = false).
  { rewrite fold_bin_marker_bprop. simpl.
    apply not_true_is_false. intros Hex. apply existsb_exists in Hex.
    destruct Hex as [m [Hin Hm]]. apply andb_true_iff in Hm.
    destruct Hm as [Hc Hbw]. rewrite (Hall m Hin Hbw) in Hc. discriminate. }
  split; [exact Hb|]. split; [exact Hbp|].
  pose proof Hrows as Htr. apply truthy_true in Htr.
  split.
  { rewrite getMarkerInfo_markerId, Hb, Htr, Hbp. reflexivity. }
  rewrite (lookahead_run objId _ st Hrows), getMarkerInfo_unfold. cbn zeta.
  rewrite Hb, Htr, Hbp. cbn [negb andb].
  destruct (bin_loop_normalise _ _ _ Hb) as [sm ->].
  destruct (lookahead_alt _ _ _ _) as [alt|ex]; [|reflexivity].
  split; [reflexivity|].
  intros rec s' H. injection H as H _. apply returned_Ok in H. tauto.
Qed.
End Lookahead.

(** ** The answer of the containment query and what is made of it *)

Lemma last_id_snoc (front : list MarkerRow) (r : MarkerRow) :
  last_id (map id_name (front ++ [r])) = id r.
Proof. unfold last_id. rewrite !map_app. simpl. apply last_last. Qed.

Section ContainmentQuery.
Context {R : Runtime} {L : RuntimeLaws R}.

(** C1. Strict containment: the answer of the containment query of
    [getMarkerInfo] for an objectId [O] and a kernel interval [s, e]
    is the columns [id] and [name] of a list [rows] of rows of
    [marker] that holds exactly the rows with [objectId = O],
    [startTime < s] and [endTime > e] (each as often as it is in the
    table), never a row with [startTime = s] or [endTime = e], in
    ascending order of [startTime]; a pair [(i, n)] is in the answer
    exactly when it is the [id] and the [name] of such a row.
    [getMarkerInfo] works on this answer: when the [name] of one of the
    rows has no text, the call raises [AssertionError] and leaves the
    state as it is; otherwise the cursor after the call is the [id] of
    the last row of the answer in a forward resolution and the former
    cursor when there is no row or the kernel is a backward one, and a
    record that the call returns holds the texts of the rows, in the
    order of the answer, each in the list of its category. *)
Theorem containment_strict (st : NVVP) (objId : string) (s e : Z) :
  exists rows : list MarkerRow,
    select_enclosing (db st) objId s e
    = map (fun r => {| r_id := id r; r_name := name r |}) rows
    /\ Permutation rows
         (filter (fun r => String.eqb (objectId r) objId
                           && (startTime r <? s)%Z && (endTime r >? e)%Z)
                 (marker (db st)))
    /\ (forall r, In r rows <->
                  In r (marker (db st)) /\ objectId r = objId
                  /\ (startTime r < s)%Z /\ (endTime r > e)%Z)
    /\ (forall r, In r rows -> startTime r <> s /\ endTime r <> e)
    /\ StronglySorted (fun a b => (startTime a <= startTime b)%Z) rows
    /\ (forall i n,
          In {| r_id := i; r_name := n |} (select_enclosing (db st) objId s e) <->
          exists r, In r (marker (db st)) /\ id r = i /\ name r = n
                    /\ objectId r = objId
                    /\ (startTime r < s)%Z /\ (endTime r > e)%Z)
    /\ (forall ex, mapM (getString (db st)) (map name rows) = Raise ex ->
          getMarkerInfo objId s e st = (Raise AssertionError, st))
    /\ (forall texts, mapM (getString (db st)) (map name rows) = Ok texts ->
          let kept c := filter (fun m => negb (is_checkpoint m)
                                         && Category_eqb c (classify m)) texts in
          let backward :=
            existsb (fun m => negb (is_checkpoint m) && is_backward m) texts in
          (forall front r, rows = front ++ [r] -> backward = false ->
             markerId (snd (getMarkerInfo objId s e st)) = id r)
          /\ (rows = [] \/ backward = true ->
              markerId (snd (getMarkerInfo objId s e st)) = markerId st)
          /\ forall rec st', getMarkerInfo objId s e st = (Ok rec, st') ->
               out_layerMarkers rec = kept Layer
               /\ out_reprMarkers rec = kept ModuleRepr
               /\ out_pyprofMarkers rec = kept OpArgs
               /\ (forall m, In m (out_otherMarkers rec) <-> In m (kept Other))
               /\ (forall m, In m (out_seqMarkers rec) -> In m (kept Sequence))
               /\ filterTrace (kept Trace) = Ok (out_trace rec)).
Proof.
  exists (enclosing (db st) objId s e).
  assert (Hin : forall r, In r (enclosing (db st) objId s e) <->
                  In r (marker (db st)) /\ objectId r = objId
                  /\ (startTime r < s)%Z /\ (endTime r > e)%Z)
    by (intros r; apply enclosing_In).
  split; [reflexivity|].
  split; [apply order_by_perm|].
  split; [exact Hin|].
  split; [intros r Hr; apply Hin in Hr; lia|].
  split; [apply order_by_sorted|].
  split.
  { intros i n. unfold select_enclosing. rewrite in_map_iff. split.
    - intros [r [Hr Hi]]. exists r. apply Hin in Hi.
      unfold id_name in Hr. injection Hr as <- <-. tauto.
    - intros [r (H1 & <- & <- & H2)]. exists r.
      split; [reflexivity | apply Hin; tauto]. }
  assert (Hnames : map r_name (select_enclosing (db st) objId s e)
                   = map name (enclosing (db st) objId s e)).
  { unfold select_enclosing. rewrite map_map. reflexivity. }
  split.
  { intros ex Hex. rewrite getMarkerInfo_unfold. cbn zeta.
    rewrite bin_loop_texts, Hnames, Hex. cbn [rbind].
    rewrite <- Hnames in Hex. apply mapM_getString_raise in Hex.
    rewrite Hex. reflexivity. }
  intros texts Htexts kept backward.
  assert (Hb : bin_loop (db st) no_bins (select_enclosing (db st) objId s e)
               = Ok (fold_left bin_marker texts no_bins))
    by (rewrite bin_loop_texts, Hnames, Htexts; reflexivity).
  assert (Hbp : bprop (fold_left bin_marker texts no_bins) = backward)
    by (rewrite fold_bin_marker_bprop; reflexivity).
  assert (Hbin : forall c, bin_of c (fold_left bin_marker texts no_bins) = kept c).
  { intros c. rewrite fold_bin_marker_bin_of. destruct c; reflexivity. }
  split.
  { intros front r Hrows Hbw.
    rewrite getMarkerInfo_markerId, Hb, Hbp, Hbw.
    unfold select_enclosing. rewrite Hrows, last_id_snoc.
    destruct front; reflexivity. }
  split.
  { intros [Hrows | Hbw]; rewrite getMarkerInfo_markerId, Hb.
    - unfold select_enclosing. rewrite Hrows. reflexivity.
    - rewrite Hbp, Hbw, andb_false_r. reflexivity. }
  intros rec st' H. rewrite getMarkerInfo_unfold in H. cbn zeta in H.
  rewrite Hb in H.
  destruct (normalise (seqMarkers (fold_left bin_marker texts no_bins)))
    as [sm|] eqn:En; [|discriminate].
  assert (Hret : exists alt,
            returned (fold_left bin_marker texts no_bins) sm
              (list_set_str (otherMarkers (fold_left bin_marker texts no_bins))) alt
            = Ok rec).
  { destruct (truthy _ && negb _).
    - destruct (lookahead_alt _ _ _ _) as [alt|]; [|discriminate].
      exists alt. congruence.
    - exists []. congruence. }
  destruct Hret as [alt Hret]. apply returned_Ok in Hret.
  destruct Hret as (-> & -> & -> & -> & -> & _ & Htr).
  split; [apply (Hbin Layer)|].
  split; [apply (Hbin ModuleRepr)|].
  split; [apply (Hbin OpArgs)|].
  split; [intros m; rewrite list_set_str_In; rewrite <- (Hbin Other); reflexivity|].
  split; [intros m Hm; rewrite <- (Hbin Sequence); eapply normalise_incl; eassumption|].
  rewrite <- (Hbin Trace). exact Htr.
Qed.
End ContainmentQuery.

(** * The properties on the example databases *)

Import Examples.

Lemma containment_strict_witness :
  exists rows : list MarkerRow,
    select_enclosing (R := ref_runtime) two_threads O2 10 20
    = map (fun r => {| r_id := id r; r_name := name r |}) rows
    /\ (forall r, In r rows <->
                  In r (marker two_threads) /\ objectId r = O2
                  /\ (startTime r < 10)%Z /\ (endTime r > 20)%Z)
    /\ (forall texts, mapM (getString two_threads) (map name rows) = Ok texts ->
          forall rec st',
            getMarkerInfo (R := ref_runtime) O2 10 20 after_thread1 = (Ok rec, st') ->
            out_layerMarkers rec
            = filter (fun m => negb (is_checkpoint m)
                               && Category_eqb Layer (classify m)) texts).
Proof.
  destruct (containment_strict (L := ref_runtime_laws) after_thread1 O2 10 20)
    as (rows & Hsel & _ & Hin & _ & _ & _ & _ & Hrec).
  exists rows. split; [exact Hsel|]. split; [exact Hin|].
  intros texts Htexts rec st' Hcall.
  destruct (Hrec texts Htexts) as (_ & _ & Hout).
  destruct (Hout rec st' Hcall) as (Hlayer & _). exact Hlayer.
Defined.

Example containment_two_threads :
  enclosing (R := ref_runtime) two_threads O2 10 20 = [row 3 6 100 O2 11]
  /\ enclosing (R := ref_runtime) two_threads O2 6 20 = []
  /\ enclosing (R := ref_runtime) two_threads O2 10 100 = [].
Proof. repeat split; vm_compute; reflexivity. Qed.

(** Three markers enclose the forward kernel: the answer lists their
    [id] and [name] by ascending [startTime], the texts are binned in
    that order and the cursor is the [id] of the last. *)
Example containment_forward_backward :
  select_enclosing (R := ref_runtime) forward_backward O1 10 20
  = [ {| r_id := 1; r_name := 40 |}; {| r_id := 2; r_name := 41 |};
      {| r_id := 3; r_name := 42 |} ]
  /\ select_enclosing (R := ref_runtime) forward_backward O1 2 20
     = [ {| r_id := 1; r_name := 40 |}; {| r_id := 2; r_name := 41 |} ]
  /\ select_enclosing (R := ref_runtime) forward_backward O1 10 80
     = [ {| r_id := 1; r_name := 40 |}; {| r_id := 2; r_name := 41 |} ]
  /\ markerId (snd (getMarkerInfo (R := ref_runtime) O1 10 20 (init forward_backward)))
     = 3%Z.
Proof. repeat split; vm_compute; reflexivity. Qed.

Lemma eviction_monotone_witness :
  getMarkerInfo (R := ref_runtime) O2 10 20 after_thread1
  = (Ok record_thread2, after_thread2)
  /\ marker (db after_thread2)
     = filter (fun r => negb (evicted O2 10 r)) (marker (db after_thread1))
  /\ (forall r, In r (marker (db after_thread2)) <->
                In r (marker (db after_thread1))
                /\ ~ (objectId r = O2 /\ (endTime r < 10)%Z))
  /\ (forall calls s2 e2 r,
         In r (enclosing (R := ref_runtime)
                 (db (run (R := ref_runtime) calls after_thread2)) O2 s2 e2) ->
         (10 <= endTime r)%Z)
  /\ (forall o, o <> O2 ->
         filter (fun r => String.eqb (objectId r) o) (marker (db after_thread2))
         = filter (fun r => String.eqb (objectId r) o) (marker (db after_thread1))).
Proof.
  assert (H : getMarkerInfo (R := ref_runtime) O2 10 20 after_thread1
              = (Ok record_thread2, after_thread2))
    by (vm_compute; reflexivity).
  split; [exact H|].
  exact (eviction_monotone (L := ref_runtime_laws) O2 10 20
           after_thread1 after_thread2 record_thread2 H).
Defined.

Lemma cursor_single_shared_witness :
  (forall d, markerId (init d) = 0%Z)
  /\ markerId (snd (getMarkerInfo (R := ref_runtime) O1 10 20 (init two_threads)))
     = match bin_loop (db (init two_threads)) no_bins
               (select_enclosing (R := ref_runtime) (db (init two_threads)) O1 10 20) with
       | Ok bins =>
           if truthy (select_enclosing (R := ref_runtime) (db (init two_threads)) O1 10 20)
              && negb (bprop bins)
           then last_id (select_enclosing (R := ref_runtime) (db (init two_threads)) O1 10 20)
           else markerId (init two_threads)
       | Raise _ => markerId (init two_threads)
       end
  /\ (forall rows, rows <> [] ->
        lookahead (R := ref_runtime) O1 rows (init two_threads) =
        (lookahead_alt (R := ref_runtime) (db (init two_threads)) O1
                       (markerId (init two_threads)) (last_id rows),
         {| db := db (init two_threads); markerId := last_id rows |})).
Proof.
  exact (cursor_single_shared (L := ref_runtime_laws) O1 10 20 (init two_threads)).
Defined.

(** C4 (as stated) fails: there is no cursor per objectId.  Resolving a
    kernel of thread 1 moves the cursor that the next look-ahead of
    thread 2 reads (from 0 to 5); resolving then a kernel of thread 2
    moves it back (from 5 to 3); and the resolution for thread 2 raises
    when it comes first and returns a record when it comes after that
    for thread 1. *)
Lemma cursor_not_per_object :
  O1 <> O2
  /\ markerId (init two_threads) = 0%Z
  /\ getMarkerInfo (R := ref_runtime) O1 10 20 (init two_threads)
     = (Ok {| out_layerMarkers := ["layer:conv"]; out_trace := [];
              out_reprMarkers := []; out_pyprofMarkers := [];
              out_seqMarkers := []; out_otherMarkers := [];
              out_altSeqMarkers := []; out_seqIds := []; out_altSeqIds := [];
              out_layerNames := ["conv"] |},
        after_thread1)
  /\ markerId after_thread1 = 5%Z
  /\ getMarkerInfo (R := ref_runtime) O2 10 20 after_thread1
     = (Ok record_thread2, after_thread2)
  /\ markerId after_thread2 = 3%Z
  /\ fst (getMarkerInfo (R := ref_runtime) O2 10 20 (init two_threads))
     = Raise AssertionError.
Proof.
  split; [discriminate|]. repeat split; vm_compute; reflexivity.
Qed.

Lemma getSeqId_ascending_distinct_witness :
  exists out,
    getSeqId (R := ref_runtime) ["B, seq = 9"; "C, seq = 2"; "D, seq = 2"] = Ok out
    /\ StronglySorted Z.lt out
    /\ (forall z, In z out <-> In z [9; 2; 2]%Z)
    /\ (forall m, In m ["B, seq = 9"; "C, seq = 2"; "D, seq = 2"] ->
          getSeqId (R := ref_runtime) (m :: ["B, seq = 9"; "C, seq = 2"; "D, seq = 2"])
          = Ok out)
    /\ getSeqId (R := ref_runtime) ["B, seq = 9"; "C, seq = 2"; "D, seq = 2"]
       = Ok [2; 9]%Z
    /\ getSeqId (R := ref_runtime) ["A, seq = 3"; "A, seq = 3"]
       = getSeqId (R := ref_runtime) ["A, seq = 3"].
Proof.
  apply (getSeqId_ascending_distinct (L := ref_runtime_laws)
           ["B, seq = 9"; "C, seq = 2"; "D, seq = 2"] [9; 2; 2]%Z).
  repeat constructor.
  - exists " seq = 9", " 9". repeat split; reflexivity.
  - exists " seq = 2", " 2". repeat split; reflexivity.
  - exists " seq = 2", " 2". repeat split; reflexivity.
Defined.

Lemma loose_delimiter_raises_witness :
  getMarkerInfo (R := ref_runtime) O2 10 20 (init two_threads)
  = (Raise AssertionError, {| db := two_threads; markerId := 3 |}).
Proof.
  apply (loose_delimiter_raises (L := ref_runtime_laws) O2 10 20 (init two_threads)
           (append_layer no_bins "layer:fc") (row 2 1 5 O2 12) "add, seq=4").
  - vm_compute; reflexivity.
  - vm_compute; discriminate.
  - reflexivity.
  - simpl; auto.
  - reflexivity.
  - vm_compute. split; reflexivity.
  - vm_compute; reflexivity.
  - vm_compute; reflexivity.
  - vm_compute; reflexivity.
Defined.

Lemma checkpoint_prefiltered_witness :
  let m := "CheckpointFunctionBackward, seq = 7" in
  let rec :=
    {| out_layerMarkers := ["layer:conv"]; out_trace := [];
       out_reprMarkers := []; out_pyprofMarkers := [];
       out_seqMarkers := []; out_otherMarkers := [];
       out_altSeqMarkers := []; out_seqIds := []; out_altSeqIds := [];
       out_layerNames := ["conv"] |} in
  getMarkerInfo (R := ref_runtime) O1 10 20 (init checkpoint_only)
  = (Ok rec, {| db := checkpoint_only; markerId := 2 |})
  /\ ~ In m (out_layerMarkers rec)
  /\ ~ In m (out_reprMarkers rec)
  /\ ~ In m (out_pyprofMarkers rec)
  /\ ~ In m (out_seqMarkers rec)
  /\ ~ In m (out_otherMarkers rec)
  /\ exists traces,
       filterTrace (R := ref_runtime) traces = Ok (out_trace rec) /\ ~ In m traces.
Proof.
  intros m rec.
  assert (H : getMarkerInfo (R := ref_runtime) O1 10 20 (init checkpoint_only)
              = (Ok rec, {| db := checkpoint_only; markerId := 2 |}))
    by (vm_compute; reflexivity).
  split; [exact H|].
  apply (checkpoint_prefiltered (L := ref_runtime_laws) O1 10 20
           (init checkpoint_only) {| db := checkpoint_only; markerId := 2 |} rec m H).
  vm_compute; reflexivity.
Defined.

(** C8 (as stated) fails for the altSequence category: the look-ahead
    does not apply the pre-filter.  The checkpointing marker below
    encloses the kernel, is dropped by the first loop, lies in the
    look-ahead window and is returned among the altSequence markers. *)
Lemma checkpoint_in_altSequence :
  let m := "CheckpointFunctionBackward, seq=3, seq = 3" in
  is_checkpoint m = true
  /\ select_enclosing (R := ref_runtime) checkpointing O1 10 20
     = [ {| r_id := 1; r_name := 20 |}; {| r_id := 2; r_name := 21 |} ]
  /\ getString checkpointing 20 = Ok m
  /\ fst (getMarkerInfo (R := ref_runtime) O1 10 20 (init checkpointing))
     = Ok {| out_layerMarkers := ["layer:conv"]; out_trace := [];
             out_reprMarkers := []; out_pyprofMarkers := [];
             out_seqMarkers := []; out_otherMarkers := [];
             out_altSeqMarkers := [m]; out_seqIds := []; out_altSeqIds := [3%Z];
             out_layerNames := ["conv"] |}.
Proof. repeat split; vm_compute; reflexivity. Qed.

Lemma checkpoint_not_backward_witness :
  is_backward "CheckpointFunctionBackward, seq = 7" = true
  /\ exists bins,
      bin_loop (db (init checkpoint_only)) no_bins
        (select_enclosing (R := ref_runtime) (db (init checkpoint_only)) O1 10 20) = Ok bins
      /\ bprop bins = false
      /\ markerId (snd (getMarkerInfo (R := ref_runtime) O1 10 20 (init checkpoint_only)))
         = last_id (select_enclosing (R := ref_runtime) (db (init checkpoint_only)) O1 10 20)
      /\ match lookahead (R := ref_runtime) O1
                 (select_enclosing (R := ref_runtime) (db (init checkpoint_only)) O1 10 20)
                 (init checkpoint_only) with
         | (Raise ex, s1) =>
             getMarkerInfo (R := ref_runtime) O1 10 20 (init checkpoint_only) = (Raise ex, s1)
         | (Ok alt, s1) =>
             markerId s1
             = last_id (select_enclosing (R := ref_runtime) (db (init checkpoint_only)) O1 10 20)
             /\ forall rec s',
                 getMarkerInfo (R := ref_runtime) O1 10 20 (init checkpoint_only) = (Ok rec, s') ->
                 out_altSeqMarkers rec = alt
         end.
Proof.
  split; [reflexivity|].
  apply (checkpoint_not_backward (L := ref_runtime_laws) O1 10 20 (init checkpoint_only)
           ["CheckpointFunctionBackward, seq = 7"; "layer:conv"]).
  - vm_compute; reflexivity.
  - vm_compute; discriminate.
  - intros m [<-|[<-|[]]] H; [reflexivity | vm_compute in H; discriminate].
Defined.

Example checkpoint_only_cursor :
  markerId (snd (getMarkerInfo (R := ref_runtime) O1 10 20 (init checkpoint_only))) = 2%Z.
Proof. vm_compute; reflexivity. Qed.

(** * Further properties of the code *)

(** ** [getString] *)

Lemma filter_key_length {A : Type} (f : A -> Z) (i : Z) (l : list A) :
  NoDup (map f l) -> (List.length (filter (fun r => (f r =? i)%Z) l) <= 1)%nat.
Proof.
  induction l as [|x l IH]; simpl; [lia|].
  intros Hnd. inversion Hnd as [|? ? Hnotin Hnd']; subst.
  destruct (Z.eqb_spec (f x) i) as [E|E]; [|auto].
  simpl. destruct (filter (fun r => (f r =? i)%Z) l) as [|y ys] eqn:Ef; [simpl; lia|].
  exfalso. apply Hnotin.
  assert (Hy : In y (filter (fun r => (f r =? i)%Z) l)) by (rewrite Ef; left; reflexivity).
  apply filter_In in Hy. destruct Hy as [Hy Hfy]. apply Z.eqb_eq in Hfy.
  rewrite E, <- Hfy. apply in_map. exact Hy.
Qed.

(** X1. [getString] is a lookup by key that insists on exactly one row.
    With distinct ids in [StringTable] it returns [v] exactly when the
    row [(i, v)] is in the table and raises [AssertionError] exactly
    when no row has the id [i]; whatever the table, it raises
    [AssertionError] when two rows (at least) carry the id. *)
Theorem getString_lookup (d : Db) (i : Z) :
  (NoDup (map _id_ (StringTable d)) ->
     (forall v, getString d i = Ok v <->
                In {| _id_ := i; value := v |} (StringTable d))
     /\ (getString d i = Raise AssertionError <->
         ~ In i (map _id_ (StringTable d))))
  /\ ((2 <= List.length (filter (fun r => (_id_ r =? i)%Z) (StringTable d)))%nat ->
      getString d i = Raise AssertionError).
Proof.
  split.
  - intros Hnd. pose proof (filter_key_length _id_ i (StringTable d) Hnd) as Hlen.
    unfold getString, py_assert.
    assert (Hin : forall r, In r (filter (fun r => (_id_ r =? i)%Z) (StringTable d)) <->
                            In r (StringTable d) /\ _id_ r = i).
    { intros r. rewrite filter_In, Z.eqb_eq. reflexivity. }
    destruct (filter (fun r => (_id_ r =? i)%Z) (StringTable d)) as [|r [|r' rows]];
      cbn in *; [| |lia].
    + split.
      * intros v. split; [discriminate|]. intros H. exfalso.
        destruct (Hin {| _id_ := i; value := v |}) as [_ Hin']. apply Hin'. auto.
      * split; [|reflexivity]. intros _ H. apply in_map_iff in H.
        destruct H as [r [Hr Hr']]. destruct (Hin r) as [_ Hin']. apply Hin'. auto.
    + destruct (Hin r) as [Hr _]. destruct Hr as [Hr Hi]; [left; reflexivity|].
      split.
      * intros v. split.
        -- intros H. injection H as <-. destruct r; simpl in *. subst. exact Hr.
        -- intros H. destruct (Hin {| _id_ := i; value := v |}) as [_ Hin'].
           destruct Hin' as [E|[]]; [auto|]. rewrite E. reflexivity.
      * split; [discriminate|]. intros H. exfalso. apply H.
        rewrite <- Hi. apply in_map. exact Hr.
  - intros H. unfold getString, py_assert.
    destruct (filter (fun r => (_id_ r =? i)%Z) (StringTable d)) as [|r [|r' rows]];
      cbn in *; try lia; reflexivity.
Qed.

Lemma getString_lookup_witness :
  (forall v, getString Examples.two_threads 11 = Ok v <->
             In {| _id_ := 11; value := v |} (StringTable Examples.two_threads))
  /\ (getString Examples.two_threads 11 = Raise AssertionError <->
      ~ In 11%Z (map _id_ (StringTable Examples.two_threads))).
Proof.
  apply (proj1 (getString_lookup Examples.two_threads 11)).
  repeat constructor; simpl; intuition discriminate.
Defined.

(** ** [delete] *)

Lemma filter_filter_andb {A : Type} (p q : A -> bool) (l : list A) :
  filter p (filter q l) = filter (fun x => q x && p x) l.
Proof.
  induction l as [|x l IH]; simpl; [reflexivity|].
  destruct (q x); simpl; [destruct (p x); [f_equal|]|]; exact IH.
Qed.

(** X6. Evictions compose: two evictions for the same objectId amount to
    one eviction at the later of the two times (so that an eviction at
    an earlier time after one at a later time changes nothing), and
    evictions commute, whatever the objectIds. *)
Theorem delete_compose (d : Db) (o o' : string) (t t' : Z) :
  delete o t' (delete o t d) = delete o (Z.max t t') d
  /\ delete o' t' (delete o t d) = delete o t (delete o' t' d)
  /\ ((t' <= t)%Z -> delete o t' (delete o t d) = delete o t d).
Proof.
  assert (H1 : delete o t' (delete o t d) = delete o (Z.max t t') d).
  { unfold delete. simpl. f_equal. rewrite filter_filter_andb.
    apply filter_ext. intros r. unfold evicted.
    destruct (String.eqb (objectId r) o); simpl; [|reflexivity].
    rewrite !Z.sub_0_r.
    destruct (Z.ltb_spec (endTime r) t), (Z.ltb_spec (endTime r) t'),
      (Z.ltb_spec (endTime r) (Z.max t t')); simpl; try reflexivity; lia. }
  split; [exact H1|]. split.
  - unfold delete. simpl. f_equal. rewrite !filter_filter_andb.
    apply filter_ext. intros r. apply andb_comm.
  - intros Hle. rewrite H1. rewrite Z.max_l by exact Hle. reflexivity.
Qed.

(** X7. Eviction is sound for kernels that end late enough: an eviction
    at time [t], for any objectId, removes no row that encloses a
    kernel ending at [t - 1] or later; the containment query for such
    a kernel has the same answer before and after the eviction. *)
Theorem eviction_keeps_enclosing {R : Runtime} (d : Db) (o o' : string) (t s e : Z) :
  (t <= e + 1)%Z ->
  filter (encloses o s e) (marker (delete o' t d)) = filter (encloses o s e) (marker d)
  /\ enclosing (delete o' t d) o s e = enclosing d o s e
  /\ select_enclosing (delete o' t d) o s e = select_enclosing d o s e.
Proof.
  intros Hte.
  assert (H : filter (encloses o s e) (marker (delete o' t d))
              = filter (encloses o s e) (marker d)).
  { unfold delete. simpl. apply filter_filter_implied.
    intros r Hr. apply encloses_iff in Hr. apply negb_true_iff.
    unfold evicted. rewrite Z.sub_0_r.
    destruct (Z.ltb_spec (endTime r) t); [lia|]. apply andb_false_r. }
  split; [exact H|].
  unfold select_enclosing, enclosing. rewrite H. split; reflexivity.
Qed.

Lemma eviction_keeps_enclosing_witness :
  filter (encloses Examples.O2 10 20) (marker (delete Examples.O2 10 Examples.two_threads))
  = filter (encloses Examples.O2 10 20) (marker Examples.two_threads)
  /\ enclosing (R := ref_runtime) (delete Examples.O2 10 Examples.two_threads) Examples.O2 10 20
     = enclosing (R := ref_runtime) Examples.two_threads Examples.O2 10 20
  /\ select_enclosing (R := ref_runtime) (delete Examples.O2 10 Examples.two_threads) Examples.O2 10 20
     = select_enclosing (R := ref_runtime) Examples.two_threads Examples.O2 10 20.
Proof.
  apply (eviction_keeps_enclosing (R := ref_runtime)
           Examples.two_threads Examples.O2 Examples.O2 10 10 20).
  lia.
Defined.

(** ** [createMarkerTable] *)

Lemma createMarkerTable_In (events : list RawEvent.t) (r : MarkerRow) :
  In r (createMarkerTable events) <->
  exists a b, In a events /\ In b events
              /\ RawEvent.id a = RawEvent.id b
              /\ RawEvent.flags a = 2%Z /\ RawEvent.flags b = 4%Z
              /\ r = marker_row a b.
Proof.
  unfold createMarkerTable. rewrite in_flat_map. split.
  - intros [a [Ha Hr]]. apply in_map_iff in Hr. destruct Hr as [b [<- Hb]].
    apply filter_In in Hb. destruct Hb as [Hb Hj]. unfold joined in Hj.
    rewrite !andb_true_iff, !Z.eqb_eq in Hj. exists a, b. tauto.
  - intros (a & b & Ha & Hb & Hid & Hfa & Hfb & ->). exists a. split; [exact Ha|].
    apply in_map, filter_In. split; [exact Hb|]. unfold joined.
    rewrite !andb_true_iff, !Z.eqb_eq. tauto.
Qed.

Lemma filter_const {A : Type} (b : bool) (l : list A) :
  filter (fun _ => b) l = if b then l else [].
Proof.
  induction l as [|x l IH]; simpl; [destruct b; reflexivity|].
  rewrite IH. destruct b; reflexivity.
Qed.

(** The rows that a list [l] of events contributes to the join with
    [events], among those whose [id] is the row id of [a]. *)
Lemma rows_of_event (events l : list RawEvent.t) (a : RawEvent.t) :
  List.length
    (filter (fun r => (id r =? RawEvent._id_ a)%Z)
            (flat_map (fun a' => map (marker_row a') (filter (joined a') events)) l))
  = List.length
      (flat_map (fun a' => filter (joined a') events)
         (filter (fun a' => (RawEvent._id_ a' =? RawEvent._id_ a)%Z) l)).
Proof.
  induction l as [|x l IH]; [reflexivity|].
  cbn [flat_map filter]. rewrite filter_app, length_app, IH, filter_map_swap, length_map.
  cbn [marker_row id]. rewrite filter_const.
  destruct (RawEvent._id_ x =? RawEvent._id_ a)%Z.
  - cbn [flat_map]. rewrite length_app. reflexivity.
  - reflexivity.
Qed.

(** X2. Pairing of the push and pop events.  A row of [marker] is exactly
    a pair of a push event (flags 2) and a pop event (flags 4) of the
    same range id: it carries the row id, the time stamp, the name and
    the hexadecimal objectId of the push and, as end time, the time
    stamp of the pop.  When the row ids of the events are distinct, a
    push event gives as many rows as there are pop events with its
    range id (none when it is unmatched, one when it is matched once),
    and an event that is not a push gives none. *)
Theorem createMarkerTable_pairing (events : list RawEvent.t) :
  (forall r, In r (createMarkerTable events) <->
     exists a b, In a events /\ In b events
                 /\ RawEvent.id a = RawEvent.id b
                 /\ RawEvent.flags a = 2%Z /\ RawEvent.flags b = 4%Z
                 /\ r = marker_row a b)
  /\ (NoDup (map RawEvent._id_ events) ->
      forall a, In a events ->
        List.length (filter (fun r => (id r =? RawEvent._id_ a)%Z)
                            (createMarkerTable events))
        = if (RawEvent.flags a =? 2)%Z
          then List.length
                 (filter (fun b => (RawEvent.id b =? RawEvent.id a)%Z
                                   && (RawEvent.flags b =? 4)%Z) events)
          else 0%nat).
Proof.
  split; [apply createMarkerTable_In|].
  intros Hnd a Ha. unfold createMarkerTable.
  rewrite (rows_of_event events events a).
  assert (Hsingle : filter (fun a' => (RawEvent._id_ a' =? RawEvent._id_ a)%Z) events = [a]).
  { clear - Hnd Ha. induction events as [|x l IH]; [contradiction|].
    inversion Hnd as [|? ? Hnotin Hnd']; subst. simpl.
    destruct Ha as [->|Ha].
    - rewrite Z.eqb_refl. f_equal.
      destruct (filter _ l) as [|y ys] eqn:Ef; [reflexivity|]. exfalso. apply Hnotin.
      assert (Hy : In y (filter (fun a' => (RawEvent._id_ a' =? RawEvent._id_ a)%Z) l))
        by (rewrite Ef; left; reflexivity).
      apply filter_In in Hy. destruct Hy as [Hy Hy']. apply Z.eqb_eq in Hy'.
      rewrite <- Hy'. apply in_map. exact Hy.
    - destruct (Z.eqb_spec (RawEvent._id_ x) (RawEvent._id_ a)) as [E|E].
      + exfalso. apply Hnotin. rewrite E. apply in_map. exact Ha.
      + apply IH; assumption. }
  rewrite Hsingle. cbn [flat_map]. rewrite app_nil_r.
  unfold joined. destruct (RawEvent.flags a =? 2)%Z.
  - f_equal. apply filter_ext. intros b.
    rewrite andb_true_r, (Z.eqb_sym (RawEvent.id a)). reflexivity.
  - rewrite (filter_ext _ (fun _ => false))
      by (intros b; rewrite andb_false_r; reflexivity).
    rewrite filter_const. reflexivity.
Qed.

(** ** [encode_object_id] *)

Lemma le_bytes_length (n : nat) : forall x, List.length (le_bytes n x) = n.
Proof. induction n as [|n IH]; intros x; simpl; [|rewrite IH]; reflexivity. Qed.

Lemma le_bytes_range (n : nat) : forall x, Forall is_byte (le_bytes n x).
Proof.
  induction n as [|n IH]; intros x; simpl; constructor; [|apply IH].
  unfold is_byte. apply Z.mod_pos_bound. lia.
Qed.

Lemma le_bytes_mod (n : nat) :
  forall x y, le_bytes n x = le_bytes n y ->
              (x mod 256 ^ Z.of_nat n = y mod 256 ^ Z.of_nat n)%Z.
Proof.
  induction n as [|n IH]; intros x y H.
  - simpl. rewrite !Z.mod_1_r. reflexivity.
  - simpl in H. injection H as H0 H1. apply IH in H1.
    rewrite Nat2Z.inj_succ, Z.pow_succ_r by lia.
    rewrite !Z.rem_mul_r by lia. rewrite H0, H1. reflexivity.
Qed.

Lemma nibble_bounds (b : Z) :
  is_byte b -> (Z.to_nat (b / 16) < 16)%nat /\ (Z.to_nat (b mod 16) < 16)%nat.
Proof. unfold is_byte. intros H. Z.div_mod_to_equations. lia. Qed.

Lemma upper_nibble (k : nat) :
  (k < 16)%nat ->
  upper_char (nth k hex_digits_lower "0"%char) = nth k hex_digits_upper "0"%char.
Proof. do 16 (destruct k as [|k]; [reflexivity|]). lia. Qed.

Lemma hex_digits_upper_NoDup : NoDup hex_digits_upper.
Proof.
  apply (NoDup_nth hex_digits_upper "0"%char). intros i j Hi Hj.
  simpl in Hi, Hj.
  do 16 (destruct i as [|i]; [do 16 (destruct j as [|j]; [simpl; congruence|]); lia|]).
  lia.
Qed.

Lemma hexlify_cons (b : Z) (bs : list Z) :
  hexlify (b :: bs)
  = String (nth (Z.to_nat (b / 16)) hex_digits_lower "0"%char)
      (String (nth (Z.to_nat (b mod 16)) hex_digits_lower "0"%char) (hexlify bs)).
Proof. reflexivity. Qed.

Lemma sql_hex_cons (b : Z) (bs : list Z) :
  sql_hex (b :: bs)
  = String (nth (Z.to_nat (b / 16)) hex_digits_upper "0"%char)
      (String (nth (Z.to_nat (b mod 16)) hex_digits_upper "0"%char) (sql_hex bs)).
Proof. reflexivity. Qed.

(** [hexlify] followed by [upper] is the SQL function [HEX]. *)
Lemma upper_hexlify (bs : list Z) :
  Forall is_byte bs -> upper (hexlify bs) = sql_hex bs.
Proof.
  induction 1 as [|b bs Hb _ IH]; [reflexivity|].
  destruct (nibble_bounds b Hb) as [Hh Hl].
  rewrite hexlify_cons, sql_hex_cons. cbn [upper].
  rewrite IH, (upper_nibble _ Hh), (upper_nibble _ Hl). reflexivity.
Qed.

Lemma sql_hex_length (bs : list Z) :
  String.length (sql_hex bs) = (2 * List.length bs)%nat.
Proof.
  induction bs as [|b bs IH]; [reflexivity|].
  rewrite sql_hex_cons. cbn [String.length List.length]. rewrite IH. lia.
Qed.

Lemma sql_hex_digits (bs : list Z) (c : ascii) :
  Forall is_byte bs -> In c (list_ascii_of_string (sql_hex bs)) ->
  In c hex_digits_upper.
Proof.
  induction 1 as [|b bs Hb _ IH]; [contradiction|].
  destruct (nibble_bounds b Hb) as [Hh Hl].
  rewrite sql_hex_cons. cbn [list_ascii_of_string In].
  intros [<-|[<-|H]]; [apply nth_In; exact Hh | apply nth_In; exact Hl | auto].
Qed.

Lemma sql_hex_inj (bs bs' : list Z) :
  Forall is_byte bs -> Forall is_byte bs' -> sql_hex bs = sql_hex bs' -> bs = bs'.
Proof.
  intros H. revert bs'. induction H as [|b bs Hb _ IH]; intros bs' H' E.
  - destruct bs'; [reflexivity | discriminate].
  - destruct H' as [|b' bs' Hb' H']; [discriminate|].
    rewrite !sql_hex_cons in E. injection E as Eh El E.
    destruct (nibble_bounds b Hb) as [Hh Hl].
    destruct (nibble_bounds b' Hb') as [Hh' Hl'].
    pose proof (proj1 (NoDup_nth hex_digits_upper "0"%char) hex_digits_upper_NoDup) as Hnth.
    apply Hnth in Eh; [|exact Hh | exact Hh'].
    apply Hnth in El; [|exact Hl | exact Hl'].
    f_equal; [|apply IH; assumption].
    unfold is_byte in *. Z.div_mod_to_equations. lia.
Qed.

Lemma app_inj_length {A : Type} (l1 l1' l2 l2' : list A) :
  List.length l1 = List.length l1' -> l1 ++ l2 = l1' ++ l2' -> l1 = l1' /\ l2 = l2'.
Proof.
  revert l1'. induction l1 as [|x l1 IH]; intros [|x' l1'] Hlen H;
    simpl in *; try discriminate; [auto|].
  injection H as -> H. destruct (IH l1' ltac:(congruence) H) as [-> ->]. auto.
Qed.

(** X3. [encode_object_id] succeeds exactly when the process id is a
    signed integer of 32 bits and the thread id one of 64 bits (it
    raises [struct.error] otherwise).  Its value has 24 characters, all
    of them among [0-9A-F]; it is what the SQL function [HEX] gives on
    the twelve packed bytes, the encoding of the column [objectId] of
    [marker]; and it determines the two ids: two pairs of ids with the
    same code are equal. *)
Theorem encode_object_id_code (pid tid : Z) :
  (encode_object_id pid tid <> None <->
     (- 2 ^ 31 <= pid < 2 ^ 31)%Z /\ (- 2 ^ 63 <= tid < 2 ^ 63)%Z)
  /\ (forall s, encode_object_id pid tid = Some s ->
        String.length s = 24%nat
        /\ (forall c, In c (list_ascii_of_string s) -> In c hex_digits_upper)
        /\ s = sql_hex (le_bytes 4 pid ++ le_bytes 8 tid))
  /\ (forall pid' tid' s,
        encode_object_id pid tid = Some s -> encode_object_id pid' tid' = Some s ->
        pid' = pid /\ tid' = tid).
Proof.
  assert (Hval : forall p t s, encode_object_id p t = Some s ->
            (- 2 ^ 31 <= p < 2 ^ 31)%Z /\ (- 2 ^ 63 <= t < 2 ^ 63)%Z
            /\ s = sql_hex (le_bytes 4 p ++ le_bytes 8 t)).
  { intros p t s. unfold encode_object_id, pack_i, pack_q.
    destruct ((- 2 ^ 31 <=? p) && (p <? 2 ^ 31))%Z eqn:Ep; [|discriminate].
    destruct ((- 2 ^ 63 <=? t) && (t <? 2 ^ 63))%Z eqn:Et; [|discriminate].
    intros H.
    assert (Hs : s = upper (hexlify (le_bytes 4 p ++ le_bytes 8 t))) by congruence.
    apply andb_true_iff in Ep, Et. rewrite Z.leb_le, Z.ltb_lt in Ep, Et.
    split; [exact Ep|]. split; [exact Et|].
    rewrite Hs. apply upper_hexlify, Forall_app. split; apply le_bytes_range. }
  split; [|split].
  - split.
    + destruct (encode_object_id pid tid) as [s|] eqn:E; [|congruence].
      intros _. apply Hval in E. tauto.
    + intros [Hp Ht]. unfold encode_object_id, pack_i, pack_q.
      destruct (Z.leb_spec (- 2 ^ 31) pid), (Z.ltb_spec pid (2 ^ 31)); try lia.
      destruct (Z.leb_spec (- 2 ^ 63) tid), (Z.ltb_spec tid (2 ^ 63)); try lia.
      simpl. discriminate.
  - intros s E. apply Hval in E. destruct E as (_ & _ & ->).
    split; [|split; [|reflexivity]].
    + rewrite sql_hex_length, length_app, !le_bytes_length. reflexivity.
    + intros c. apply sql_hex_digits, Forall_app. split; apply le_bytes_range.
  - intros pid' tid' s E E'. apply Hval in E, E'.
    destruct E as (Hp & Ht & ->). destruct E' as (Hp' & Ht' & E').
    apply sql_hex_inj in E'; try (apply Forall_app; split; apply le_bytes_range).
    apply app_inj_length in E'; [|rewrite !le_bytes_length; reflexivity].
    destruct E' as [E4 E8]. apply le_bytes_mod in E4, E8.
    change (256 ^ Z.of_nat 4)%Z with 4294967296%Z in E4.
    change (256 ^ Z.of_nat 8)%Z with 18446744073709551616%Z in E8.
    change (2 ^ 31)%Z with 2147483648%Z in *.
    change (2 ^ 63)%Z with 9223372036854775808%Z in *.
    Z.div_mod_to_equations. lia.
Qed.

(** ** [getProfileStart] *)

Lemma select_first_nil (col : list Z) : col = [] -> select_first col = [].
Proof. intros ->. reflexivity. Qed.

Lemma select_first_min (col : list Z) :
  col <> [] ->
  exists m, select_first col = [m] /\ In m col /\ forall x, In x col -> (m <= x)%Z.
Proof.
  intros Hcol. unfold select_first.
  pose proof (sort_int_perm col) as Hp. pose proof (sort_int_sorted col) as Hs.
  destruct (sort_int col) as [|m rest].
  - apply Permutation_nil in Hp. contradiction.
  - exists m. split; [reflexivity|]. split.
    + eapply Permutation_in; [exact Hp | left; reflexivity].
    + intros x Hx. apply (Permutation_in _ (Permutation_sym Hp)) in Hx.
      inversion Hs as [|? ? _ Hall]; subst. rewrite Forall_forall in Hall.
      destruct Hx as [->|Hx]; [lia | auto].
Qed.

(** One table: the bound goes down to the least time of the table, if
    that is smaller. *)
Lemma profile_step_min (p : Z) (col : list Z) :
  exists p', profile_step p col = Ok p'
             /\ (p' <= p)%Z
             /\ (forall x, In x col -> (p' <= x)%Z)
             /\ (p' = p \/ In p' col).
Proof.
  unfold profile_step. destruct col as [|c col].
  - exists p. simpl. repeat split; [lia | contradiction | auto].
  - destruct (select_first_min (c :: col)) as [m (-> & Hin & Hmin)]; [discriminate|].
    cbn [List.length Nat.leb Nat.eqb py_assert rbind Py.index nth_error].
    destruct (Z.ltb_spec m p).
    + exists m. repeat split; [lia | exact Hmin | auto].
    + exists p. repeat split; [lia | | auto].
      intros x Hx. specialize (Hmin x Hx). lia.
Qed.

Lemma foldM_profile_step (cols : list (list Z)) :
  forall p, exists p',
    foldM profile_step p cols = Ok p'
    /\ (p' <= p)%Z
    /\ (forall x, In x (List.concat cols) -> (p' <= x)%Z)
    /\ (p' = p \/ In p' (List.concat cols)).
Proof.
  induction cols as [|col cols IH]; intros p.
  - exists p. simpl. repeat split; [lia | contradiction | auto].
  - destruct (profile_step_min p col) as [p1 (E1 & Hle1 & Hmin1 & Hin1)].
    destruct (IH p1) as [p2 (E2 & Hle2 & Hmin2 & Hin2)].
    exists p2. cbn [foldM]. rewrite E1. cbn [rbind]. rewrite E2.
    split; [reflexivity|]. split; [lia|]. split.
    + intros x Hx. cbn [List.concat] in Hx. apply in_app_or in Hx.
      destruct Hx as [Hx|Hx]; [specialize (Hmin1 x Hx); lia | auto].
    + cbn [List.concat]. destruct Hin2 as [->|Hin2].
      * destruct Hin1 as [->|Hin1]; [auto | right; apply in_or_app; auto].
      * right. apply in_or_app. auto.
Qed.

(** X5. [getProfileStart] returns the least of the start times of the
    driver, runtime and kernel tables and of the time stamps of the
    marker table, provided that it is below [sys.maxsize]; it raises
    [AssertionError], and nothing else, exactly when no time is below
    [sys.maxsize], in particular when the four tables are empty. *)
Theorem getProfileStart_least (tabs : ActivityTables) :
  (forall t, getProfileStart tabs = Ok t <->
             In t (all_times tabs)
             /\ (forall x, In x (all_times tabs) -> (t <= x)%Z)
             /\ (t < maxsize)%Z)
  /\ (getProfileStart tabs = Raise AssertionError <->
      forall x, In x (all_times tabs) -> (maxsize <= x)%Z)
  /\ (forall ex, getProfileStart tabs = Raise ex -> ex = AssertionError).
Proof.
  unfold getProfileStart.
  destruct (foldM_profile_step
              [driver_start tabs; runtime_start tabs; kernel_start tabs; marker_timestamp tabs]
              maxsize) as [p (-> & Hle & Hmin & Hin)].
  assert (Hall : List.concat [driver_start tabs; runtime_start tabs;
                         kernel_start tabs; marker_timestamp tabs] = all_times tabs)
    by (unfold all_times; simpl; rewrite app_nil_r; reflexivity).
  rewrite Hall in *. cbn [rbind]. unfold py_assert.
  destruct (Z.ltb_spec p maxsize) as [Hlt|Hge]; cbn [rbind].
  - assert (Hp : In p (all_times tabs)) by (destruct Hin; [lia | assumption]).
    split; [|split].
    + intros t. split.
      * intros H. injection H as <-. auto.
      * intros (Ht & Htmin & _). f_equal.
        specialize (Hmin t Ht). specialize (Htmin p Hp). lia.
    + split; [discriminate|]. intros H. specialize (H p Hp). lia.
    + discriminate.
  - split; [|split].
    + intros t. split; [discriminate|]. intros (Ht & _ & Htlt).
      specialize (Hmin t Ht). lia.
    + split; [|reflexivity]. intros _ x Hx. specialize (Hmin x Hx). lia.
    + congruence.
Qed.

Example getProfileStart_ex :
  getProfileStart {| driver_start := [5; 3]%Z; runtime_start := [];
                     kernel_start := [7]%Z; marker_timestamp := [4; 2; 9]%Z |}
  = Ok 2%Z
  /\ getProfileStart {| driver_start := []; runtime_start := [];
                        kernel_start := []; marker_timestamp := [] |}
     = Raise AssertionError.
Proof. split; reflexivity. Qed.

(** ** Subsequences *)

Lemma Subseq_refl {A : Type} (l : list A) : Subseq l l.
Proof. induction l; constructor; assumption. Qed.

Lemma Subseq_trans {A : Type} (l1 l2 l3 : list A) :
  Subseq l1 l2 -> Subseq l2 l3 -> Subseq l1 l3.
Proof.
  intros H12 H23. revert l1 H12.
  induction H23 as [|x l2 l3 _ IH|x l2 l3 _ IH]; intros l1 H12.
  - exact H12.
  - constructor. apply IH. exact H12.
  - inversion H12; subst; constructor; apply IH; assumption.
Qed.

Lemma Subseq_filter {A : Type} (p : A -> bool) (l : list A) : Subseq (filter p l) l.
Proof.
  induction l as [|x l IH]; simpl; [constructor|].
  destruct (p x); constructor; exact IH.
Qed.

Lemma Subseq_In {A : Type} (l1 l2 : list A) (x : A) :
  Subseq l1 l2 -> In x l1 -> In x l2.
Proof.
  induction 1 as [|y l1 l2 _ IH|y l1 l2 _ IH]; simpl; [tauto | auto |].
  intros [->|H]; auto.
Qed.

Lemma Subseq_NoDup {A : Type} (l1 l2 : list A) :
  Subseq l1 l2 -> NoDup l2 -> NoDup l1.
Proof.
  induction 1 as [|y l1 l2 Hs IH|y l1 l2 Hs IH]; intros Hnd.
  - constructor.
  - inversion Hnd; subst. auto.
  - inversion Hnd as [|? ? Hnotin Hnd']; subst. constructor; [|auto].
    intros Hin. apply Hnotin. eapply Subseq_In; eassumption.
Qed.

Lemma Subseq_length {A : Type} (l1 l2 : list A) :
  Subseq l1 l2 -> (List.length l1 <= List.length l2)%nat.
Proof. induction 1; simpl; lia. Qed.

(** ** What a run does to the database *)

Section RunFacts.
Context {R : Runtime}.

Lemma getMarkerInfo_db_cases (objId : string) (t e : Z) (st : NVVP) :
  db (snd (getMarkerInfo objId t e st)) = db st
  \/ db (snd (getMarkerInfo objId t e st)) = delete objId t (db st).
Proof.
  rewrite getMarkerInfo_unfold. cbn zeta.
  destruct (bin_loop _ _ _); [|left; reflexivity].
  destruct (normalise _); [|left; reflexivity].
  destruct (truthy _ && negb _); [|right; reflexivity].
  destruct (lookahead_alt _ _ _ _); [right | left]; reflexivity.
Qed.

(** X8. Whatever the calls and their outcomes, a run never changes
    [StringTable], and all it does to [marker] is to remove rows: the
    rows that remain are rows of the initial table, in the same order. *)
Theorem run_only_removes (calls : list (string * Z * Z)) (st : NVVP) :
  StringTable (db (run calls st)) = StringTable (db st)
  /\ Subseq (marker (db (run calls st))) (marker (db st)).
Proof.
  revert st. induction calls as [|[[o s] e] calls IH]; intros st.
  - split; [reflexivity | apply Subseq_refl].
  - cbn [run]. destruct (IH (snd (getMarkerInfo o s e st))) as [IH1 IH2].
    destruct (getMarkerInfo_db_cases o s e st) as [E|E]; rewrite E in IH1, IH2.
    + split; assumption.
    + split; [exact IH1|]. eapply Subseq_trans; [exact IH2|]. apply Subseq_filter.
Qed.
End RunFacts.

(** ** The order of texts *)

Lemma ascii_compare_trans (a b c : ascii) :
  Ascii.compare a b <> Gt -> Ascii.compare b c <> Gt ->
  Ascii.compare a c <> Gt
  /\ (Ascii.compare a c = Eq -> Ascii.compare a b = Eq /\ Ascii.compare b c = Eq).
Proof.
  unfold Ascii.compare.
  destruct (N.compare_spec (N_of_ascii a) (N_of_ascii b)),
    (N.compare_spec (N_of_ascii b) (N_of_ascii c)),
    (N.compare_spec (N_of_ascii a) (N_of_ascii c));
    intros Hab Hbc; split; try congruence; try lia; intros; split; congruence || lia.
Qed.

Lemma string_leb_trans (a b c : string) :
  String.leb a b = true -> String.leb b c = true -> String.leb a c = true.
Proof.
  unfold String.leb. revert b c.
  induction a as [|x a IH]; intros [|y b] [|z c]; simpl; try congruence.
  intros H1 H2.
  assert (Hxy : Ascii.compare x y <> Gt) by (destruct (Ascii.compare x y); congruence).
  assert (Hyz : Ascii.compare y z <> Gt) by (destruct (Ascii.compare y z); congruence).
  destruct (ascii_compare_trans x y z Hxy Hyz) as [Hxz Heq].
  destruct (Ascii.compare x z) eqn:E; [|reflexivity | congruence].
  destruct (Heq eq_refl) as [E1 E2]. rewrite E1 in H1. rewrite E2 in H2.
  apply (IH b c); assumption.
Qed.

Lemma string_ltb_leb (a b : string) : String.ltb a b = true -> String.leb a b = true.
Proof. unfold String.ltb, String.leb. destruct (String.compare a b); congruence. Qed.

Lemma string_nltb_leb (a b : string) : String.ltb a b = false -> String.leb b a = true.
Proof.
  unfold String.ltb, String.leb. rewrite (String.compare_antisym b a).
  destruct (String.compare a b); simpl; congruence.
Qed.

(** ** The sort of the sequence markers *)

Lemma Forall2_combine {A B : Type} (P : A -> B -> Prop) (l : list A) (l' : list B) :
  Forall2 P l l' -> Forall (fun p => P (fst p) (snd p)) (combine l l').
Proof. induction 1; simpl; constructor; assumption. Qed.

Lemma Forall2_flip {A B : Type} (P : A -> B -> Prop) (l : list A) (l' : list B) :
  Forall2 P l l' -> Forall2 (fun y x => P x y) l' l.
Proof. induction 1; constructor; assumption. Qed.

Lemma sorted_pairs_key_before (ps : list (string * string)) :
  Forall (fun p => seqcompare (snd p) = Ok (fst p)) ps ->
  StronglySorted (key_le (fun a b => String.leb a b = true)) ps ->
  StronglySorted key_before (map snd ps).
Proof.
  intros Hk Hs. induction Hs as [|p ps Hs IH Hall]; simpl; [constructor|].
  inversion Hk as [|? ? Hp Hps]; subst.
  constructor; [apply IH; exact Hps|].
  apply Forall_map. rewrite Forall_forall in *. intros q Hq.
  exists (fst p), (fst q). split; [exact Hp|]. split; [apply Hps; exact Hq|].
  apply (Hall q Hq).
Qed.

(** X16. The sort of the pipeline returns exactly when every text carries
    the strict delimiter, and raises [AssertionError] when one does
    not.  When it returns, its result is a rearrangement of its
    argument in which the keys computed by [seqcompare] are ascending
    for the order of texts. *)
Theorem sort_by_key_seqcompare (l : list string) :
  (Forall (fun m => Py.contains ", seq = " m = true) l ->
     exists out, sort_by_key seqcompare l = Ok out)
  /\ (forall m, In m l -> Py.contains ", seq = " m = false ->
        sort_by_key seqcompare l = Raise AssertionError)
  /\ (forall out, sort_by_key seqcompare l = Ok out ->
        Permutation out l /\ StronglySorted key_before out).
Proof.
  split; [|split].
  - intros H. destruct (mapM_seqcompare_ok l H) as [ks Hks].
    unfold sort_by_key. rewrite Hks. cbn [rbind]. eauto.
  - intros m Hin Hm. unfold sort_by_key.
    rewrite (mapM_seqcompare_raise l m Hin Hm). reflexivity.
  - intros out H. split; [apply (sort_by_key_perm _ _ _ H)|].
    unfold sort_by_key in H.
    destruct (mapM seqcompare l) as [ks|] eqn:E; [|discriminate].
    cbn [rbind] in H. injection H as <-.
    apply sorted_pairs_key_before.
    + eapply Permutation_Forall; [symmetry; apply sort_keyed_perm|].
      apply mapM_Ok_Forall2, Forall2_flip in E.
      apply (Forall2_combine _ _ _ E).
    + apply (sort_keyed_sorted String.ltb (fun a b => String.leb a b = true)).
      * apply string_ltb_leb.
      * apply string_nltb_leb.
      * apply string_leb_trans.
Qed.

(** ** More on [prune] *)

Lemma name_seq_raise (m : string) (ex : exn) :
  name_seq m = Raise ex -> ex = ValueError /\ Py.contains "," m = false.
Proof.
  destruct (Py.contains "," m) eqn:E.
  - rewrite (name_seq_fields m E). discriminate.
  - unfold name_seq. destruct (Py.split "," m) as [|a [|b rest]]; intros H;
      split; congruence.
Qed.

Lemma prune_from_Subseq (rest : list string) :
  forall pm a, prune_from pm rest = Ok a -> Subseq a rest.
Proof.
  induction rest as [|x rest IH]; intros pm a E.
  - simpl in E. injection E as <-. constructor.
  - cbn [prune_from] in E.
    destruct (name_seq x) as [[nm sq]|]; [|discriminate].
    destruct (name_seq pm) as [[pn ps]|]; [|discriminate].
    cbn [rbind] in E.
    destruct (prune_from x rest) as [a'|] eqn:E'; [|discriminate].
    cbn [rbind] in E.
    destruct (String.eqb sq ps && (Py.contains nm pn || Py.contains pn nm));
      injection E as <-; constructor; eapply IH; eassumption.
Qed.

Lemma prune_from_raise (rest : list string) :
  forall pm ex, prune_from pm rest = Raise ex ->
  ex = ValueError /\ exists m, In m (pm :: rest) /\ Py.contains "," m = false.
Proof.
  induction rest as [|x rest IH]; intros pm ex E; [discriminate|].
  cbn [prune_from] in E.
  destruct (name_seq x) as [[nm sq]|ex1] eqn:Ex.
  - destruct (name_seq pm) as [[pn ps]|ex2] eqn:Ep.
    + cbn [rbind] in E.
      destruct (prune_from x rest) as [a'|ex3] eqn:E'.
      * cbn [rbind] in E.
        destruct (String.eqb sq ps && (Py.contains nm pn || Py.contains pn nm));
          discriminate.
      * cbn [rbind] in E. injection E as <-.
        destruct (IH x ex3 E') as [-> [m [Hin Hm]]].
        split; [reflexivity|]. exists m. split; [right; exact Hin | exact Hm].
    + cbn [rbind] in E. injection E as <-. apply name_seq_raise in Ep.
      destruct Ep as [-> Hm]. split; [reflexivity|]. exists pm. split; [left; reflexivity | exact Hm].
  - cbn [rbind] in E. injection E as <-. apply name_seq_raise in Ex.
    destruct Ex as [-> Hm]. split; [reflexivity|].
    exists x. split; [right; left; reflexivity | exact Hm].
Qed.

(** X17. [prune] raises [AssertionError] on the empty list and returns a
    list of one text as it is, even a text without a comma.  When it
    returns, the result begins with the first text of the argument and
    is a subsequence of the argument (texts are only left out, never
    moved or changed).  When it raises on a list that is not empty, the
    exception is [ValueError] and some text of the list has no comma. *)
Theorem prune_subsequence (mlist : list string) :
  prune [] = Raise AssertionError
  /\ (forall m, prune [m] = Ok [m])
  /\ (forall out, prune mlist = Ok out ->
        Subseq out mlist
        /\ exists m0 rest out', mlist = m0 :: rest /\ out = m0 :: out')
  /\ (forall ex, prune mlist = Raise ex ->
        (mlist = [] /\ ex = AssertionError)
        \/ (ex = ValueError
            /\ exists m, In m mlist /\ Py.contains "," m = false)).
Proof.
  split; [reflexivity|]. split; [reflexivity|]. split.
  - intros out H. destruct mlist as [|m0 rest]; [discriminate|].
    unfold prune in H. destruct (prune_from m0 rest) as [a|] eqn:E; [|discriminate].
    cbn [rbind] in H. injection H as <-. split.
    + apply Subseq_keep. eapply prune_from_Subseq. exact E.
    + eauto.
  - intros ex H. destruct mlist as [|m0 rest].
    + left. split; [reflexivity|]. simpl in H. congruence.
    + right. unfold prune in H.
      destruct (prune_from m0 rest) as [a|ex'] eqn:E; [discriminate|].
      cbn [rbind] in H. injection H as <-. eapply prune_from_raise. exact E.
Qed.

(** ** More on the resolution of a kernel *)

Lemma filter_nil_iff {A : Type} (p : A -> bool) (l : list A) :
  (forall x, In x l -> p x = false) -> filter p l = [].
Proof.
  induction l as [|x l IH]; intros H; simpl; [reflexivity|].
  rewrite (H x (or_introl eq_refl)). apply IH. intros y Hy. apply H. right. exact Hy.
Qed.

Lemma bin_loop_delete (o : string) (t : Z) (d : Db) (rows : list IdName) :
  forall b, bin_loop (delete o t d) b rows = bin_loop d b rows.
Proof.
  induction rows as [|r rows IH]; intros b; [reflexivity|].
  cbn [bin_loop]. change (getString (delete o t d) (r_name r)) with (getString d (r_name r)).
  destruct (getString d (r_name r)); cbn [rbind]; [apply IH | reflexivity].
Qed.

Lemma filter_encloses_delete (d : Db) (o o' : string) (t s e : Z) :
  (t <= e + 1)%Z ->
  filter (encloses o s e) (marker (delete o' t d)) = filter (encloses o s e) (marker d).
Proof.
  intros Hte. unfold delete. simpl. apply filter_filter_implied.
  intros r Hr. apply encloses_iff in Hr. apply negb_true_iff.
  unfold evicted. rewrite Z.sub_0_r.
  destruct (Z.ltb_spec (endTime r) t); [lia|]. apply andb_false_r.
Qed.

Lemma delete_idempotent (o : string) (t : Z) (d : Db) :
  delete o t (delete o t d) = delete o t d.
Proof.
  unfold delete. simpl. f_equal. rewrite filter_filter_andb.
  apply filter_ext. intros r. apply andb_diag.
Qed.

Lemma returned_parts {R : Runtime} (bins : Bins) (sm om alt : list string)
  (rec : CorrelationRecord) :
  returned bins sm om alt = Ok rec ->
  getSeqId sm = Ok (out_seqIds rec)
  /\ getSeqId alt = Ok (out_altSeqIds rec)
  /\ getLayerName (layerMarkers bins) = Ok (out_layerNames rec).
Proof.
  unfold returned.
  destruct (filterTrace (traceMarkers bins)); [|discriminate].
  destruct (getSeqId sm); [|discriminate].
  destruct (getSeqId alt); [|discriminate].
  destruct (getLayerName (layerMarkers bins)); [|discriminate].
  simpl. intros H. injection H as <-. simpl. repeat split; reflexivity.
Qed.

Section Reresolution.
Context {R : Runtime} {L : RuntimeLaws R}.

Lemma order_by_nil : order_by_startTime [] = [].
Proof. apply Permutation_nil, Permutation_sym, order_by_perm. Qed.

Lemma list_set_str_nil : list_set_str [] = [].
Proof. apply Permutation_nil, Permutation_sym, (list_set_str_perm []). Qed.

Lemma list_set_int_nil : list_set_int [] = [].
Proof. apply Permutation_nil, Permutation_sym, (list_set_int_perm []). Qed.

Lemma getSeqId_nil : getSeqId [] = Ok [].
Proof. unfold getSeqId. simpl. rewrite list_set_int_nil. reflexivity. Qed.

Lemma returned_without_alt (bins : Bins) (sm om alt : list string)
  (rec : CorrelationRecord) :
  returned bins sm om alt = Ok rec ->
  returned bins sm om [] = Ok (without_alt rec).
Proof.
  unfold returned. rewrite getSeqId_nil.
  destruct (filterTrace (traceMarkers bins)); [|discriminate].
  destruct (getSeqId sm); [|discriminate].
  destruct (getSeqId alt); [|discriminate].
  destruct (getLayerName (layerMarkers bins)); [|discriminate].
  simpl. intros H. injection H as <-. reflexivity.
Qed.

Lemma lookahead_alt_empty_window (d : Db) (objId : string) (lo hi : Z) :
  (hi <= lo + 1)%Z -> lookahead_alt d objId lo hi = Ok [].
Proof.
  intros H. unfold lookahead_alt, select_between, window.
  rewrite filter_nil_iff, order_by_nil; [reflexivity|].
  intros r _. unfold between.
  destruct (Z.gtb_spec (id r) lo), (Z.ltb_spec (id r) hi);
    rewrite ?andb_false_r; try reflexivity; lia.
Qed.

Lemma returned_empty :
  returned no_bins [] (list_set_str (otherMarkers no_bins)) [] = Ok empty_record.
Proof.
  unfold returned. rewrite getSeqId_nil.
  change (otherMarkers no_bins) with (@nil string). rewrite list_set_str_nil.
  reflexivity.
Qed.

(** X9. A kernel that no marker encloses: [getMarkerInfo] returns the
    record whose ten components are empty and leaves the cursor as it
    is; the eviction is done all the same. *)
Theorem getMarkerInfo_no_marker (objId : string) (t e : Z) (st : NVVP) :
  (forall r, In r (marker (db st)) -> encloses objId t e r = false) ->
  getMarkerInfo objId t e st
  = (Ok empty_record,
     {| db := delete objId t (db st); markerId := markerId st |}).
Proof.
  intros H. rewrite getMarkerInfo_unfold. cbn zeta.
  unfold select_enclosing, enclosing.
  rewrite (filter_nil_iff _ _ H), order_by_nil.
  cbn [map bin_loop].
  change (normalise (seqMarkers no_bins)) with (@Ok (list string) []).
  cbn [truthy andb]. rewrite returned_empty. reflexivity.
Qed.

(** X10. A backward kernel: when one enclosing marker that is not a
    checkpointing marker matches a backward pattern, the call does not
    touch the cursor, whatever its outcome, and a record it returns
    has no altSequence marker and no altSequence id. *)
Theorem backward_skips_lookahead (objId : string) (t e : Z) (st : NVVP)
  (texts : list string) (m : string) :
  mapM (getString (db st)) (map r_name (select_enclosing (db st) objId t e))
  = Ok texts ->
  In m texts -> is_checkpoint m = false -> is_backward m = true ->
  markerId (snd (getMarkerInfo objId t e st)) = markerId st
  /\ forall rec st', getMarkerInfo objId t e st = (Ok rec, st') ->
       out_altSeqMarkers rec = [] /\ out_altSeqIds rec = [].
Proof.
  intros Htexts Hin Hc Hb.
  assert (Hbins : bin_loop (db st) no_bins (select_enclosing (db st) objId t e)
                  = Ok (fold_left bin_marker texts no_bins))
    by (rewrite bin_loop_texts, Htexts; reflexivity).
  assert (Hbp : bprop (fold_left bin_marker texts no_bins) = true).
  { rewrite fold_bin_marker_bprop. simpl. apply existsb_exists.
    exists m. split; [exact Hin|]. rewrite Hc, Hb. reflexivity. }
  rewrite getMarkerInfo_unfold. cbn zeta. rewrite Hbins, Hbp.
  rewrite andb_false_r.
  destruct (normalise _) as [sm|]; [|split; [reflexivity | discriminate]].
  split; [reflexivity|].
  intros rec st' H. injection H as H _.
  pose proof (returned_Ok _ _ _ _ _ H) as H1.
  pose proof (returned_parts _ _ _ _ _ H) as H2.
  rewrite getSeqId_nil in H2. split; [tauto|].
  destruct H2 as (_ & H2 & _). congruence.
Qed.

(** X11. Resolving the same kernel once more.  When [getMarkerInfo] has
    returned a record for a kernel that does not end before it starts,
    a second call with the same arguments changes nothing in the state
    and returns the same record, but for the altSequence markers and
    ids, which are empty: the markers of the look-ahead window are
    handed out once. *)
Theorem resolve_again (objId : string) (t e : Z) (st st' : NVVP)
  (rec : CorrelationRecord) :
  (t <= e + 1)%Z ->
  getMarkerInfo objId t e st = (Ok rec, st') ->
  getMarkerInfo objId t e st' = (Ok (without_alt rec), st').
Proof.
  intros Hte H. rewrite getMarkerInfo_unfold in H. cbn zeta in H.
  destruct (bin_loop (db st) no_bins (select_enclosing (db st) objId t e))
    as [bins|] eqn:Eb; [|discriminate].
  destruct (normalise (seqMarkers bins)) as [sm|] eqn:En; [|discriminate].
  assert (Hrows : select_enclosing (delete objId t (db st)) objId t e
                  = select_enclosing (db st) objId t e).
  { unfold select_enclosing, enclosing.
    rewrite filter_encloses_delete by exact Hte. reflexivity. }
  destruct (truthy (select_enclosing (db st) objId t e) && negb (bprop bins)) eqn:El.
  - destruct (lookahead_alt _ _ _ _) as [alt|]; [|discriminate].
    injection H as Hrec <-.
    rewrite getMarkerInfo_unfold. cbn zeta. cbn [db markerId].
    rewrite Hrows, bin_loop_delete, Eb, En, El.
    rewrite lookahead_alt_empty_window by lia.
    rewrite delete_idempotent, (returned_without_alt _ _ _ _ _ Hrec). reflexivity.
  - injection H as Hrec <-.
    rewrite getMarkerInfo_unfold. cbn zeta. cbn [db markerId].
    rewrite Hrows, bin_loop_delete, Eb, En, El.
    rewrite delete_idempotent, (returned_without_alt _ _ _ _ _ Hrec). reflexivity.
Qed.
End Reresolution.

(** ** [getLayerName] *)

Lemma getLayerName_layers (mlist : list string) :
  Forall (fun m => Py.contains "layer:" m = true) mlist ->
  getLayerName mlist = Ok (map (fun m => nth 1 (Py.split ":" m) EmptyString) mlist).
Proof.
  unfold getLayerName. induction 1 as [|m l Hm _ IH]; [reflexivity|].
  cbn [mapM map]. rewrite Hm. cbn [py_assert rbind].
  assert (Hc : Py.contains ":" m = true)
    by (apply (contains_app_r "layer" ":"); exact Hm).
  destruct (split_contains ":" m Hc) as [a [b [rest E]]]; [discriminate|].
  rewrite E. cbn [Py.index nth_error nth rbind]. rewrite IH. reflexivity.
Qed.

Lemma getLayerName_raise (mlist : list string) (m : string) :
  In m mlist -> Py.contains "layer:" m = false ->
  getLayerName mlist = Raise AssertionError.
Proof.
  unfold getLayerName. intros Hin Hm. induction mlist as [|x l IH]; [contradiction|].
  cbn [mapM]. destruct (Py.contains "layer:" x) eqn:Ex.
  - cbn [py_assert rbind].
    assert (Hc : Py.contains ":" x = true)
      by (apply (contains_app_r "layer" ":"); exact Ex).
    destruct (split_contains ":" x Hc) as [a [b [rest E]]]; [discriminate|].
    rewrite E. cbn [Py.index nth_error rbind].
    destruct Hin as [->|Hin]; [congruence|]. rewrite (IH Hin). reflexivity.
  - reflexivity.
Qed.

Lemma split_no_separator (c : ascii) (s : string) :
  Py.contains (String c EmptyString) s = false ->
  forall cur, Py.split_aux (String c EmptyString) 0 cur s = [(cur ++ s)%string].
Proof.
  induction s as [|x s IH]; intros H cur.
  - simpl. destruct cur; simpl; [reflexivity|].
    f_equal. f_equal. clear. induction cur; simpl; congruence.
  - cbn [Py.contains] in H. apply orb_false_iff in H. destruct H as [H1 H2].
    cbn [Py.split_aux]. rewrite H1, (IH H2).
    f_equal. clear. induction cur; simpl; congruence.
Qed.

(** X18. [getLayerName] on layer markers.  On texts that all contain
    ["layer:"] it returns, for each text, what stands between its
    first and its second colon; so the name of ["layer:" ++ name] is
    [name] when [name] has no colon.  It raises [AssertionError] when a
    text does not contain ["layer:"]. *)
Theorem getLayerName_names (mlist : list string) :
  (Forall (fun m => Py.contains "layer:" m = true) mlist ->
     getLayerName mlist
     = Ok (map (fun m => nth 1 (Py.split ":" m) EmptyString) mlist))
  /\ (forall m, In m mlist -> Py.contains "layer:" m = false ->
        getLayerName mlist = Raise AssertionError)
  /\ (forall name, Py.contains ":" name = false ->
        getLayerName [("layer:" ++ name)%string] = Ok [name]).
Proof.
  split; [apply getLayerName_layers|]. split; [apply getLayerName_raise|].
  intros name Hname. rewrite getLayerName_layers.
  - cbn [map]. unfold Py.split. cbn [append Py.split_aux Py.startswith
      Ascii.eqb Bool.eqb andb String.length Nat.sub].
    rewrite (split_no_separator ":" name Hname). reflexivity.
  - constructor; [|constructor]. apply startswith_contains.
    apply (startswith_app_l "layer:" name). clear.
    induction ("layer:" ++ name)%string as [|c s IH]; simpl; [reflexivity|].
    rewrite Ascii.eqb_refl. exact IH.
Qed.

(** ** [filterTrace] *)

Lemma fold_filters {A B : Type} (test : B -> A -> bool) (ps : list B) :
  forall l, fold_left (fun fs p => filter (fun x => negb (test p x)) fs) ps l
            = filter (fun x => forallb (fun p => negb (test p x)) ps) l.
Proof.
  induction ps as [|p ps IH]; intros l; cbn [fold_left forallb].
  - rewrite filter_const. reflexivity.
  - rewrite IH, filter_filter_andb. reflexivity.
Qed.

(** X19. [filterTrace] reads the last trace marker only.  It returns the
    empty list when there is none; otherwise it evaluates the last
    text, fails as the evaluation fails, and returns the frames of that
    text that contain none of the nine excluded path fragments, in
    their order. *)
Theorem filterTrace_last {R : Runtime} (earlier : list string) (m : string) :
  filterTrace [] = Ok []
  /\ filterTrace (earlier ++ [m])
     = match eval_traceMarker m with
       | Ok frames =>
           Ok (filter (fun x => forallb (fun p => negb (Py.contains p x)) excluded_paths)
                      frames)
       | Raise ex => Raise ex
       end
  /\ (forall out x, filterTrace (earlier ++ [m]) = Ok out -> In x out ->
        forall p, In p excluded_paths -> Py.contains p x = false).
Proof.
  assert (H : filterTrace (earlier ++ [m])
     = match eval_traceMarker m with
       | Ok frames =>
           Ok (filter (fun x => forallb (fun p => negb (Py.contains p x)) excluded_paths)
                      frames)
       | Raise ex => Raise ex
       end).
  { unfold filterTrace. destruct (earlier ++ [m]) as [|m0 rest] eqn:E.
    - destruct earlier; discriminate.
    - assert (Hl : last rest m0 = m).
      { transitivity (last (m0 :: rest) m0);
          [destruct rest; reflexivity|]. rewrite <- E. apply last_last. }
      rewrite Hl. destruct (eval_traceMarker m); cbn [rbind]; [|reflexivity].
      rewrite (fold_filters Py.contains). reflexivity. }
  split; [reflexivity|]. split; [exact H|].
  intros out x Hout Hx p Hp. rewrite H in Hout.
  destruct (eval_traceMarker m) as [frames|]; [|discriminate].
  injection Hout as <-. apply filter_In in Hx. destruct Hx as [_ Hx].
  assert (Hx' : forallb (fun p => negb (Py.contains p x)) excluded_paths = true)
    by exact Hx.
  apply negb_true_iff. apply (proj1 (forallb_forall _ _) Hx' p Hp).
Qed.

(** ** What holds of every record *)

Lemma seqcompare_Ok_strict (m k : string) :
  seqcompare m = Ok k -> Py.contains ", seq = " m = true.
Proof.
  unfold seqcompare. destruct (Py.contains ", seq = " m); [reflexivity | discriminate].
Qed.

Lemma Forall2_In_r {A B : Type} (P : A -> B -> Prop) (l : list A) (l' : list B) (y : B) :
  Forall2 P l l' -> In y l' -> exists x, In x l /\ P x y.
Proof.
  induction 1 as [|x y' l l' Hxy _ IH]; [contradiction|].
  intros [->|Hin]; [exists x; split; [left; reflexivity | exact Hxy]|].
  destruct (IH Hin) as [x' [Hx' HP]]. exists x'. split; [right; exact Hx' | exact HP].
Qed.

Lemma bin_loop_bin_of (d : Db) (rows : list IdName) (bins : Bins) (c : Category) (m : string) :
  bin_loop d no_bins rows = Ok bins -> In m (bin_of c bins) ->
  classify m = c /\ is_checkpoint m = false.
Proof.
  intros H Hin. rewrite bin_loop_texts in H.
  destruct (mapM (getString d) (map r_name rows)) as [texts|]; [|discriminate].
  injection H as <-. rewrite fold_bin_marker_bin_of in Hin.
  replace (bin_of c no_bins) with (@nil string) in Hin by (destruct c; reflexivity).
  simpl in Hin. apply filter_In in Hin. destruct Hin as [_ Hin].
  apply andb_true_iff in Hin. destruct Hin as [Hc Hcat].
  apply negb_true_iff in Hc. split; [|exact Hc].
  destruct c, (classify m); simpl in Hcat; congruence.
Qed.

Section Records.
Context {R : Runtime} {L : RuntimeLaws R}.

Lemma normalise_NoDup (l out : list string) : normalise l = Ok out -> NoDup out.
Proof.
  unfold normalise, dedup_sort_prune. destruct (truthy l) eqn:El.
  - destruct (sort_by_key seqcompare (list_set_str l)) as [sorted|] eqn:E;
      cbn [rbind]; [|discriminate].
    intros Hp. destruct sorted as [|m0 rest]; [discriminate|].
    unfold prune in Hp. destruct (prune_from m0 rest) as [a|] eqn:Ea; [|discriminate].
    cbn [rbind] in Hp. injection Hp as <-.
    apply (Subseq_NoDup _ (m0 :: rest)).
    + apply Subseq_keep. eapply prune_from_Subseq. exact Ea.
    + eapply Permutation_NoDup.
      * symmetry. etransitivity; [apply (sort_by_key_perm _ _ _ E)|].
        apply list_set_str_perm.
      * apply NoDup_nodup.
  - intros H. injection H as <-. destruct l; [constructor | discriminate].
Qed.

Lemma normalise_strict (l out : list string) :
  normalise l = Ok out -> Forall (fun m => Py.contains ", seq = " m = true) out.
Proof.
  intros H. apply Forall_forall. intros m Hm.
  unfold normalise, dedup_sort_prune in H. destruct (truthy l) eqn:El.
  - destruct (sort_by_key seqcompare (list_set_str l)) as [sorted|] eqn:E;
      cbn [rbind] in H; [|discriminate].
    pose proof (prune_incl _ _ m H Hm) as Hin.
    apply (Permutation_in _ (sort_by_key_perm _ _ _ E)) in Hin.
    unfold sort_by_key in E.
    destruct (mapM seqcompare (list_set_str l)) as [ks|] eqn:Ek; [|discriminate].
    apply mapM_Ok_Forall2 in Ek.
    clear H E. induction Ek as [|x k xs ks' Hx _ IH]; [contradiction|].
    destruct Hin as [->|Hin]; [eapply seqcompare_Ok_strict; exact Hx | auto].
  - injection H as <-. destruct l; [contradiction | discriminate].
Qed.

Lemma lookahead_alt_loose (d : Db) (objId : string) (lo hi : Z) (alt : list string) :
  lookahead_alt d objId lo hi = Ok alt ->
  Forall (fun m => Py.contains ", seq=" m = true) alt.
Proof.
  unfold lookahead_alt. rewrite alt_loop_texts.
  destruct (mapM _ _) as [texts|]; cbn [rbind]; [|discriminate].
  intros H. apply Forall_forall. intros m Hm.
  apply (normalise_incl _ _ m H) in Hm. simpl in Hm.
  apply filter_In in Hm. tauto.
Qed.

Lemma getSeqId_ids (l : list string) (ids : list Z) :
  getSeqId l = Ok ids ->
  StronglySorted Z.lt ids
  /\ forall z, In z ids <-> exists m, In m l /\ seq_of m = Ok z.
Proof.
  unfold getSeqId. destruct (mapM seq_of l) as [parsed|] eqn:E; cbn [rbind]; [|discriminate].
  intros H. injection H as <-.
  assert (Hset : forall z, In z (list_set_int parsed) <-> In z parsed).
  { intros z. rewrite <- (nodup_In Z.eq_dec parsed z).
    split; apply Permutation_in; [|symmetry]; apply list_set_int_perm. }
  split.
  - apply sorted_le_NoDup_lt; [apply sort_int_sorted|].
    eapply Permutation_NoDup; [symmetry; apply sort_int_perm|].
    eapply Permutation_NoDup; [symmetry; apply list_set_int_perm | apply NoDup_nodup].
  - intros z. split.
    + intros Hz. apply (Permutation_in _ (sort_int_perm _)), Hset in Hz.
      apply mapM_Ok_Forall2 in E. apply (Forall2_In_r _ _ _ z E Hz).
    + intros [m [Hm Hz]].
      apply (Permutation_in _ (Permutation_sym (sort_int_perm _))), Hset.
      apply (mapM_In _ _ _ m z E Hm Hz).
Qed.

(** X12. The marker lists of a record.  In every record that
    [getMarkerInfo] returns, no text occurs twice among the sequence
    markers, nor among the other markers, nor among the altSequence
    markers; every sequence marker carries the strict delimiter
    [", seq = "]; and every altSequence marker carries both the loose
    delimiter [", seq="] and the strict one. *)
Theorem record_marker_lists (objId : string) (t e : Z) (st st' : NVVP)
  (rec : CorrelationRecord) :
  getMarkerInfo objId t e st = (Ok rec, st') ->
  NoDup (out_seqMarkers rec)
  /\ NoDup (out_otherMarkers rec)
  /\ NoDup (out_altSeqMarkers rec)
  /\ Forall (fun m => Py.contains ", seq = " m = true) (out_seqMarkers rec)
  /\ Forall (fun m => Py.contains ", seq=" m = true
                      /\ Py.contains ", seq = " m = true) (out_altSeqMarkers rec).
Proof.
  intros H. rewrite getMarkerInfo_unfold in H. cbn zeta in H.
  destruct (bin_loop _ _ _) as [bins|] eqn:Eb; [|discriminate].
  destruct (normalise (seqMarkers bins)) as [sm|] eqn:En; [|discriminate].
  assert (Hother : NoDup (list_set_str (otherMarkers bins))).
  { eapply Permutation_NoDup; [symmetry; apply list_set_str_perm | apply NoDup_nodup]. }
  destruct (truthy _ && negb _).
  - unfold lookahead_alt in H.
    destruct (alt_loop _ _ _) as [alt0|] eqn:Ea; cbn [rbind] in H; [|discriminate].
    destruct (normalise alt0) as [alt|] eqn:Ealt; [|discriminate].
    injection H as H _. apply returned_Ok in H.
    destruct H as (_ & _ & _ & -> & -> & -> & _).
    split; [eapply normalise_NoDup; exact En|]. split; [exact Hother|].
    split; [eapply normalise_NoDup; exact Ealt|].
    split; [eapply normalise_strict; exact En|].
    assert (Hloose : Forall (fun m => Py.contains ", seq=" m = true) alt).
    { apply (lookahead_alt_loose (db st) objId (markerId st)
               (last_id (select_enclosing (db st) objId t e))).
      unfold lookahead_alt. rewrite Ea. exact Ealt. }
    pose proof (normalise_strict _ _ Ealt) as Hstrict.
    rewrite Forall_forall in *. intros m Hm. split; auto.
  - injection H as H _. apply returned_Ok in H.
    destruct H as (_ & _ & _ & -> & -> & -> & _).
    split; [eapply normalise_NoDup; exact En|]. split; [exact Hother|].
    split; [constructor|]. split; [eapply normalise_strict; exact En | constructor].
Qed.

(** X13. The derived components of a record.  In every record that
    [getMarkerInfo] returns, the sequence ids are strictly ascending
    and are exactly the integers parsed from the sequence markers of
    the record, and likewise the altSequence ids for the altSequence
    markers; every layer marker contains ["layer:"] and the layer
    names are, in the order of the layer markers, what stands between
    the first and the second colon of each. *)
Theorem record_ids_and_names (objId : string) (t e : Z) (st st' : NVVP)
  (rec : CorrelationRecord) :
  getMarkerInfo objId t e st = (Ok rec, st') ->
  StronglySorted Z.lt (out_seqIds rec)
  /\ (forall z, In z (out_seqIds rec) <->
                exists m, In m (out_seqMarkers rec) /\ seq_of m = Ok z)
  /\ StronglySorted Z.lt (out_altSeqIds rec)
  /\ (forall z, In z (out_altSeqIds rec) <->
                exists m, In m (out_altSeqMarkers rec) /\ seq_of m = Ok z)
  /\ Forall (fun m => Py.contains "layer:" m = true) (out_layerMarkers rec)
  /\ out_layerNames rec
     = map (fun m => nth 1 (Py.split ":" m) EmptyString) (out_layerMarkers rec).
Proof.
  intros H. rewrite getMarkerInfo_unfold in H. cbn zeta in H.
  destruct (bin_loop _ _ _) as [bins|] eqn:Eb; [|discriminate].
  destruct (normalise (seqMarkers bins)) as [sm|] eqn:En; [|discriminate].
  assert (Hret : exists alt, returned bins sm (list_set_str (otherMarkers bins)) alt = Ok rec).
  { destruct (truthy _ && negb _).
    - destruct (lookahead_alt _ _ _ _) as [alt|]; [|discriminate].
      exists alt. congruence.
    - exists []. congruence. }
  destruct Hret as [alt Hret].
  pose proof (returned_Ok _ _ _ _ _ Hret) as (Hl & _ & _ & Hs & _ & Ha & _).
  pose proof (returned_parts _ _ _ _ _ Hret) as (Hids & Haids & Hnames).
  rewrite Hs, Ha, Hl.
  destruct (getSeqId_ids _ _ Hids) as [S1 I1].
  destruct (getSeqId_ids _ _ Haids) as [S2 I2].
  assert (Hlayer : Forall (fun m => Py.contains "layer:" m = true) (layerMarkers bins)).
  { apply Forall_forall. intros m Hm.
    destruct (bin_loop_bin_of _ _ _ Layer m Eb Hm) as [Hc _].
    unfold classify in Hc.
    destruct (is_pyprof m), (Py.contains "layer:" m),
      (Py.contains "traceMarker" m), (Py.contains "strRepr" m),
      (Py.contains ", seq = " m); congruence. }
  repeat split; try assumption; try apply I1; try apply I2.
  rewrite (getLayerName_layers _ Hlayer) in Hnames. congruence.
Qed.
End Records.

(** ** The objectId of a kernel and the objectId of a marker *)

Lemma le_bytes_of_mod (n : nat) :
  forall x y, (x mod 256 ^ Z.of_nat n = y mod 256 ^ Z.of_nat n)%Z ->
              le_bytes n x = le_bytes n y.
Proof.
  induction n as [|n IH]; intros x y H; [reflexivity|].
  rewrite Nat2Z.inj_succ, Z.pow_succ_r in H by lia.
  rewrite !Z.rem_mul_r in H by lia.
  pose proof (Z.mod_pos_bound x 256 ltac:(lia)) as Hx.
  pose proof (Z.mod_pos_bound y 256 ltac:(lia)) as Hy.
  cbn [le_bytes]. f_equal; [lia|]. apply IH. lia.
Qed.

Lemma masked_tid_mod (tid : Z) : masked_tid tid = (tid mod 2 ^ 32)%Z.
Proof.
  unfold masked_tid. change 4294967295%Z with (Z.ones 32).
  apply Z.land_ones. lia.
Qed.

(** X4. The join key of kernels and markers.  For a process id of 32 bits
    [encode_object_id] never fails on a thread id masked by
    [getKernelInfo], whatever the thread id; and the code of the
    process id and the masked thread id is the [HEX] of the twelve
    bytes of the process id and of the thread id itself, which is what
    a marker of that thread carries, exactly when the thread id is
    between 0 and [2 ^ 32 - 1]. *)
Theorem object_id_of_masked_tid (pid tid : Z) :
  (- 2 ^ 31 <= pid < 2 ^ 31)%Z ->
  (- 2 ^ 63 <= tid < 2 ^ 63)%Z ->
  encode_object_id pid (masked_tid tid)
  = Some (sql_hex (le_bytes 4 pid ++ le_bytes 8 (masked_tid tid)))
  /\ (encode_object_id pid (masked_tid tid)
      = Some (sql_hex (le_bytes 4 pid ++ le_bytes 8 tid))
      <-> (0 <= tid < 2 ^ 32)%Z).
Proof.
  intros Hp Ht.
  assert (Hm : (0 <= masked_tid tid < 2 ^ 32)%Z)
    by (rewrite masked_tid_mod; apply Z.mod_pos_bound; lia).
  assert (E : encode_object_id pid (masked_tid tid)
              = Some (sql_hex (le_bytes 4 pid ++ le_bytes 8 (masked_tid tid)))).
  { unfold encode_object_id, pack_i, pack_q.
    destruct (Z.leb_spec (- 2 ^ 31) pid), (Z.ltb_spec pid (2 ^ 31)); try lia.
    destruct (Z.leb_spec (- 2 ^ 63) (masked_tid tid)),
      (Z.ltb_spec (masked_tid tid) (2 ^ 63)); try lia.
    cbn [andb]. f_equal. apply upper_hexlify, Forall_app.
    split; apply le_bytes_range. }
  split; [exact E|]. rewrite E. split.
  - intros H0.
    assert (H : sql_hex (le_bytes 4 pid ++ le_bytes 8 (masked_tid tid))
                = sql_hex (le_bytes 4 pid ++ le_bytes 8 tid)) by congruence.
    clear H0.
    apply sql_hex_inj in H; try (apply Forall_app; split; apply le_bytes_range).
    apply app_inv_head in H. apply le_bytes_mod in H.
    rewrite masked_tid_mod in H.
    change (256 ^ Z.of_nat 8)%Z with 18446744073709551616%Z in H.
    change (2 ^ 32)%Z with 4294967296%Z in *.
    change (2 ^ 63)%Z with 9223372036854775808%Z in *.
    Z.div_mod_to_equations. lia.
  - intros H. do 3 f_equal. apply le_bytes_of_mod.
    rewrite masked_tid_mod. rewrite (Z.mod_small tid (2 ^ 32)) by lia. reflexivity.
Qed.

Lemma object_id_of_masked_tid_witness :
  encode_object_id 10 (masked_tid 1)
  = Some (sql_hex (le_bytes 4 10 ++ le_bytes 8 (masked_tid 1)))
  /\ (encode_object_id 10 (masked_tid 1)
      = Some (sql_hex (le_bytes 4 10 ++ le_bytes 8 1))
      <-> (0 <= 1 < 2 ^ 32)%Z).
Proof. apply (object_id_of_masked_tid 10 1); lia. Defined.

(** ** The look-ahead window *)

Section Window.
Context {R : Runtime} {L : RuntimeLaws R}.

(** X15. The texts that the look-ahead gathers come from the window and
    from nowhere else: each one is the text of a row of the objectId
    whose id is strictly between the cursor and the id of the last
    enclosing marker, and it contains [", seq="].  So neither the last
    enclosing marker nor a row at or below the cursor is ever among
    them, and no row of another objectId. *)
Theorem lookahead_window_sound (d : Db) (objId : string) (lo hi : Z)
  (alt : list string) (m : string) :
  lookahead_alt d objId lo hi = Ok alt ->
  In m alt ->
  Py.contains ", seq=" m = true
  /\ exists r, In r (marker d) /\ objectId r = objId
               /\ (lo < id r < hi)%Z /\ getString d (name r) = Ok m.
Proof.
  unfold lookahead_alt. rewrite alt_loop_texts.
  destruct (mapM (getString d) (map r_name (select_between d objId lo hi)))
    as [texts|] eqn:E; cbn [rbind]; [|discriminate].
  intros H Hm. apply (normalise_incl _ _ m H) in Hm. simpl in Hm.
  apply filter_In in Hm. destruct Hm as [Hm Hloose]. split; [exact Hloose|].
  apply mapM_Ok_Forall2 in E.
  destruct (Forall2_In_r _ _ _ m E Hm) as [n [Hn Hget]].
  unfold select_between in Hn. rewrite map_map in Hn. apply in_map_iff in Hn.
  destruct Hn as [r [<- Hr]]. apply window_In in Hr.
  exists r. simpl in Hget. tauto.
Qed.
End Window.

Lemma lookahead_window_sound_witness :
  let m := "CheckpointFunctionBackward, seq=3, seq = 3" in
  Py.contains ", seq=" m = true
  /\ exists r, In r (marker checkpointing) /\ objectId r = O1
               /\ (0 < id r < 2)%Z /\ getString checkpointing (name r) = Ok m.
Proof.
  apply (lookahead_window_sound (L := ref_runtime_laws) checkpointing O1 0 2
           ["CheckpointFunctionBackward, seq=3, seq = 3"]).
  - vm_compute; reflexivity.
  - left; reflexivity.
Defined.

(** ** The further properties on the example databases *)

Example encode_object_id_ex :
  encode_object_id 10 1 = Some O1 /\ encode_object_id 10 2 = Some O2
  /\ encode_object_id (2 ^ 31) 0 = None /\ encode_object_id 0 (2 ^ 63) = None
  /\ encode_object_id (-1) (-2) = Some "FFFFFFFFFEFFFFFFFFFFFFFF".
Proof. repeat split; vm_compute; reflexivity. Qed.

(** A push and a pop of range 1 give one row; the push of range 2 has
    no pop and the pop of range 3 has no push: they give none. *)
Example createMarkerTable_ex :
  createMarkerTable
    [ {| RawEvent._id_ := 11; RawEvent.id := 1; RawEvent.timestamp := 100;
         RawEvent.objectId := [10; 0; 0; 0; 1; 0; 0; 0; 0; 0; 0; 0]%Z;
         RawEvent.name := 40; RawEvent.flags := 2 |};
      {| RawEvent._id_ := 12; RawEvent.id := 2; RawEvent.timestamp := 110;
         RawEvent.objectId := [10; 0; 0; 0; 1; 0; 0; 0; 0; 0; 0; 0]%Z;
         RawEvent.name := 41; RawEvent.flags := 2 |};
      {| RawEvent._id_ := 13; RawEvent.id := 1; RawEvent.timestamp := 150;
         RawEvent.objectId := [10; 0; 0; 0; 1; 0; 0; 0; 0; 0; 0; 0]%Z;
         RawEvent.name := 0; RawEvent.flags := 4 |};
      {| RawEvent._id_ := 14; RawEvent.id := 3; RawEvent.timestamp := 160;
         RawEvent.objectId := [10; 0; 0; 0; 1; 0; 0; 0; 0; 0; 0; 0]%Z;
         RawEvent.name := 0; RawEvent.flags := 4 |} ]
  = [ row 11 100 150 O1 40 ].
Proof. vm_compute; reflexivity. Qed.

Lemma getMarkerInfo_no_marker_witness :
  getMarkerInfo (R := ref_runtime) O1 500 600 (init two_threads)
  = (Ok empty_record,
     {| db := delete O1 500 (db (init two_threads));
        markerId := markerId (init two_threads) |}).
Proof.
  apply (getMarkerInfo_no_marker (L := ref_runtime_laws) O1 500 600 (init two_threads)).
  intros r [<-|[<-|[<-|[]]]]; reflexivity.
Defined.

Lemma backward_skips_lookahead_witness :
  markerId (snd (getMarkerInfo (R := ref_runtime) O1 210 220 (init forward_backward)))
  = markerId (init forward_backward)
  /\ forall rec st',
       getMarkerInfo (R := ref_runtime) O1 210 220 (init forward_backward) = (Ok rec, st') ->
       out_altSeqMarkers rec = [] /\ out_altSeqIds rec = [].
Proof.
  apply (backward_skips_lookahead (L := ref_runtime_laws) O1 210 220
           (init forward_backward) ["CudnnConvolutionBackward, seq = 5"]
           "CudnnConvolutionBackward, seq = 5").
  - vm_compute; reflexivity.
  - left; reflexivity.
  - vm_compute; reflexivity.
  - vm_compute; reflexivity.
Defined.

Lemma resolve_again_witness :
  getMarkerInfo (R := ref_runtime) O1 10 20 (init forward_backward)
  = (Ok record_forward, after_forward)
  /\ getMarkerInfo (R := ref_runtime) O1 10 20 after_forward
     = (Ok (without_alt record_forward), after_forward).
Proof.
  assert (H : getMarkerInfo (R := ref_runtime) O1 10 20 (init forward_backward)
              = (Ok record_forward, after_forward)) by (vm_compute; reflexivity).
  split; [exact H|].
  apply (resolve_again (L := ref_runtime_laws) O1 10 20 (init forward_backward)
           after_forward record_forward); [lia | exact H].
Defined.

Lemma record_marker_lists_witness :
  NoDup (out_seqMarkers record_forward)
  /\ NoDup (out_otherMarkers record_forward)
  /\ NoDup (out_altSeqMarkers record_forward)
  /\ Forall (fun m => Py.contains ", seq = " m = true) (out_seqMarkers record_forward)
  /\ Forall (fun m => Py.contains ", seq=" m = true
                      /\ Py.contains ", seq = " m = true)
            (out_altSeqMarkers record_forward).
Proof.
  apply (record_marker_lists (L := ref_runtime_laws) O1 10 20 (init forward_backward)
           after_forward record_forward).
  vm_compute; reflexivity.
Defined.

Lemma record_ids_and_names_witness :
  StronglySorted Z.lt (out_seqIds record_forward)
  /\ (forall z, In z (out_seqIds record_forward) <->
                exists m, In m (out_seqMarkers record_forward) /\ seq_of m = Ok z)
  /\ StronglySorted Z.lt (out_altSeqIds record_forward)
  /\ (forall z, In z (out_altSeqIds record_forward) <->
                exists m, In m (out_altSeqMarkers record_forward) /\ seq_of m = Ok z)
  /\ Forall (fun m => Py.contains "layer:" m = true) (out_layerMarkers record_forward)
  /\ out_layerNames record_forward
     = map (fun m => nth 1 (Py.split ":" m) EmptyString) (out_layerMarkers record_forward).
Proof.
  apply (record_ids_and_names (L := ref_runtime_laws) O1 10 20 (init forward_backward)
           after_forward record_forward).
  vm_compute; reflexivity.
Defined.

(** ** Where an exception of [getMarkerInfo] comes from *)

Lemma mapM_seqcompare_raise_only (l : list string) (ex : exn) :
  mapM seqcompare l = Raise ex -> ex = AssertionError.
Proof.
  induction l as [|x l IH]; [discriminate|]. cbn [mapM].
  destruct (seqcompare x) as [k|ex'] eqn:E; cbn [rbind].
  - destruct (mapM seqcompare l) as [ks|ex'']; cbn [rbind]; [discriminate|].
    intros H. apply IH. congruence.
  - intros H. apply seqcompare_raise in E. destruct E as [-> _]. congruence.
Qed.

Section Failures.
Context {R : Runtime} {L : RuntimeLaws R}.

Lemma normalise_raise_only (l : list string) (ex : exn) :
  normalise l = Raise ex -> ex = AssertionError.
Proof.
  unfold normalise, dedup_sort_prune, sort_by_key.
  destruct (truthy l); [|discriminate].
  destruct (mapM seqcompare (list_set_str l)) as [ks|ex'] eqn:E; cbn [rbind].
  - set (sorted := map snd (sort_keyed String.ltb (combine ks (list_set_str l)))).
    assert (Hperm : Permutation sorted (list_set_str l)).
    { apply (sort_by_key_perm seqcompare). unfold sort_by_key. rewrite E. reflexivity. }
    assert (Hcomma : Forall (fun m => Py.contains "," m = true) sorted).
    { eapply Permutation_Forall; [symmetry; exact Hperm|].
      apply mapM_Ok_Forall2 in E. clear Hperm sorted.
      induction E as [|x k xs ks' Hx _ IH]; constructor; [|exact IH].
      apply seq_delimiter_has_comma. eapply seqcompare_Ok_strict. exact Hx. }
    destruct sorted as [|m0 rest]; [simpl; congruence|].
    unfold prune. rewrite (prune_from_adjacent rest m0 Hcomma). discriminate.
  - intros H. apply mapM_seqcompare_raise_only in E. congruence.
Qed.

(** X14. The two ways in which [getMarkerInfo] fails.  Either the exception
    is an [AssertionError] raised before the eviction, and then the
    database is as it was; or the exception comes from the [return]
    statement, after the eviction has been done and with the cursor
    already at its new value.  So a [ValueError], an [IndexError] or a
    failure of [eval] always leaves the table evicted. *)
Theorem failure_before_or_after_eviction (objId : string) (t e : Z) (st st' : NVVP)
  (ex : exn) :
  getMarkerInfo objId t e st = (Raise ex, st') ->
  (ex = AssertionError /\ db st' = db st)
  \/ (db st' = delete objId t (db st)
      /\ exists bins sm alt,
           bin_loop (db st) no_bins (select_enclosing (db st) objId t e) = Ok bins
           /\ normalise (seqMarkers bins) = Ok sm
           /\ returned bins sm (list_set_str (otherMarkers bins)) alt = Raise ex).
Proof.
  rewrite getMarkerInfo_unfold. cbn zeta.
  destruct (bin_loop _ _ _) as [bins|ex1] eqn:Eb.
  - destruct (bin_loop_normalise _ _ _ Eb) as [sm Esm]. rewrite Esm.
    destruct (truthy _ && negb _).
    + unfold lookahead_alt.
      destruct (alt_loop _ _ _) as [alt0|ex2] eqn:Ea; cbn [rbind].
      * destruct (normalise alt0) as [alt|ex3] eqn:En.
        -- intros H. injection H as H <-. right. split; [reflexivity|].
           exists bins, sm, alt. auto.
        -- intros H. injection H as <- <-. left.
           split; [eapply normalise_raise_only; exact En | reflexivity].
      * intros H. injection H as <- <-. left. split; [|reflexivity].
        rewrite alt_loop_texts in Ea.
        destruct (mapM _ _) as [texts|ex4] eqn:Em; cbn [rbind] in Ea; [discriminate|].
        apply mapM_getString_raise in Em. congruence.
    + intros H. injection H as H <-. right. split; [reflexivity|].
      exists bins, sm, []. auto.
  - intros H. injection H as <- <-. left. split; [|reflexivity].
    rewrite bin_loop_texts in Eb.
    destruct (mapM _ _) as [texts|ex4] eqn:Em; cbn [rbind] in Eb; [discriminate|].
    apply mapM_getString_raise in Em. congruence.
Qed.
End Failures.

Lemma failure_before_or_after_eviction_witness :
  (AssertionError = AssertionError
   /\ db {| db := two_threads; markerId := 3 |} = db (init two_threads))
  \/ (db {| db := two_threads; markerId := 3 |} = delete O2 10 (db (init two_threads))
      /\ exists bins sm alt,
           bin_loop (db (init two_threads)) no_bins
             (select_enclosing (R := ref_runtime) (db (init two_threads)) O2 10 20) = Ok bins
           /\ normalise (R := ref_runtime) (seqMarkers bins) = Ok sm
           /\ returned (R := ref_runtime) bins sm
                (list_set_str (Runtime := ref_runtime) (otherMarkers bins)) alt
              = Raise AssertionError).
Proof.
  apply (failure_before_or_after_eviction (L := ref_runtime_laws) O2 10 20
           (init two_threads) {| db := two_threads; markerId := 3 |} AssertionError).
  vm_compute; reflexivity.
Defined.

(** ** The markers of [nvmarker.py] and their category *)

Lemma startswith_append (p a b : string) :
  Py.startswith p a = true -> Py.startswith p (a ++ b) = true.
Proof.
  revert a. induction p as [|c p IH]; intros a H; [reflexivity|].
  destruct a as [|d a]; simpl in *; [discriminate|].
  apply andb_true_iff in H. destruct H as [H1 H2]. rewrite H1, (IH a H2). reflexivity.
Qed.

Lemma contains_append_r (sub a b : string) :
  Py.contains sub b = true -> Py.contains sub (a ++ b) = true.
Proof.
  intros H. induction a as [|c a IH]; [exact H|].
  cbn [append]. apply contains_cons. exact IH.
Qed.

Lemma contains_append_l (sub a b : string) :
  Py.contains sub a = true -> Py.contains sub (a ++ b) = true.
Proof.
  induction a as [|c a IH]; cbn [Py.contains]; intros H.
  - rewrite orb_false_r in H. apply startswith_contains.
    apply (startswith_append sub EmptyString b). exact H.
  - apply orb_true_iff in H. destruct H as [H|H].
    + apply startswith_contains. apply (startswith_append sub (String c a) b). exact H.
    + cbn [append]. apply contains_cons. apply IH. exact H.
Qed.

Lemma startswith_self_append (k x : string) : Py.startswith k (k ++ x) = true.
Proof.
  induction k as [|c k IH]; [reflexivity|]. simpl. rewrite Ascii.eqb_refl. exact IH.
Qed.

Lemma contains_concat (sub sep : string) (items : list string) (r : string) :
  In r items -> Py.contains sub r = true ->
  Py.contains sub (String.concat sep items) = true.
Proof.
  intros Hin Hr. induction items as [|x items IH]; [contradiction|].
  cbn [String.concat]. destruct items as [|y items].
  - destruct Hin as [->|[]]. exact Hr.
  - destruct Hin as [->|Hin].
    + apply contains_append_l. exact Hr.
    + apply contains_append_r, contains_append_r. apply IH. exact Hin.
Qed.

(** A text found in the rendering of one item of a dict is found in
    the rendering of the dict. *)
Lemma contains_dict_item (sub : string) (items : list (string * string)) (kv : string * string) :
  In kv items ->
  Py.contains sub ("'" ++ fst kv ++ "': " ++ snd kv)%string = true ->
  Py.contains sub (Nvmarker.dict_text items) = true.
Proof.
  intros Hin H. unfold Nvmarker.dict_text.
  apply (contains_append_r sub "{"), contains_append_l.
  apply (contains_concat sub ", " _ ("'" ++ fst kv ++ "': " ++ snd kv)%string);
    [|exact H].
  apply (in_map (fun kv0 => ("'" ++ fst kv0 ++ "': " ++ snd kv0)%string)). exact Hin.
Qed.

Lemma contains_dict_key (items : list (string * string)) (k v : string) :
  In (k, v) items -> Py.contains k (Nvmarker.dict_text items) = true.
Proof.
  intros Hin. apply (contains_dict_item k items (k, v) Hin).
  cbn [fst snd]. apply (contains_append_r k "'").
  apply startswith_contains, startswith_self_append.
Qed.

Lemma contains_dict_value (sub : string) (items : list (string * string)) (k v : string) :
  In (k, v) items -> Py.contains sub v = true ->
  Py.contains sub (Nvmarker.dict_text items) = true.
Proof.
  intros Hin H. apply (contains_dict_item sub items (k, v) Hin).
  cbn [fst snd]. apply (contains_append_r sub "'"), contains_append_r.
  apply (contains_append_r sub "': "). exact H.
Qed.

(** Induction on an object and, for a list or a tuple, on its elements. *)
Lemma PyObj_nested_ind (P : Nvmarker.PyObj -> Prop) :
  (forall item text, P (Nvmarker.Tensor0 item text)) ->
  (forall size dtype text, P (Nvmarker.Tensor size dtype text)) ->
  (forall shape dtype text, P (Nvmarker.NdArray shape dtype text)) ->
  (forall s, P (Nvmarker.Scal s)) ->
  (forall is_list elems, Forall P elems -> P (Nvmarker.Seq is_list elems)) ->
  (forall text, P (Nvmarker.Opaque text)) ->
  forall o, P o.
Proof.
  intros H0 H1 H2 H3 H4 H5. fix IH 1. intros [item text|size dtype text|shape dtype text|s|is_list elems|text].
  - apply H0.
  - apply H1.
  - apply H2.
  - apply H3.
  - apply H4. induction elems as [|e elems IHl]; constructor; [apply IH | exact IHl].
  - apply H5.
Qed.

Section MarkerTexts.
Variable repr_str : string -> string.

Lemma record_has_type (name : string) (o : Nvmarker.PyObj) :
  forall r, In r (Nvmarker.foo_obj repr_str name o) -> Py.contains "type" r = true.
Proof.
  induction o as [item text|size dtype text|shape dtype text|s|is_list elems IH|text]
    using PyObj_nested_ind; intros r Hr; cbn [Nvmarker.foo_obj] in Hr.
  - destruct Hr as [<-|[]]. eapply contains_dict_key. right; left; reflexivity.
  - destruct Hr as [<-|[]]. eapply contains_dict_key. right; left; reflexivity.
  - destruct Hr as [<-|[]]. eapply contains_dict_key. right; left; reflexivity.
  - destruct Hr as [<-|[]]. eapply contains_dict_key. right; left; reflexivity.
  - destruct elems as [|e elems].
    + destruct Hr as [<-|[]]. eapply contains_dict_key. right; left; reflexivity.
    + destruct (Nvmarker.isscalar e).
      * destruct Hr as [<-|[]]. eapply contains_dict_key. right; left; reflexivity.
      * apply in_flat_map in Hr. destruct Hr as [e' [He' Hr]].
        rewrite Forall_forall in IH. apply (IH e' He' r Hr).
  - contradiction.
Qed.

Lemma flat_map_nil_iff {A B : Type} (f : A -> list B) (l : list A) :
  flat_map f l = [] <-> forall x, In x l -> f x = [].
Proof.
  induction l as [|x l IH]; simpl; [tauto|]. split.
  - intros H. apply app_eq_nil in H. destruct H as [H1 H2].
    intros y [<-|Hy]; [exact H1 | apply IH; assumption].
  - intros H. rewrite (H x (or_introl eq_refl)). apply IH. intros y Hy. apply H. right. exact Hy.
Qed.

Lemma recorded_iff (name : string) (o : Nvmarker.PyObj) :
  Nvmarker.foo_obj repr_str name o <> [] <-> Nvmarker.recorded o = true.
Proof.
  induction o as [item text|size dtype text|shape dtype text|s|is_list elems IH|text]
    using PyObj_nested_ind; cbn [Nvmarker.foo_obj Nvmarker.recorded];
    try (split; [reflexivity | discriminate]).
  - destruct elems as [|e elems]; [split; [reflexivity | discriminate]|].
    destruct (Nvmarker.isscalar e); [split; [reflexivity | discriminate]|].
    rewrite existsb_exists. rewrite Forall_forall in IH. split.
    + intros H. destruct (existsb Nvmarker.recorded (e :: elems)) eqn:E.
      * apply existsb_exists in E. exact E.
      * exfalso. apply H. apply flat_map_nil_iff. intros x Hx.
        destruct (Nvmarker.foo_obj repr_str name x) as [|r rs] eqn:Ex; [reflexivity|].
        assert (Hrec : Nvmarker.recorded x = true) by (apply (IH x Hx); congruence).
        assert (existsb Nvmarker.recorded (e :: elems) = true)
          by (apply existsb_exists; exists x; auto).
        congruence.
    + intros [x [Hx Hrec]] H. rewrite flat_map_nil_iff in H.
      apply (IH x Hx) in Hrec. apply Hrec, H, Hx.
  - split; [intros H; exfalso; apply H; reflexivity | discriminate].
Qed.

Lemma arg_records_iff (args : list Nvmarker.PyObj) (kwargs : list (string * Nvmarker.PyObj)) :
  Nvmarker.arg_records repr_str args kwargs <> [] <->
  existsb Nvmarker.recorded args
  || existsb (fun kv => Nvmarker.recorded (snd kv)) kwargs = true.
Proof.
  unfold Nvmarker.arg_records, Nvmarker.foo.
  rewrite orb_true_iff, !existsb_exists. split.
  - intros H.
    destruct (flat_map (Nvmarker.foo_obj repr_str EmptyString) args) as [|r rs] eqn:E1.
    + right. simpl in H.
      destruct (existsb (fun kv => Nvmarker.recorded (snd kv)) kwargs) eqn:E2;
        [apply existsb_exists in E2; exact E2|].
      exfalso. apply H. apply flat_map_nil_iff. intros kv Hkv. cbn [flat_map].
      rewrite app_nil_r.
      destruct (Nvmarker.foo_obj repr_str (fst kv) (snd kv)) as [|r rs] eqn:Ex; [reflexivity|].
      assert (Hrec : Nvmarker.recorded (snd kv) = true)
        by (apply (recorded_iff (fst kv)); congruence).
      assert (existsb (fun kv => Nvmarker.recorded (snd kv)) kwargs = true)
        by (apply existsb_exists; exists kv; auto).
      congruence.
    + left. assert (Hr : In r (flat_map (Nvmarker.foo_obj repr_str EmptyString) args))
        by (rewrite E1; left; reflexivity).
      apply in_flat_map in Hr. destruct Hr as [o [Ho Hr]]. exists o. split; [exact Ho|].
      apply (recorded_iff EmptyString). intros Hnil. rewrite Hnil in Hr. exact Hr.
  - intros [[o [Ho Hrec]]|[kv [Hkv Hrec]]] H; apply app_eq_nil in H; destruct H as [H1 H2].
    + rewrite flat_map_nil_iff in H1. apply (recorded_iff EmptyString) in Hrec.
      apply Hrec, H1, Ho.
    + rewrite flat_map_nil_iff in H2. specialize (H2 kv Hkv). cbn [flat_map] in H2.
      rewrite app_nil_r in H2. apply (recorded_iff (fst kv)) in Hrec. auto.
Qed.

Lemma arg_records_type (args : list Nvmarker.PyObj) (kwargs : list (string * Nvmarker.PyObj)) :
  forall r, In r (Nvmarker.arg_records repr_str args kwargs) ->
            Py.contains "type" r = true.
Proof.
  intros r Hr. unfold Nvmarker.arg_records, Nvmarker.foo in Hr.
  apply in_app_or in Hr. destruct Hr as [Hr|Hr]; apply in_flat_map in Hr.
  - destruct Hr as [o [_ Hr]]. apply (record_has_type _ _ _ Hr).
  - destruct Hr as [kv [_ Hr]]. cbn [flat_map] in Hr. rewrite app_nil_r in Hr.
    apply (record_has_type _ _ _ Hr).
Qed.

(** X20. Op markers and their category.  The text that [argMarker]
    writes always contains ["mod"], ["op"] and ["args"].  It holds one
    record at least exactly when some positional or keyword argument is
    a tensor, a numpy array, a scalar, an empty list or tuple, a list or
    tuple that begins with a scalar, or a list or tuple holding such an
    argument; then it also contains ["type"], so that it passes the
    first test of the classification: it is an opArgs marker, binned as
    such unless it is pre-filtered. *)
Theorem argMarker_recognised (mod_name op : string)
  (args : list Nvmarker.PyObj) (kwargs : list (string * Nvmarker.PyObj)) :
  Py.contains "mod" (Nvmarker.argMarker repr_str mod_name op args kwargs) = true
  /\ Py.contains "op" (Nvmarker.argMarker repr_str mod_name op args kwargs) = true
  /\ Py.contains "args" (Nvmarker.argMarker repr_str mod_name op args kwargs) = true
  /\ (Nvmarker.arg_records repr_str args kwargs <> [] <->
      existsb Nvmarker.recorded args
      || existsb (fun kv => Nvmarker.recorded (snd kv)) kwargs = true)
  /\ (existsb Nvmarker.recorded args
      || existsb (fun kv => Nvmarker.recorded (snd kv)) kwargs = true ->
      is_pyprof (Nvmarker.argMarker repr_str mod_name op args kwargs) = true
      /\ classify (Nvmarker.argMarker repr_str mod_name op args kwargs) = OpArgs
      /\ (is_checkpoint (Nvmarker.argMarker repr_str mod_name op args kwargs) = false ->
          forall b,
            pyprofMarkers (bin_marker b (Nvmarker.argMarker repr_str mod_name op args kwargs))
            = pyprofMarkers b ++ [Nvmarker.argMarker repr_str mod_name op args kwargs])).
Proof.
  set (text := Nvmarker.argMarker repr_str mod_name op args kwargs).
  assert (Hmod : Py.contains "mod" text = true)
    by (eapply contains_dict_key; left; reflexivity).
  assert (Hop : Py.contains "op" text = true)
    by (eapply contains_dict_key; right; left; reflexivity).
  assert (Hargs : Py.contains "args" text = true)
    by (eapply contains_dict_key; right; right; left; reflexivity).
  split; [exact Hmod|]. split; [exact Hop|]. split; [exact Hargs|].
  split; [apply arg_records_iff|].
  intros Hrec. apply arg_records_iff in Hrec.
  assert (Htype : Py.contains "type" text = true).
  { destruct (Nvmarker.arg_records repr_str args kwargs) as [|r rs] eqn:E; [congruence|].
    apply (contains_dict_value "type" _ "args"
             (Nvmarker.list_text (Nvmarker.arg_records repr_str args kwargs)));
      [right; right; left; reflexivity|].
    unfold Nvmarker.list_text. apply (contains_append_r "type" "["), contains_append_l.
    apply (contains_concat "type" ", " _ r); [rewrite E; left; reflexivity|].
    apply (arg_records_type args kwargs). rewrite E. left. reflexivity. }
  assert (Hpy : is_pyprof text = true)
    by (unfold is_pyprof; rewrite Hmod, Hop, Hargs, Htype; reflexivity).
  split; [exact Hpy|]. split; [unfold classify; rewrite Hpy; reflexivity|].
  intros Hc b. change (pyprofMarkers (bin_marker b text)) with (bin_of OpArgs (bin_marker b text)).
  rewrite bin_marker_bin_of, Hc. unfold classify. rewrite Hpy. reflexivity.
Qed.

(** X21. Trace markers and module markers.  The text of [traceMarker]
    always contains ["traceMarker"], so that it is never classified as
    moduleRepr, sequence or other.  [modMarker] raises
    [AssertionError] without a positional argument; otherwise its text
    contains ["mod"] and ["strRepr"], so that it is never classified
    as sequence or other. *)
Theorem trace_and_module_markers (mod_name : string) :
  (forall stack,
     Py.contains "traceMarker" (Nvmarker.traceMarker repr_str stack) = true
     /\ classify (Nvmarker.traceMarker repr_str stack) <> ModuleRepr
     /\ classify (Nvmarker.traceMarker repr_str stack) <> Sequence
     /\ classify (Nvmarker.traceMarker repr_str stack) <> Other)
  /\ Nvmarker.modMarker repr_str mod_name [] = Raise AssertionError
  /\ (forall a rest, exists text,
        Nvmarker.modMarker repr_str mod_name (a :: rest) = Ok text
        /\ Py.contains "mod" text = true
        /\ Py.contains "strRepr" text = true
        /\ classify text <> Sequence /\ classify text <> Other).
Proof.
  split; [|split; [reflexivity|]].
  - intros stack.
    assert (H : Py.contains "traceMarker" (Nvmarker.traceMarker repr_str stack) = true)
      by (eapply contains_dict_key; left; reflexivity).
    split; [exact H|]. unfold classify. rewrite H.
    set (text := Nvmarker.traceMarker repr_str stack).
    destruct (is_pyprof text), (Py.contains "layer:" text); repeat split; discriminate.
  - intros a rest.
    set (text := Nvmarker.dict_text [("mod", repr_str mod_name); ("strRepr", repr_str a)]).
    exists text. split; [reflexivity|].
    assert (H1 : Py.contains "mod" text = true)
      by (eapply contains_dict_key; left; reflexivity).
    assert (H2 : Py.contains "strRepr" text = true)
      by (eapply contains_dict_key; right; left; reflexivity).
    split; [exact H1|]. split; [exact H2|]. unfold classify. rewrite H2.
    destruct (is_pyprof text), (Py.contains "layer:" text),
      (Py.contains "traceMarker" text); split; discriminate.
Qed.
End MarkerTexts.

(** An op marker of a call without arguments has no record and no
    ["type"]: it is binned with the other markers. *)
Example argMarker_no_argument :
  Nvmarker.argMarker Nvmarker.plain_repr "torch.cuda" "synchronize" [] []
  = "{'mod': 'torch.cuda', 'op': 'synchronize', 'args': []}"
  /\ classify (Nvmarker.argMarker Nvmarker.plain_repr "torch.cuda" "synchronize" [] [])
     = Other.
Proof. split; vm_compute; reflexivity. Qed.

Example argMarker_ex :
  Nvmarker.argMarker Nvmarker.plain_repr "torch" "add"
    [ Nvmarker.Tensor [2; 3]%Z "torch.float32" "tensor(...)";
      Nvmarker.Scal (Nvmarker.SFloat Nvmarker.FInf);
      Nvmarker.Seq true [ Nvmarker.Tensor0 (Nvmarker.SInt 4) "tensor(4)" ] ]
    [ ("dim", Nvmarker.Seq false [Nvmarker.Scal (Nvmarker.SInt 1)]) ]
  = "{'mod': 'torch', 'op': 'add', 'args': [{'name': '', 'type': 'tensor', 'shape': (2, 3), 'dtype': 'float32'}, {'name': '', 'type': 'float', 'value': 'inf'}, {'name': '', 'type': 'int', 'value': 4}, {'name': 'dim', 'type': 'tuple', 'value': (1,)}]}".
Proof. vm_compute; reflexivity. Qed.
